(** * VrikshAI: the identification gate, the token service and the
      ownership-scoped plant collection

    A shallow embedding of the Node.js serverless back end:
    - [api/darshan.js]                (module [Darshan]),
    - [api/_utils/auth_middleware.js] (module [Auth]),
    - [api/_utils/database.js]        (module [Database]), with the table
      of plants as [backend/schema.sql] declares it,
    - [api/vana.js]                   (module [Vana]),
    - [api/auth.js]                   (module [AuthEndpoint]).

    JavaScript values that cross the wire are JSON values; a property that
    is absent reads as [None] (JavaScript's [undefined]).  Exceptions are
    explicit: a computation returns [Return v] or [Throw e].  What the
    program obtains from its runtime and its libraries (JSON.parse, Date,
    the compact JWT serialisation and its MAC) is taken as an interface,
    with a reference instance against which concrete requests are run. *)

From Stdlib Require Import String Ascii List ZArith QArith Qround Bool Lia.
Import ListNotations.

Local Open Scope string_scope.
Local Open Scope Z_scope.

(* ================================================================== *)
(** * JavaScript values and exceptions *)
(* ================================================================== *)

Module Js.

(** A JSON number is a double: a finite rational, or an infinity when the
    literal overflows.  JSON has no NaN. *)
Inductive jsnum : Type :=
| Finite (q : Q)
| PosInf
| NegInf.

#[warnings="-register-all"]
Inductive json : Type :=
| JNull
| JBool (b : bool)
| JNum (n : jsnum)
| JStr (s : string)
| JArr (l : list json)
| JObj (o : list (string * json)).

Definition obj : Type := list (string * json).

Definition num (z : Z) : json := JNum (Finite (inject_Z z)).

(** An [Error] object: its class name, its message and, for errors of the
    OpenAI client, the HTTP status it carries. *)
Record js_error : Type := mkError {
  err_name : string;
  err_message : string;
  err_status : option Z
}.

Definition Error (msg : string) : js_error := mkError "Error" msg None.
Definition TypeError (msg : string) : js_error := mkError "TypeError" msg None.
Definition RangeError (msg : string) : js_error := mkError "RangeError" msg None.
Definition SyntaxError (msg : string) : js_error := mkError "SyntaxError" msg None.

Inductive js_result (A : Type) : Type :=
| Return (a : A)
| Throw (e : js_error).
Arguments Return {A} a.
Arguments Throw {A} e.

Definition bind {A B} (m : js_result A) (f : A -> js_result B) : js_result B :=
  match m with
  | Return a => f a
  | Throw e => Throw e
  end.

(** [try { m } catch (e) { h e }] *)
Definition try_catch {A} (m : js_result A) (h : js_error -> js_result A)
  : js_result A :=
  match m with
  | Return a => Return a
  | Throw e => h e
  end.

(** ** Objects as ordered property lists *)

Fixpoint lookup (k : string) (o : obj) : option json :=
  match o with
  | [] => None
  | (k', v) :: r => if (k' =? k)%string then Some v else lookup k r
  end.

(** [delete o[k]] *)
Fixpoint remove (k : string) (o : obj) : obj :=
  match o with
  | [] => []
  | (k', v) :: r =>
      if (k' =? k)%string then remove k r else (k', v) :: remove k r
  end.

(** [o[k] = v]: an existing property keeps its place. *)
Fixpoint set (k : string) (v : json) (o : obj) : obj :=
  match o with
  | [] => [(k, v)]
  | (k', v') :: r =>
      if (k' =? k)%string then (k, v) :: remove k r else (k', v') :: set k v r
  end.

(** [Object.keys(o)], for an object whose keys are distinct. *)
Definition keys (o : obj) : list string := map fst o.

(** ** Coercions and operators *)

Definition truthy (v : option json) : bool :=
  match v with
  | None => false
  | Some JNull => false
  | Some (JBool b) => b
  | Some (JNum (Finite q)) => negb (Qeq_bool q 0)
  | Some (JNum _) => true
  | Some (JStr s) => negb (s =? "")%string
  | Some (JArr _) => true
  | Some (JObj _) => true
  end.

Definition typeof (v : option json) : string :=
  match v with
  | None => "undefined"
  | Some JNull => "object"
  | Some (JBool _) => "boolean"
  | Some (JNum _) => "number"
  | Some (JStr _) => "string"
  | Some (JArr _) => "object"
  | Some (JObj _) => "object"
  end.

Definition jsnum_eqb (a b : jsnum) : bool :=
  match a, b with
  | Finite p, Finite q => Qeq_bool p q
  | PosInf, PosInf => true
  | NegInf, NegInf => true
  | _, _ => false
  end.

(** [a === b]: primitives by value; two distinct arrays or objects are
    never identical. *)
Definition strict_eq (a b : option json) : bool :=
  match a, b with
  | None, None => true
  | Some JNull, Some JNull => true
  | Some (JBool x), Some (JBool y) => Bool.eqb x y
  | Some (JNum x), Some (JNum y) => jsnum_eqb x y
  | Some (JStr x), Some (JStr y) => (x =? y)%string
  | _, _ => false
  end.

(** What the engine supplies: [JSON.parse] ([None] when it throws its
    SyntaxError), and the texts of the errors it raises itself. *)
Class Engine : Type := {
  JSON_parse : string -> option json;
  syntax_error_text : string -> string;
  type_error_text : option json -> string -> string
}.

Section WithEngine.
Context {E : Engine}.

(** [v.k] (also the pattern [{ k } = v]) for the property names the program
    reads, none of which is an array index or a built-in property: reading
    from [null] or [undefined] throws, a primitive or an array has no such
    property. *)
Definition get_prop (v : option json) (k : string) : js_result (option json) :=
  match v with
  | None => Throw (TypeError (type_error_text v k))
  | Some JNull => Throw (TypeError (type_error_text v k))
  | Some (JObj o) => Return (lookup k o)
  | Some _ => Return None
  end.

(** [k in v], for the same property names: the right operand must be an
    object. *)
Definition has_prop (k : string) (v : json) : js_result bool :=
  match v with
  | JObj o => Return (match lookup k o with Some _ => true | None => false end)
  | JArr _ => Return false
  | _ => Throw (TypeError (type_error_text (Some v) k))
  end.

End WithEngine.

(** [Array.isArray(v) && v.length !== 0] negated is the program's test
    [!Array.isArray(v) || v.length === 0]. *)
Definition empty_or_not_array (v : option json) : bool :=
  match v with
  | Some (JArr []) => true
  | Some (JArr (_ :: _)) => false
  | _ => true
  end.

End Js.
Export Js.

Notation "x <- m ;; k" := (bind m (fun x => k))
  (at level 61, m at next level, right associativity).

(* ================================================================== *)
(** * String primitives of the runtime *)
(* ================================================================== *)

Module Str.

(** A text is held as the list of its characters' codes.  The primitives
    below are those of the engine on ASCII text, which is what the program's
    own literals, schemes, paths and error texts are; for a text that a
    client supplies, a statement that depends on [trim], [toLowerCase] or
    [length] says so by requiring [is_ascii] of it (beyond ASCII the engine
    also strips the Unicode blanks, lowers every cased letter and counts
    UTF-16 units). *)
Definition is_ascii (s : string) : bool :=
  forallb (fun c => Nat.ltb (nat_of_ascii c) 128) (list_ascii_of_string s).

Definition is_space (c : ascii) : bool :=
  let n := nat_of_ascii c in
  Nat.eqb n 32 || (Nat.leb 9 n && Nat.leb n 13).

Fixpoint trim_start (s : string) : string :=
  match s with
  | String c r => if is_space c then trim_start r else s
  | EmptyString => EmptyString
  end.

Definition reverse (s : string) : string :=
  string_of_list_ascii (rev (list_ascii_of_string s)).

(** [s.trim()] of ASCII text. *)
Definition trim (s : string) : string :=
  reverse (trim_start (reverse (trim_start s))).

(** [s.includes(sub)] *)
Fixpoint includes (sub s : string) : bool :=
  String.prefix sub s ||
  match s with
  | String _ r => includes sub r
  | EmptyString => false
  end.

(** [s.split(sep)] for a non-empty separator: [skip] counts the characters
    of a separator occurrence still to pass over, [acc] holds the current
    piece in reverse. *)
Fixpoint split_from (sep : string) (skip : nat) (acc : list ascii) (s : string)
  : list string :=
  match s with
  | EmptyString => [string_of_list_ascii (rev acc)]
  | String c r =>
      match skip with
      | S k => split_from sep k acc r
      | O =>
          if String.prefix sep s
          then string_of_list_ascii (rev acc)
               :: split_from sep (String.length sep - 1) [] r
          else split_from sep 0 (c :: acc) r
      end
  end.

Definition split (sep s : string) : list string := split_from sep 0 [] s.

Definition lower_char (c : ascii) : ascii :=
  let n := nat_of_ascii c in
  if Nat.leb 65 n && Nat.leb n 90 then ascii_of_nat (n + 32) else c.

(** [s.toLowerCase()] of ASCII text; of any text, as far as its ASCII
    letters go. *)
Fixpoint toLowerCase (s : string) : string :=
  match s with
  | String c r => String (lower_char c) (toLowerCase r)
  | EmptyString => EmptyString
  end.

Fixpoint drop (n : nat) (s : string) : string :=
  match n, s with
  | S k, String _ r => drop k r
  | _, _ => s
  end.

Definition no_space (s : string) : Prop :=
  ~ In " "%char (list_ascii_of_string s).

End Str.

(* ================================================================== *)
(** * HTTP requests and responses *)
(* ================================================================== *)

Record request : Type := mkRequest {
  req_method : string;
  req_url : string;
  req_headers : list (string * string);
  req_query : obj;
  req_body : option json
}.

Record response : Type := mkResponse {
  status : Z;
  payload : json
}.

Definition failure (msg : string) : json :=
  JObj [("success", JBool false); ("error", JStr msg)].

(* ================================================================== *)
(** * api/darshan.js: the identification endpoint *)
(* ================================================================== *)

Module Darshan.

(** The vision-model gateway, [openai.chat.completions.create] followed by
    [response.choices[0].message.content]: given the image reference it
    yields the reply text or throws. *)
Definition gateway : Type := option json -> js_result string.

Definition requiredFields : list string :=
  ["common_name"; "scientific_name"; "family"; "plant_type"; "confidence";
   "health_status"; "health_notes"].

Definition requiredObjects : list string :=
  ["description"; "care_guide"; "vastu"; "traditional_significance";
   "warnings"].

Definition lt_num (v : option json) (q : Q) : bool :=
  match v with
  | Some (JNum (Finite p)) => negb (Qle_bool q p)
  | Some (JNum NegInf) => true
  | _ => false
  end.

Definition gt_num (v : option json) (q : Q) : bool :=
  match v with
  | Some (JNum (Finite p)) => negb (Qle_bool p q)
  | Some (JNum PosInf) => true
  | _ => false
  end.

Section WithEngine.
Context {E : Engine}.

Definition piece (n : nat) (parts : list string) : js_result string :=
  match nth_error parts n with
  | Some s => Return s
  | None => Throw (TypeError (type_error_text None "split"))
  end.

Definition parseGPTResponse (content : string) : js_result json :=
  let jsonStr := Str.trim content in
  jsonStr <-
    (if Str.includes "```json" jsonStr then
       a <- piece 1 (Str.split "```json" jsonStr) ;;
       b <- piece 0 (Str.split "```" a) ;;
       Return (Str.trim b)
     else if Str.includes "```" jsonStr then
       a <- piece 1 (Str.split "```" jsonStr) ;;
       b <- piece 0 (Str.split "```" a) ;;
       Return (Str.trim b)
     else Return jsonStr) ;;
  match JSON_parse jsonStr with
  | Some v => Return v
  | None => Throw (SyntaxError (syntax_error_text jsonStr))
  end.

(** [for (const field of requiredFields) if (!(field in data)) throw ...] *)
Fixpoint check_fields (fields : list string) (data : json) : js_result unit :=
  match fields with
  | [] => Return tt
  | field :: rest =>
      present <- has_prop field data ;;
      if negb present
      then Throw (Error ("Missing required field: " ++ field))
      else check_fields rest data
  end.

(** [for (const field of requiredObjects)
       if (!(field in data) || typeof data[field] !== 'object') throw ...] *)
Fixpoint check_objects (fields : list string) (data : json) : js_result unit :=
  match fields with
  | [] => Return tt
  | field :: rest =>
      present <- has_prop field data ;;
      if negb present
      then Throw (Error ("Missing or invalid object: " ++ field))
      else
        v <- get_prop (Some data) field ;;
        if negb (typeof v =? "object")%string
        then Throw (Error ("Missing or invalid object: " ++ field))
        else check_objects rest data
  end.

Definition validateDarshanResult (data : json) : js_result json :=
  _ <- check_fields requiredFields data ;;
  confidence <- get_prop (Some data) "confidence" ;;
  if negb (typeof confidence =? "number")%string
     || lt_num confidence 0 || gt_num confidence 1
  then Throw (Error "Confidence must be a number between 0 and 1")
  else
    _ <- check_objects requiredObjects data ;;
    interesting_facts <- get_prop (Some data) "interesting_facts" ;;
    if empty_or_not_array interesting_facts
    then Throw (Error "interesting_facts must be a non-empty array")
    else
      vastu <- get_prop (Some data) "vastu" ;;
      benefits <- get_prop vastu "benefits" ;;
      if empty_or_not_array benefits
      then Throw (Error "vastu.benefits must be a non-empty array")
      else
        suitable_rooms <- get_prop vastu "suitable_rooms" ;;
        if empty_or_not_array suitable_rooms
        then Throw (Error "vastu.suitable_rooms must be a non-empty array")
        else Return data.

(** [image_base64.startsWith('data:') ? image_base64
                                       : `data:image/jpeg;base64,${image_base64}`]
    for a truthy [image_base64]: only a string has [startsWith]. *)
Definition data_url (image_base64 : option json) : js_result (option json) :=
  match image_base64 with
  | Some (JStr s) =>
      Return (Some (JStr (if String.prefix "data:" s then s
                          else "data:image/jpeg;base64," ++ s)))
  | _ => Throw (TypeError (type_error_text image_base64 "startsWith"))
  end.

(** The [try] block of [handler]; the second component lists the calls made
    to the gateway. *)
Definition handler_try (gw : gateway) (req : request)
  : js_result response * list (option json) :=
  match get_prop (req_body req) "image_url" with
  | Throw e => (Throw e, [])
  | Return image_url =>
  match get_prop (req_body req) "image_base64" with
  | Throw e => (Throw e, [])
  | Return image_base64 =>
      if negb (truthy image_url) && negb (truthy image_base64)
      then (Return (mkResponse 400
                      (failure "Either image_url or image_base64 is required")),
            [])
      else
        match (if truthy image_base64 && negb (truthy image_url)
               then data_url image_base64 else Return image_url) with
        | Throw e => (Throw e, [])
        | Return imageUrl =>
            (content <- gw imageUrl ;;
             resultData <- parseGPTResponse content ;;
             validatedData <- validateDarshanResult resultData ;;
             Return (mkResponse 200
                       (JObj [("success", JBool true);
                              ("darshan", validatedData)])),
             [imageUrl])
        end
  end
  end.

(** The [catch] block of [handler]. *)
Definition handler_catch (error : js_error) : response :=
  if match err_status error with Some 429 => true | _ => false end
  then mkResponse 429
         (failure "Rate limit exceeded. Please try again in a moment.")
  else if (err_name error =? "SyntaxError")%string
          || Str.includes "JSON" (err_message error)
  then mkResponse 500
         (failure "Failed to parse AI response. Please try again.")
  else mkResponse 500
         (failure "Plant identification failed. Please try again with a clearer image.").

Definition handler (gw : gateway) (req : request)
  : response * list (option json) :=
  if (req_method req =? "OPTIONS")%string
  then (mkResponse 200 (JObj [("success", JBool true)]), [])
  else if negb (req_method req =? "POST")%string
  then (mkResponse 405 (failure "Method not allowed"), [])
  else
    match handler_try gw req with
    | (Return r, calls) => (r, calls)
    | (Throw e, calls) => (handler_catch e, calls)
    end.

End WithEngine.

(** ** What the claims speak of *)

(** A top-level field of the parsed reply ([None] when the reply is not an
    object or lacks it). *)
Definition field (data : json) (k : string) : option json :=
  match data with
  | JObj o => lookup k o
  | _ => None
  end.

Definition missing_required (data : json) : Prop :=
  exists f, In f requiredFields /\ field data f = None.

Definition confidence_in_range (data : json) : Prop :=
  exists q, field data "confidence" = Some (JNum (Finite q))
            /\ (0 <= q)%Q /\ (q <= 1)%Q.

Definition facts_empty (data : json) : Prop :=
  field data "interesting_facts" = Some (JArr []).

Definition deficient (data : json) : Prop :=
  missing_required data \/ ~ confidence_in_range data \/ facts_empty data.

Definition parse_failed : response :=
  mkResponse 500 (failure "Failed to parse AI response. Please try again.").

Definition identification_failed : response :=
  mkResponse 500
    (failure "Plant identification failed. Please try again with a clearer image.").

End Darshan.

(* ================================================================== *)
(** * api/_utils/auth_middleware.js: the token service *)
(* ================================================================== *)

(** [process.env] *)
Record environment : Type := mkEnv {
  JWT_SECRET : option string;
  SUPABASE_URL : option string;
  SUPABASE_KEY : option string
}.

(** [!process.env.X] *)
Definition unset (v : option string) : bool :=
  match v with
  | Some s => (s =? "")%string
  | None => true
  end.

Module Auth.

(** The claim set the service signs, which is the claim set of the tokens
    considered here: a token that someone holding the secret signs over
    other claims (a not-before time, no expiry) is outside it. *)
Record claims : Type := mkClaims {
  user_id : string;
  email : string;
  exp : Z;
  iat : Z
}.

(** What [verifyToken] hands to its caller. *)
Record auth_data : Type := mkAuth {
  auth_user_id : string;
  auth_email : string
}.

(** The [jsonwebtoken] library with HS256: a MAC keyed by the secret, and
    the compact serialisation of a claim set with its signature, which can
    be read back and contains no blank. *)
Class JwtLib : Type := {
  hmac_sha256 : string -> claims -> string;
  serialize : claims -> string -> string;
  deserialize : string -> option (claims * string);
  deserialize_serialize :
    forall c s, deserialize (serialize c s) = Some (c, s);
  serialize_no_space : forall c s, Str.no_space (serialize c s)
}.

Definition TOKEN_EXPIRATION_DAYS : Z := 7.

Definition TokenExpiredError : js_error :=
  mkError "TokenExpiredError" "jwt expired" None.
Definition JsonWebTokenError (msg : string) : js_error :=
  mkError "JsonWebTokenError" msg None.

Section WithJwt.
Context {J : JwtLib}.

(** [jwt.sign(payload, secret, { algorithm: 'HS256' })] *)
Definition jwt_sign (payload : claims) (secret : string) : string :=
  serialize payload (hmac_sha256 secret payload).

(** [jwt.verify(token, secret, { algorithms: ['HS256'] })] at the clock
    reading [clockTimestamp] (seconds): the signature is checked first, then
    [clockTimestamp >= payload.exp] makes the token expired. *)
Definition jwt_verify (token secret : string) (clockTimestamp : Z)
  : js_result claims :=
  match deserialize token with
  | None => Throw (JsonWebTokenError "jwt malformed")
  | Some (payload, sig) =>
      if negb (sig =? hmac_sha256 secret payload)%string
      then Throw (JsonWebTokenError "invalid signature")
      else if exp payload <=? clockTimestamp
      then Throw TokenExpiredError
      else Return payload
  end.

(** [Math.floor(Date.now() / 1000)] for the clock reading [now_ms]. *)
Definition seconds (now_ms : Z) : Z := now_ms / 1000.

Definition generateToken (env : environment) (now_ms : Z)
  (userId email : string) : js_result string :=
  match JWT_SECRET env with
  | Some secret =>
      if (secret =? "")%string
      then Throw (Error "JWT_SECRET environment variable is required")
      else
        let now := seconds now_ms in
        let expirationTime := now + TOKEN_EXPIRATION_DAYS * 24 * 60 * 60 in
        let payload :=
          {| user_id := userId; email := email;
             exp := expirationTime; iat := now |} in
        Return (jwt_sign payload secret)
  | None => Throw (Error "JWT_SECRET environment variable is required")
  end.

Fixpoint header (name : string) (hs : list (string * string)) : option string :=
  match hs with
  | [] => None
  | (n, v) :: r => if (n =? name)%string then Some v else header name r
  end.

(** [req.headers.authorization || req.headers.Authorization] *)
Definition authorization (req : request) : option string :=
  match header "authorization" (req_headers req) with
  | Some v =>
      if (v =? "")%string then header "Authorization" (req_headers req)
      else Some v
  | None => header "Authorization" (req_headers req)
  end.

(** The [try] block of [verifyToken]. *)
Definition verifyToken_try (env : environment) (now_ms : Z) (req : request)
  : js_result auth_data :=
  match authorization req with
  | None => Throw (Error "Missing Authorization header")
  | Some authHeader =>
      if (authHeader =? "")%string
      then Throw (Error "Missing Authorization header")
      else
        match Str.split " " authHeader with
        | [scheme; token] =>
            if negb (Str.toLowerCase scheme =? "bearer")%string
            then Throw (Error
                   "Invalid Authorization header format. Use: Bearer <token>")
            else
              match JWT_SECRET env with
              | Some secret =>
                  if (secret =? "")%string
                  then Throw (Error "JWT_SECRET environment variable is required")
                  else
                    payload <- jwt_verify token secret (seconds now_ms) ;;
                    Return {| auth_user_id := user_id payload;
                              auth_email := email payload |}
              | None =>
                  Throw (Error "JWT_SECRET environment variable is required")
              end
        | _ => Throw (Error
                 "Invalid Authorization header format. Use: Bearer <token>")
        end
  end.

Definition expired_error : js_error :=
  Error "Token has expired. Please login again.".
Definition invalid_error : js_error :=
  Error "Invalid token. Please login again.".

Definition verifyToken (env : environment) (now_ms : Z) (req : request)
  : js_result auth_data :=
  try_catch (verifyToken_try env now_ms req) (fun error =>
    if (err_name error =? "TokenExpiredError")%string
    then Throw expired_error
    else if (err_name error =? "JsonWebTokenError")%string
    then Throw invalid_error
    else Throw error).

(** A request that presents [token] as its bearer credential. *)
Definition bearer (token : string) (req : request) : request :=
  {| req_method := req_method req;
     req_url := req_url req;
     req_headers := [("authorization", "Bearer " ++ token)];
     req_query := req_query req;
     req_body := req_body req |}.

End WithJwt.

End Auth.

(* ================================================================== *)
(** * Dates of the runtime *)
(* ================================================================== *)

Module JsDate.

Definition msPerDay : Z := 86400000.

(** The largest time value a [Date] holds. *)
Definition maxTime : Z := 8640000000000000.

(** What the engine supplies: the time value (milliseconds since the epoch)
    of [new Date(v)], [None] for an invalid date; the local time of a time
    value and the time value of a local time, in the time zone of the
    process; and the time value after [d.setDate(d.getDate() + v)] for an
    operand [v] that is not an integral number, where the engine coerces,
    concatenates or truncates. *)
Class DateLib : Type := {
  Date_new : option json -> option Z;
  LocalTime : Z -> Z;
  UTC : Z -> Z;
  setDate_coerced : Z -> option json -> option Z
}.

Definition timeClip (t : Z) : option Z :=
  if Z.abs t <=? maxTime then Some t else None.

Definition integral (q : Q) : bool := Qeq_bool q (inject_Z (Qfloor q)).

Section WithDates.
Context {D : DateLib}.

(** [d.setDate(d.getDate() + v); d.getTime()] for a valid date of time
    value [t]: [getDate] and [setDate] read and write the local date, so an
    integral number of days moves the local time by so many days, and the
    result is the time value of that local time. *)
Definition setDate_plus (t : Z) (v : option json) : option Z :=
  match v with
  | Some (JNum (Finite q)) =>
      if integral q then timeClip (UTC (LocalTime t + Qfloor q * msPerDay))
      else setDate_coerced t v
  | _ => setDate_coerced t v
  end.

End WithDates.

Definition digit (z : Z) : ascii := ascii_of_nat (48 + Z.to_nat (z mod 10)).

(** The last [w] decimal digits of [z], zero-padded. *)
Fixpoint pad (w : nat) (z : Z) : string :=
  match w with
  | O => EmptyString
  | S k => pad k (z / 10) ++ String (digit z) EmptyString
  end.

(** The civil date (year, month, day) of a day number counted from
    1970-01-01, in the proleptic Gregorian calendar. *)
Definition civil_from_days (days : Z) : Z * Z * Z :=
  let z := days + 719468 in
  let era := z / 146097 in
  let doe := z - era * 146097 in
  let yoe := (doe - doe / 1460 + doe / 36524 - doe / 146096) / 365 in
  let doy := doe - (365 * yoe + yoe / 4 - yoe / 100) in
  let mp := (5 * doy + 2) / 153 in
  let d := doy - (153 * mp + 2) / 5 + 1 in
  let m := if mp <? 10 then mp + 3 else mp - 9 in
  let y := yoe + era * 400 in
  ((if m <=? 2 then y + 1 else y), m, d).

Definition days_from_civil (y m d : Z) : Z :=
  let y := if m <=? 2 then y - 1 else y in
  let era := y / 400 in
  let yoe := y - era * 400 in
  let doy := (153 * (if 2 <? m then m - 3 else m + 9) + 2) / 5 + d - 1 in
  let doe := yoe * 365 + yoe / 4 - yoe / 100 + doy in
  era * 146097 + doe - 719468.

(** The date part of [toISOString()] for a day number. *)
Definition iso_day (days : Z) : string :=
  let '(y, m, d) := civil_from_days days in
  (if (0 <=? y) && (y <=? 9999) then pad 4 y
   else (if y <? 0 then "-" else "+") ++ pad 6 (Z.abs y))
  ++ "-" ++ pad 2 m ++ "-" ++ pad 2 d.

Definition day_of (t : Z) : Z := t / msPerDay.

(** [new Date(t).toISOString().split('T')[0]] *)
Definition iso_date (t : Z) : string := iso_day (day_of t).

End JsDate.

(* ================================================================== *)
(** * api/_utils/database.js: the data service and its wrapper *)
(* ================================================================== *)

Module Database.
Import JsDate.

(** The state of the data service as the client sees it: two tables of
    rows, whether the service can be reached ([outage] holds the transport
    error's message when it cannot), the messages it gives when [single()]
    does not find exactly one row and when an object names a column the
    table does not have, and what its defaults and triggers fill in: a new
    id, the current date and the current time.  A value is kept as it is
    sent.  The service can refuse an object for more than is written here
    (a value that does not fit the type of its column, a missing user, a
    policy of the deployment); what is said of a stored row is therefore
    said of a request that the service accepted. *)
Record service : Type := mkService {
  users : list obj;
  plants : list obj;
  outage : option string;
  no_row_message : string;
  no_column_message : string -> string;
  fresh_id : nat -> string;
  today : string;
  now : string
}.

Definition with_plants (svc : service) (rows : list obj) : service :=
  {| users := users svc; plants := rows; outage := outage svc;
     no_row_message := no_row_message svc;
     no_column_message := no_column_message svc;
     fresh_id := fresh_id svc; today := today svc; now := now svc |}.

(** The columns of the table [plants] (backend/schema.sql). *)
Definition plants_columns : list string :=
  ["id"; "user_id"; "name"; "species"; "scientific_name"; "sanskrit_name";
   "family"; "image_url"; "added_date"; "last_watered"; "next_watering_due";
   "care_schedule"; "health_status"; "notes"; "created_at"; "updated_at"].

Definition is_column (k : string) : bool :=
  existsb (String.eqb k) plants_columns.

(** The first property of an object sent to the table that names none of
    its columns. *)
Definition unknown_column (data : obj) : option string :=
  find (fun k => negb (is_column k)) (keys data).

(** What a column without a supplied value holds after insertion: its
    DEFAULT of the schema, NULL when it has none. *)
Definition column_default (svc : service) (column : string) : json :=
  if (column =? "id")%string
  then JStr (fresh_id svc (List.length (plants svc)))
  else if (column =? "added_date")%string then JStr (today svc)
  else if (column =? "health_status")%string then JStr "healthy"
  else if (column =? "created_at")%string || (column =? "updated_at")%string
  then JStr (now svc)
  else JNull.

(** The row stored for an object sent to [insert]: every column of the
    table, with the supplied value or the default. *)
Definition inserted (svc : service) (data : obj) : obj :=
  map (fun column =>
         (column,
          match lookup column data with
          | Some v => v
          | None => column_default svc column
          end))
      plants_columns.

(** [{ data, error }] *)
Inductive reply (A : Type) : Type :=
| Data (data : A)
| Failed (error : js_error).
Arguments Data {A} data.
Arguments Failed {A} error.

(** [.eq(column, value)] *)
Definition eq (column : string) (value : option json) (rows : list obj)
  : list obj :=
  filter (fun r => strict_eq (lookup column r) value) rows.

(** [.single()] *)
Definition single (svc : service) (rows : list obj) : reply obj :=
  match outage svc with
  | Some msg => Failed (Error msg)
  | None =>
      match rows with
      | [r] => Data r
      | _ => Failed (Error (no_row_message svc))
      end
  end.

(** [.select(column)] of one column. *)
Definition project (column : string) (r : obj) : obj :=
  match lookup column r with
  | Some v => [(column, v)]
  | None => []
  end.

Definition added_date (r : obj) : string :=
  match lookup "added_date" r with
  | Some (JStr s) => s
  | _ => ""
  end.

(** [.order('added_date', { ascending: false })], as a stable insertion
    sort on the date text. *)
Fixpoint insert_desc (x : obj) (l : list obj) : list obj :=
  match l with
  | [] => [x]
  | y :: r =>
      if String.ltb (added_date y) (added_date x) then x :: l
      else y :: insert_desc x r
  end.

Definition order_desc (l : list obj) : list obj :=
  fold_right insert_desc [] l.

(** A row after [.update(updates)]: each supplied column takes the supplied
    value. *)
Definition merge (updates row : obj) : obj :=
  fold_right (fun kv acc => set (fst kv) (snd kv) acc) row updates.

(** The row as the table's BEFORE UPDATE trigger leaves it: [updated_at]
    is the current time, whatever the update supplied for it. *)
Definition updated_row (svc : service) (updates row : obj) : obj :=
  set "updated_at" (JStr (now svc)) (merge updates row).

(** [.from('plants').insert(data).select().single()]: the stored row and the
    service after it; an object with a property that is no column is
    refused. *)
Definition insert (svc : service) (data : obj) : reply (obj * service) :=
  match outage svc with
  | Some msg => Failed (Error msg)
  | None =>
      match unknown_column data with
      | Some k => Failed (Error (no_column_message svc k))
      | None =>
          let row := inserted svc data in
          Data (row, with_plants svc (plants svc ++ [row]))
      end
  end.

(** [.from('plants').update(updates).eq('id', plantId)]: refused as a whole
    when a property is no column. *)
Definition update (svc : service) (updates : obj) (plantId : option json)
  : reply service :=
  match outage svc with
  | Some msg => Failed (Error msg)
  | None =>
      match unknown_column updates with
      | Some k => Failed (Error (no_column_message svc k))
      | None =>
          Data (with_plants svc
                  (map (fun r => if strict_eq (lookup "id" r) plantId
                                 then updated_row svc updates r else r)
                       (plants svc)))
      end
  end.

(** [.from('plants').delete().eq('id', plantId)] *)
Definition delete (svc : service) (plantId : option json) : reply service :=
  match outage svc with
  | Some msg => Failed (Error msg)
  | None =>
      Data (with_plants svc
              (filter (fun r => negb (strict_eq (lookup "id" r) plantId))
                      (plants svc)))
  end.

(** An object literal: a property whose value is [undefined] does not
    reach the service. *)
Fixpoint literal (props : list (string * option json)) : obj :=
  match props with
  | [] => []
  | (k, Some v) :: r => (k, v) :: literal r
  | (_, None) :: r => literal r
  end.

(** [a || b] *)
Definition or_else (a : option json) (b : json) : option json :=
  if truthy a then a else Some b.

Section WithRuntime.
Context {E : Engine} {D : DateLib}.

(** [const d = new Date(new Date(last)); d.setDate(d.getDate() + days);
     d.toISOString().split('T')[0]]: an invalid date makes [toISOString]
    throw. *)
Definition next_watering (last days : option json) : js_result string :=
  match Date_new last with
  | None => Throw (RangeError "Invalid time value")
  | Some t =>
      match setDate_plus t days with
      | None => Throw (RangeError "Invalid time value")
      | Some t' => Return (iso_date t')
      end
  end.

Definition getUser (svc : service) (userId : string)
  : js_result (option obj) :=
  try_catch
    (match single svc (eq "id" (Some (JStr userId)) (users svc)) with
     | Failed error => Throw error
     | Data data => Return (Some data)
     end)
    (fun _ => Return None).

Definition saveToVana (svc : service) (userId : string)
  (plantData : option json) : js_result json * service :=
  let attempt : js_result (json * service) :=
    name <- get_prop plantData "name" ;;
    species <- get_prop plantData "species" ;;
    scientific_name <- get_prop plantData "scientific_name" ;;
    sanskrit_name <- get_prop plantData "sanskrit_name" ;;
    family <- get_prop plantData "family" ;;
    image_url <- get_prop plantData "image_url" ;;
    care_schedule <- get_prop plantData "care_schedule" ;;
    health_status <- get_prop plantData "health_status" ;;
    notes <- get_prop plantData "notes" ;;
    let data := literal
      [("user_id", Some (JStr userId));
       ("name", name);
       ("species", species);
       ("scientific_name", scientific_name);
       ("sanskrit_name", sanskrit_name);
       ("family", family);
       ("image_url", image_url);
       ("care_schedule", care_schedule);
       ("health_status", or_else health_status (JStr "healthy"));
       ("notes", notes)] in
    last_watered <- get_prop plantData "last_watered" ;;
    data <-
      (if truthy last_watered then
         frequency <- get_prop plantData "watering_frequency_days" ;;
         let wateringFrequency := or_else frequency (num 7) in
         due <- next_watering last_watered wateringFrequency ;;
         Return (set "next_watering_due" (JStr due)
                   (set "last_watered"
                      (match last_watered with Some v => v | None => JNull end)
                      data))
       else Return data) ;;
    match insert svc data with
    | Failed error => Throw error
    | Data (insertedData, svc') =>
        Return (match lookup "id" insertedData with
                | Some plantId => plantId
                | None => JNull
                end, svc')
    end in
  match attempt with
  | Return (plantId, svc') => (Return plantId, svc')
  | Throw error =>
      (Throw (Error ("Failed to save plant: " ++ err_message error)), svc)
  end.

Definition getMeraVana (svc : service) (userId : string)
  : js_result (list obj) :=
  match outage svc with
  | Some msg => Throw (Error ("Failed to fetch plants: " ++ msg))
  | None =>
      Return (order_desc (eq "user_id" (Some (JStr userId)) (plants svc)))
  end.

(** The ownership check shared by update and delete. *)
Definition verify_ownership (svc : service) (plantId : option json)
  (userId : string) : js_result unit :=
  match single svc (map (project "user_id") (eq "id" plantId (plants svc))) with
  | Failed fetchError => Throw fetchError
  | Data plant =>
      if negb (strict_eq (lookup "user_id" plant) (Some (JStr userId)))
      then Throw (Error "Plant not found or access denied")
      else Return tt
  end.

(** The object [updates] as it is sent to the service. *)
Definition with_next_watering (updates : obj) : js_result obj :=
  if truthy (lookup "last_watered" updates)
     && truthy (lookup "watering_frequency_days" updates)
  then
    due <- next_watering (lookup "last_watered" updates)
             (lookup "watering_frequency_days" updates) ;;
    Return (set "next_watering_due" (JStr due) updates)
  else Return updates.

Definition updateVanaPlant (svc : service) (plantId : option json)
  (userId : string) (updates : obj) : js_result bool * service :=
  let attempt : js_result service :=
    _ <- verify_ownership svc plantId userId ;;
    updates <- with_next_watering updates ;;
    match update svc updates plantId with
    | Failed updateError => Throw updateError
    | Data svc' => Return svc'
    end in
  match attempt with
  | Return svc' => (Return true, svc')
  | Throw error =>
      (Throw (Error ("Failed to update plant: " ++ err_message error)), svc)
  end.

Definition removeFromVana (svc : service) (plantId : option json)
  (userId : string) : js_result bool * service :=
  let attempt : js_result service :=
    _ <- verify_ownership svc plantId userId ;;
    match delete svc plantId with
    | Failed deleteError => Throw deleteError
    | Data svc' => Return svc'
    end in
  match attempt with
  | Return svc' => (Return true, svc')
  | Throw error =>
      (Throw (Error ("Failed to remove plant: " ++ err_message error)), svc)
  end.

(** [getDatabase()] *)
Definition getDatabase (env : environment) : js_result unit :=
  if unset (SUPABASE_URL env) || unset (SUPABASE_KEY env)
  then Throw (Error
    "SUPABASE_URL and SUPABASE_KEY environment variables are required. Please set them in your .env file.")
  else Return tt.

End WithRuntime.

End Database.

(* ================================================================== *)
(** * api/vana.js: the plant-collection endpoint *)
(* ================================================================== *)

Module Vana.
Import Auth Database.

(** A character of the class [[a-f0-9-]] under the flag [i]. *)
Definition id_char (c : ascii) : bool :=
  let n := nat_of_ascii (Str.lower_char c) in
  (Nat.leb 97 n && Nat.leb n 102) || (Nat.leb 48 n && Nat.leb n 57)
  || Nat.eqb n 45.

(** The longest prefix of [s] made of such characters. *)
Fixpoint id_run (s : string) : string :=
  match s with
  | String c r => if id_char c then String c (id_run r) else EmptyString
  | EmptyString => EmptyString
  end.

(** [prefix] read case-insensitively. *)
Definition prefix_i (p s : string) : bool :=
  String.prefix (Str.toLowerCase p) (Str.toLowerCase s).

(** [path.match(/\/api\/vana\/([a-f0-9-]+)/i)]: the leftmost place where
    the literal is followed by at least one character of the class; the
    group is the longest run there. *)
Fixpoint extractPlantId (path : string) : option string :=
  let here :=
    if prefix_i "/api/vana/" path
    then match id_run (Str.drop 10 path) with
         | EmptyString => None
         | run => Some run
         end
    else None in
  match here with
  | Some run => Some run
  | None =>
      match path with
      | String _ r => extractPlantId r
      | EmptyString => None
      end
  end.

(** The keys ["0"], ["1"], ... of an array or a string. *)
Fixpoint decimal (fuel n : nat) : string :=
  match fuel with
  | O => EmptyString
  | S k =>
      (if Nat.ltb n 10 then EmptyString else decimal k (Nat.div n 10))
      ++ String (ascii_of_nat (48 + Nat.modulo n 10)) EmptyString
  end.

Fixpoint indexed (i : nat) (l : list json) : obj :=
  match l with
  | [] => []
  | v :: r => (decimal (S i) i, v) :: indexed (S i) r
  end.

(** [{ ...data }]: the own enumerable properties of [data]; [null],
    [undefined], numbers and booleans have none. *)
Definition spread (data : option json) : obj :=
  match data with
  | Some (JObj o) => o
  | Some (JArr l) => indexed 0 l
  | Some (JStr s) =>
      indexed 0 (map (fun c => JStr (String c EmptyString))
                     (list_ascii_of_string s))
  | _ => []
  end.

Definition success (props : obj) : json :=
  JObj (("success", JBool true) :: props).

Definition rows_json (rows : list obj) : json := JArr (map JObj rows).

Section WithRuntime.
Context {E : Engine} {D : JsDate.DateLib} {J : JwtLib}.

(** [authenticate]: the user id, or the 401 response it has sent. *)
Definition authenticate (env : environment) (now_ms : Z) (req : request)
  : string + response :=
  match verifyToken env now_ms req with
  | Return authData => inl (auth_user_id authData)
  | Throw error => inr (mkResponse 401 (failure (err_message error)))
  end.

(** Each handler yields the response it sends, if it sends one, and the
    state in which it leaves the data service. *)
Definition outcome : Type := option response * service.

Definition handleGet (env : environment) (now_ms : Z) (svc : service)
  (req : request) : outcome :=
  match authenticate env now_ms req with
  | inr denied => (Some denied, svc)
  | inl userId =>
      if (userId =? "")%string then (None, svc)
      else
        let plantId := extractPlantId (req_url req) in
        let attempt : js_result response :=
          _ <- getDatabase env ;;
          match plantId with
          | Some plantId =>
              plants <- getMeraVana svc userId ;;
              match find (fun p => strict_eq (lookup "id" p)
                                             (Some (JStr plantId))) plants with
              | None => Return (mkResponse 404 (failure "Plant not found"))
              | Some plant =>
                  Return (mkResponse 200 (success [("plant", JObj plant)]))
              end
          | None =>
              plants <- getMeraVana svc userId ;;
              Return (mkResponse 200
                        (success [("vana", rows_json plants);
                                  ("count", num (Z.of_nat (List.length plants)))]))
          end in
        match attempt with
        | Return r => (Some r, svc)
        | Throw _ =>
            (Some (mkResponse 500
                     (failure "Failed to fetch plants. Please try again.")), svc)
        end
  end.

Definition handlePost (env : environment) (now_ms : Z) (svc : service)
  (req : request) : outcome :=
  match authenticate env now_ms req with
  | inr denied => (Some denied, svc)
  | inl userId =>
      if (userId =? "")%string then (None, svc)
      else
        let plantData := req_body req in
        let failed :=
          mkResponse 500 (failure "Failed to add plant. Please try again.") in
        match get_prop plantData "name" with
        | Throw _ => (Some failed, svc)
        | Return name =>
        if negb (truthy name)
        then (Some (mkResponse 400 (failure "Plant name is required")), svc)
        else
        match get_prop plantData "species" with
        | Throw _ => (Some failed, svc)
        | Return species =>
        if negb (truthy species)
        then (Some (mkResponse 400 (failure "Plant species is required")), svc)
        else
        match getDatabase env with
        | Throw _ => (Some failed, svc)
        | Return _ =>
            match saveToVana svc userId plantData with
            | (Return plantId, svc') =>
                (Some (mkResponse 200
                         (success [("plant_id", plantId);
                                   ("message",
                                    JStr "Plant added to Mera Vana successfully")])),
                 svc')
            | (Throw _, svc') => (Some failed, svc')
            end
        end
        end
        end
  end.

(** [extractPlantId(req.url) || data.plant_id] *)
Definition put_plant_id (req : request) : js_result (option json) :=
  match extractPlantId (req_url req) with
  | Some plantId => Return (Some (JStr plantId))
  | None => get_prop (req_body req) "plant_id"
  end.

(** [const updates = { ...data }; delete updates.plant_id] *)
Definition put_updates (req : request) : obj :=
  remove "plant_id" (spread (req_body req)).

Definition handlePut (env : environment) (now_ms : Z) (svc : service)
  (req : request) : outcome :=
  match authenticate env now_ms req with
  | inr denied => (Some denied, svc)
  | inl userId =>
      if (userId =? "")%string then (None, svc)
      else
        let caught (error : js_error) :=
          mkResponse 500 (failure (err_message error)) in
        match put_plant_id req with
        | Throw error => (Some (caught error), svc)
        | Return plantId =>
        if negb (truthy plantId)
        then (Some (mkResponse 400 (failure "plant_id is required")), svc)
        else
          let updates := put_updates req in
          if Nat.eqb (List.length (keys updates)) 0
          then (Some (mkResponse 400 (failure "No fields to update")), svc)
          else
            match getDatabase env with
            | Throw error => (Some (caught error), svc)
            | Return _ =>
                match updateVanaPlant svc plantId userId updates with
                | (Return _, svc') =>
                    (Some (mkResponse 200
                             (success [("message",
                                        JStr "Plant updated successfully")])),
                     svc')
                | (Throw error, svc') => (Some (caught error), svc')
                end
            end
        end
  end.

(** The plant id of a DELETE request: the URL path, else the query
    parameter. *)
Definition delete_plant_id (req : request) : option json :=
  match extractPlantId (req_url req) with
  | Some plantId => Some (JStr plantId)
  | None =>
      if truthy (lookup "plant_id" (req_query req))
      then lookup "plant_id" (req_query req)
      else None
  end.

Definition handleDelete (env : environment) (now_ms : Z) (svc : service)
  (req : request) : outcome :=
  match authenticate env now_ms req with
  | inr denied => (Some denied, svc)
  | inl userId =>
      if (userId =? "")%string then (None, svc)
      else
        let caught (error : js_error) :=
          mkResponse 500 (failure (err_message error)) in
        let plantId := delete_plant_id req in
        if negb (truthy plantId)
        then (Some (mkResponse 400
                      (failure "plant_id is required in URL path or query parameter")),
              svc)
        else
          match getDatabase env with
          | Throw error => (Some (caught error), svc)
          | Return _ =>
              match removeFromVana svc plantId userId with
              | (Return _, svc') =>
                  (Some (mkResponse 200
                           (success [("message",
                                      JStr "Plant removed from Mera Vana successfully")])),
                   svc')
              | (Throw error, svc') => (Some (caught error), svc')
              end
          end
  end.

(** The exported handler: CORS pre-flight, then dispatch on the method. *)
Definition handler (env : environment) (now_ms : Z) (svc : service)
  (req : request) : outcome :=
  if (req_method req =? "OPTIONS")%string
  then (Some (mkResponse 200 JNull), svc)
  else if (req_method req =? "GET")%string then handleGet env now_ms svc req
  else if (req_method req =? "POST")%string then handlePost env now_ms svc req
  else if (req_method req =? "PUT")%string
          || (req_method req =? "PATCH")%string
  then handlePut env now_ms svc req
  else if (req_method req =? "DELETE")%string
  then handleDelete env now_ms svc req
  else (Some (mkResponse 405 (failure "Method not allowed")), svc).

End WithRuntime.

End Vana.

(* ================================================================== *)
(** * A reference runtime, to run concrete requests *)
(* ================================================================== *)

Module Reference.
Import Auth JsDate.

(** ** An engine whose [JSON.parse] knows the texts of a table *)

Fixpoint assoc (table : list (string * json)) (s : string) : option json :=
  match table with
  | [] => None
  | (k, v) :: r => if (k =? s)%string then Some v else assoc r s
  end.

Definition engine (table : list (string * json)) : Engine :=
  {| JSON_parse := assoc table;
     syntax_error_text := fun _ => "Unexpected end of JSON input";
     type_error_text := fun _ k =>
       "Cannot read properties of undefined (reading '" ++ k ++ "')" |}.

(** ** Dates written [YYYY-MM-DD] or [YYYY-MM-DDTHH:MM:SSZ] *)

Fixpoint digits_from (acc : Z) (s : string) : option Z :=
  match s with
  | EmptyString => Some acc
  | String c r =>
      let n := nat_of_ascii c in
      if Nat.leb 48 n && Nat.leb n 57
      then digits_from (10 * acc + Z.of_nat (n - 48)) r
      else None
  end.

Definition digits (pos len : nat) (s : string) : option Z :=
  digits_from 0 (substring pos len s).

Definition parse_iso (s : string) : option Z :=
  match digits 0 4 s, digits 5 2 s, digits 8 2 s with
  | Some y, Some m, Some d =>
      let day := days_from_civil y m d in
      if negb ((substring 4 1 s =? "-") && (substring 7 1 s =? "-"))%string
      then None
      else if Nat.eqb (String.length s) 10 then Some (day * msPerDay)
      else if Nat.eqb (String.length s) 20
                && (substring 10 1 s =? "T")%string
                && (substring 19 1 s =? "Z")%string
      then match digits 11 2 s, digits 14 2 s, digits 17 2 s with
           | Some h, Some mi, Some sec =>
               Some (day * msPerDay + ((h * 60 + mi) * 60 + sec) * 1000)
           | _, _, _ => None
           end
      else None
  | _, _, _ => None
  end.

(** The dates of a process that runs in UTC. *)
Definition dates : DateLib :=
  {| Date_new := fun v =>
       match v with
       | Some (JStr s) => parse_iso s
       | Some (JNum (Finite q)) =>
           if integral q then timeClip (Qfloor q) else None
       | _ => None
       end;
     LocalTime := fun t => t;
     UTC := fun t => t;
     setDate_coerced := fun _ _ => None |}.

(** ** A self-delimiting serialisation of tokens *)

Definition bit_char (b : bool) : ascii := if b then "1"%char else "0"%char.
Definition char_bit (c : ascii) : bool := Ascii.eqb c "1"%char.

Fixpoint enc_str (s : string) : string :=
  match s with
  | EmptyString => "."
  | String (Ascii b0 b1 b2 b3 b4 b5 b6 b7) r =>
      String "x" (String (bit_char b0) (String (bit_char b1)
        (String (bit_char b2) (String (bit_char b3) (String (bit_char b4)
        (String (bit_char b5) (String (bit_char b6) (String (bit_char b7)
        (enc_str r)))))))))
  end.

Fixpoint dec_str (s : string) : option (string * string) :=
  match s with
  | EmptyString => None
  | String m r =>
      if Ascii.eqb m "."%char then Some (EmptyString, r)
      else
        match r with
        | String c0 (String c1 (String c2 (String c3 (String c4
            (String c5 (String c6 (String c7 r'))))))) =>
            match dec_str r' with
            | Some (t, rest) =>
                Some (String (Ascii (char_bit c0) (char_bit c1) (char_bit c2)
                                (char_bit c3) (char_bit c4) (char_bit c5)
                                (char_bit c6) (char_bit c7)) t, rest)
            | None => None
            end
        | _ => None
        end
  end.

Fixpoint enc_pos (p : positive) : string :=
  match p with
  | xH => "."
  | xO q => String "0" (enc_pos q)
  | xI q => String "1" (enc_pos q)
  end.

Fixpoint dec_pos (s : string) : option (positive * string) :=
  match s with
  | EmptyString => None
  | String c r =>
      if Ascii.eqb c "."%char then Some (xH, r)
      else
        match dec_pos r with
        | Some (q, rest) => Some (if char_bit c then xI q else xO q, rest)
        | None => None
        end
  end.

Definition enc_Z (z : Z) : string :=
  match z with
  | Z0 => "z"
  | Zpos p => String "p" (enc_pos p)
  | Zneg p => String "n" (enc_pos p)
  end.

Definition dec_Z (s : string) : option (Z * string) :=
  match s with
  | EmptyString => None
  | String c r =>
      if Ascii.eqb c "z"%char then Some (Z0, r)
      else
        match dec_pos r with
        | Some (p, rest) =>
            Some (if Ascii.eqb c "p"%char then Zpos p else Zneg p, rest)
        | None => None
        end
  end.

Definition enc_token (c : claims) (sig : string) : string :=
  enc_str (user_id c) ++ enc_str (email c) ++ enc_Z (exp c) ++ enc_Z (iat c)
  ++ enc_str sig.

Definition dec_token (s : string) : option (claims * string) :=
  match dec_str s with
  | Some (u, s1) =>
    match dec_str s1 with
    | Some (e, s2) =>
      match dec_Z s2 with
      | Some (x, s3) =>
        match dec_Z s3 with
        | Some (i, s4) =>
          match dec_str s4 with
          | Some (sig, EmptyString) =>
              Some ({| user_id := u; email := e; exp := x; iat := i |}, sig)
          | _ => None
          end
        | None => None
        end
      | None => None
      end
    | None => None
    end
  | None => None
  end.

(** A keyed tag standing in for the MAC. *)
Definition tag (secret : string) (c : claims) : string :=
  enc_str secret ++ enc_token c EmptyString.

End Reference.

(* ================================================================== *)
(** * Facts about the runtime primitives *)
(* ================================================================== *)

Module StrFacts.
Import Str.

Lemma no_space_empty : no_space EmptyString.
Proof. unfold no_space; simpl; tauto. Qed.

Lemma no_space_cons (c : ascii) (s : string) :
  c <> " "%char -> no_space s -> no_space (String c s).
Proof.
  unfold no_space; simpl; intros Hc Hs [H | H]; [congruence | tauto].
Qed.

Lemma no_space_inv (c : ascii) (s : string) :
  no_space (String c s) -> c <> " "%char /\ no_space s.
Proof.
  unfold no_space; simpl; intros H; split; [intros -> | intros Hs]; tauto.
Qed.

Lemma no_space_app (a b : string) :
  no_space a -> no_space b -> no_space (a ++ b).
Proof.
  induction a as [| c a IH]; simpl; intros Ha Hb; [exact Hb |].
  apply no_space_inv in Ha as [Hc Ha].
  apply no_space_cons; auto.
Qed.

Lemma prefix_blank (c : ascii) (r : string) :
  String.prefix " " (String c r) = Ascii.eqb " "%char c.
Proof.
  cbn [String.prefix]. destruct (ascii_dec " " c) as [<- | Hne].
  - destruct r; reflexivity.
  - symmetry; apply Ascii.eqb_neq; exact Hne.
Qed.

(** Splitting a text without blanks yields the text itself. *)
Lemma split_from_no_space (t : string) (acc : list ascii) :
  no_space t ->
  split_from " " 0 acc t
  = [string_of_list_ascii (rev acc ++ list_ascii_of_string t)].
Proof.
  revert acc; induction t as [| c t IH]; intros acc Ht; cbn [split_from].
  - simpl; rewrite app_nil_r; reflexivity.
  - apply no_space_inv in Ht as [Hc Ht].
    rewrite prefix_blank.
    replace (Ascii.eqb " "%char c) with false
      by (symmetry; apply Ascii.eqb_neq; congruence).
    rewrite IH by exact Ht. simpl. rewrite <- app_assoc. reflexivity.
Qed.

Lemma split_bearer (token : string) :
  no_space token -> split " " ("Bearer " ++ token) = ["Bearer"; token].
Proof.
  intros Ht. unfold split.
  change ("Bearer " ++ token)
    with (String "B" (String "e" (String "a" (String "r" (String "e"
           (String "r" (String " " token))))))).
  do 7 (cbn [split_from]; rewrite prefix_blank; cbn [Ascii.eqb Bool.eqb]).
  cbn [String.length Nat.sub]. rewrite split_from_no_space by exact Ht.
  cbn [rev app]. rewrite string_of_list_ascii_of_string. reflexivity.
Qed.

End StrFacts.

Module ReferenceFacts.
Import Auth Reference Str StrFacts.

Lemma char_bit_char (b : bool) : char_bit (bit_char b) = b.
Proof. destruct b; reflexivity. Qed.

Lemma bit_char_not_blank (b : bool) : bit_char b <> " "%char.
Proof. destruct b; discriminate. Qed.

Lemma bit_char_not_dot (b : bool) : Ascii.eqb (bit_char b) "."%char = false.
Proof. destruct b; reflexivity. Qed.

Lemma dec_enc_str (s rest : string) :
  dec_str (enc_str s ++ rest) = Some (s, rest).
Proof.
  induction s as [| [b0 b1 b2 b3 b4 b5 b6 b7] s IH]; [reflexivity |].
  cbn [enc_str append dec_str]. cbn [Ascii.eqb Bool.eqb andb].
  rewrite IH, !char_bit_char. reflexivity.
Qed.

Lemma dec_enc_pos (p : positive) (rest : string) :
  dec_pos (enc_pos p ++ rest) = Some (p, rest).
Proof.
  induction p as [p IH | p IH |]; cbn [enc_pos append dec_pos];
    [| | reflexivity]; cbn [Ascii.eqb Bool.eqb andb]; rewrite IH; reflexivity.
Qed.

Lemma dec_enc_Z (z : Z) (rest : string) :
  dec_Z (enc_Z z ++ rest) = Some (z, rest).
Proof.
  destruct z as [| p | p]; [reflexivity | |];
    cbn [enc_Z append dec_Z]; cbn [Ascii.eqb Bool.eqb andb];
    rewrite dec_enc_pos; reflexivity.
Qed.

Lemma dec_enc_token (c : claims) (sig : string) :
  dec_token (enc_token c sig) = Some (c, sig).
Proof.
  unfold dec_token, enc_token.
  rewrite dec_enc_str, dec_enc_str, dec_enc_Z, dec_enc_Z.
  replace (enc_str sig) with (enc_str sig ++ EmptyString)
    by (clear; induction (enc_str sig); simpl; congruence).
  rewrite dec_enc_str. destruct c; reflexivity.
Qed.

Lemma enc_str_no_space (s : string) : no_space (enc_str s).
Proof.
  induction s as [| [b0 b1 b2 b3 b4 b5 b6 b7] s IH]; cbn [enc_str].
  - apply no_space_cons; [discriminate | apply no_space_empty].
  - repeat (apply no_space_cons;
            [first [discriminate | apply bit_char_not_blank] |]).
    exact IH.
Qed.

Lemma enc_pos_no_space (p : positive) : no_space (enc_pos p).
Proof.
  induction p; cbn [enc_pos];
    apply no_space_cons; try discriminate; auto using no_space_empty.
Qed.

Lemma enc_Z_no_space (z : Z) : no_space (enc_Z z).
Proof.
  destruct z; cbn [enc_Z]; apply no_space_cons; try discriminate;
    auto using no_space_empty, enc_pos_no_space.
Qed.

Lemma enc_token_no_space (c : claims) (sig : string) :
  no_space (enc_token c sig).
Proof.
  unfold enc_token.
  repeat apply no_space_app;
    auto using enc_str_no_space, enc_Z_no_space.
Qed.

(** The reference token library. *)
Definition jwt : JwtLib :=
  {| hmac_sha256 := tag;
     serialize := enc_token;
     deserialize := dec_token;
     deserialize_serialize := dec_enc_token;
     serialize_no_space := enc_token_no_space |}.

End ReferenceFacts.

(* ================================================================== *)
(** * The identification gate *)
(* ================================================================== *)

Module DarshanFacts.
Import Darshan.

(** A sample of what the model is asked to reply. *)
Definition sample_reply : obj :=
  [("common_name", JStr "Holy Basil");
   ("scientific_name", JStr "Ocimum tenuiflorum");
   ("sanskrit_name", JStr "Tulasi");
   ("family", JStr "Lamiaceae");
   ("plant_type", JStr "herb");
   ("confidence", JNum (Finite (9 # 10)));
   ("health_status", JStr "healthy");
   ("health_notes", JStr "Vibrant green foliage");
   ("description", JObj [("appearance", JStr "Bushy aromatic herb")]);
   ("care_guide", JObj [("light", JStr "Full sun")]);
   ("vastu", JObj [("direction", JStr "Northeast");
                   ("benefits", JArr [JStr "prosperity"]);
                   ("suitable_rooms", JArr [JStr "courtyard"])]);
   ("traditional_significance", JObj [("ayurvedic_uses", JStr "Adaptogen")]);
   ("interesting_facts", JArr [JStr "Sacred in many households"]);
   ("warnings", JObj [("toxicity_pets", JNull)])].

(** The nested fields other than [vastu], whose members the validator
    goes on to read. *)
Definition nullable_objects : list string :=
  ["description"; "care_guide"; "traditional_significance"; "warnings"].

(** The sample reply with the field [k] set to [null]. *)
Definition with_null (k : string) : json := JObj (set k JNull sample_reply).

(** The errors the validator raises itself carry no status and are not
    syntax errors. *)
Definition plain (e : js_error) : Prop :=
  err_status e = None
  /\ (err_name e = "Error" \/ err_name e = "TypeError").

Section WithEngine.
Context {E : Engine}.

Lemma get_prop_field (data : json) (k : string) :
  data <> JNull -> get_prop (Some data) k = Return (field data k).
Proof. destruct data; intros H; try reflexivity; congruence. Qed.

Lemma get_prop_throw (v : option json) (k : string) (e : js_error) :
  get_prop v k = Throw e -> plain e.
Proof.
  destruct v as [[] |]; cbn; intros H; inversion H; split; cbn; auto.
Qed.

Lemma has_prop_throw (k : string) (v : json) (e : js_error) :
  has_prop k v = Throw e -> plain e.
Proof.
  destruct v; cbn; intros H; inversion H; split; cbn; auto.
Qed.

Lemma has_prop_true (k : string) (v : json) :
  has_prop k v = Return true -> field v k <> None.
Proof.
  destruct v; cbn; try discriminate.
  destruct (lookup k o); [discriminate | discriminate].
Qed.

Lemma check_fields_throw (fs : list string) (data : json) (e : js_error) :
  check_fields fs data = Throw e -> plain e.
Proof.
  induction fs as [| f fs IH]; cbn [check_fields]; [discriminate |].
  destruct (has_prop f data) as [[] |] eqn:Hp; cbn [bind negb].
  - exact IH.
  - intros H; inversion H; split; cbn; auto.
  - intros H; inversion H; subst; eapply has_prop_throw; eauto.
Qed.

Lemma check_fields_present (fs : list string) (data : json) :
  check_fields fs data = Return tt ->
  forall f, In f fs -> field data f <> None.
Proof.
  induction fs as [| f0 fs IH]; cbn [check_fields]; [intros _ f [] |].
  destruct (has_prop f0 data) as [[] |] eqn:Hp; cbn [bind negb];
    try discriminate.
  intros H f [<- | Hin]; [apply has_prop_true; exact Hp | apply IH; auto].
Qed.

Lemma check_objects_throw (fs : list string) (data : json) (e : js_error) :
  check_objects fs data = Throw e -> plain e.
Proof.
  induction fs as [| f fs IH]; cbn [check_objects]; [discriminate |].
  destruct (has_prop f data) as [[] |] eqn:Hp; cbn [bind negb].
  - destruct (get_prop (Some data) f) as [v |] eqn:Hg; cbn [bind].
    + destruct (negb (typeof v =? "object")%string); [| exact IH].
      intros H; inversion H; split; cbn; auto.
    + intros H; inversion H; subst; eapply get_prop_throw; eauto.
  - intros H; inversion H; split; cbn; auto.
  - intros H; inversion H; subst; eapply has_prop_throw; eauto.
Qed.

Ltac plain_error H :=
  inversion H; subst; split; cbn; auto.

Lemma validate_throw (data : json) (e : js_error) :
  validateDarshanResult data = Throw e -> plain e.
Proof.
  unfold validateDarshanResult.
  destruct (check_fields requiredFields data) eqn:H1; cbn [bind];
    [| intros H; inversion H; subst; eapply check_fields_throw; eauto].
  destruct (get_prop (Some data) "confidence") as [c |] eqn:H2; cbn [bind];
    [| intros H; inversion H; subst; eapply get_prop_throw; eauto].
  destruct (_ || _ || _); [intros H; plain_error H |].
  destruct (check_objects requiredObjects data) eqn:H3; cbn [bind];
    [| intros H; inversion H; subst; eapply check_objects_throw; eauto].
  destruct (get_prop (Some data) "interesting_facts") as [fs |] eqn:H4;
    cbn [bind];
    [| intros H; inversion H; subst; eapply get_prop_throw; eauto].
  destruct (empty_or_not_array fs); [intros H; plain_error H |].
  destruct (get_prop (Some data) "vastu") as [v |] eqn:H5; cbn [bind];
    [| intros H; inversion H; subst; eapply get_prop_throw; eauto].
  destruct (get_prop v "benefits") as [b |] eqn:H6; cbn [bind];
    [| intros H; inversion H; subst; eapply get_prop_throw; eauto].
  destruct (empty_or_not_array b); [intros H; plain_error H |].
  destruct (get_prop v "suitable_rooms") as [r |] eqn:H7; cbn [bind];
    [| intros H; inversion H; subst; eapply get_prop_throw; eauto].
  destruct (empty_or_not_array r); [intros H; plain_error H | discriminate].
Qed.

(** What a reply that the validator returns has passed. *)
Lemma validate_return (data d : json) :
  validateDarshanResult data = Return d ->
  d = data /\ ~ deficient data.
Proof.
  unfold validateDarshanResult.
  destruct (check_fields requiredFields data) as [[] |] eqn:H1; cbn [bind];
    [| discriminate].
  assert (Hobj : data <> JNull).
  { intros ->. cbn in H1. discriminate. }
  rewrite !get_prop_field by exact Hobj. cbn [bind].
  destruct (_ || _ || _) eqn:Hc; [discriminate |].
  destruct (check_objects requiredObjects data); cbn [bind]; [| discriminate].
  destruct (empty_or_not_array (field data "interesting_facts")) eqn:Hf;
    [discriminate |].
  destruct (get_prop (field data "vastu") "benefits") as [b |]; cbn [bind];
    [| discriminate].
  destruct (empty_or_not_array b); [discriminate |].
  destruct (get_prop (field data "vastu") "suitable_rooms") as [r |];
    cbn [bind]; [| discriminate].
  destruct (empty_or_not_array r); [discriminate |].
  intros H; inversion H; subst d. split; [reflexivity |].
  intros [[f [Hin Hnone]] | [Hconf | Hfacts]].
  - eapply check_fields_present; eauto.
  - apply Hconf. unfold confidence_in_range.
    apply orb_false_iff in Hc as [Hc Hgt].
    apply orb_false_iff in Hc as [Hty Hlt].
    destruct (field data "confidence") as [[| | [q | |] | | |] |];
      try discriminate.
    exists q. split; [reflexivity |]. cbn in Hlt, Hgt.
    apply negb_false_iff in Hlt, Hgt. split; apply Qle_bool_iff; assumption.
  - unfold facts_empty in Hfacts. rewrite Hfacts in Hf. discriminate.
Qed.

Lemma deficient_rejected (data : json) :
  deficient data -> exists e, validateDarshanResult data = Throw e /\ plain e.
Proof.
  intros Hd. destruct (validateDarshanResult data) as [d | e] eqn:Hv.
  - apply validate_return in Hv as [_ Hok]. contradiction.
  - exists e. split; [reflexivity | eapply validate_throw; eauto].
Qed.

Lemma json_null_dec (v : json) : {v = JNull} + {v <> JNull}.
Proof. destruct v; [left; reflexivity | right; discriminate ..]. Qed.

Lemma plain_type_error (msg : string) : plain (TypeError msg).
Proof. split; [reflexivity | right; reflexivity]. Qed.

Lemma catch_plain (e : js_error) :
  plain e ->
  handler_catch e = parse_failed \/ handler_catch e = identification_failed.
Proof.
  intros [Hs Hn]. unfold handler_catch. rewrite Hs.
  destruct ((err_name e =? "SyntaxError")%string
            || Str.includes "JSON" (err_message e)); auto.
Qed.

(** Once the gateway has been asked for [u], the response is decided by
    its reply. *)
Lemma handler_after_call (gw : gateway) (req : request) (u : option json) :
  snd (handler gw req) = [u] ->
  fst (handler gw req)
  = match (content <- gw u ;;
           resultData <- parseGPTResponse content ;;
           validatedData <- validateDarshanResult resultData ;;
           Return (mkResponse 200
                     (JObj [("success", JBool true);
                            ("darshan", validatedData)]))) with
    | Return r => r
    | Throw e => handler_catch e
    end.
Proof.
  unfold handler, handler_try.
  destruct (req_method req =? "OPTIONS")%string; [discriminate |].
  destruct (negb (req_method req =? "POST")%string); [discriminate |].
  destruct (get_prop (req_body req) "image_url") as [iu |]; [| discriminate].
  destruct (get_prop (req_body req) "image_base64") as [ib |];
    [| discriminate].
  destruct (negb (truthy iu) && negb (truthy ib)); [discriminate |].
  destruct (if truthy ib && negb (truthy iu) then data_url ib else Return iu)
    as [url |]; [| discriminate].
  destruct (bind (gw url) _) eqn:Hrun; cbn [snd fst];
    intros H; inversion H; subst; rewrite Hrun; reflexivity.
Qed.

End WithEngine.

End DarshanFacts.

(* ================================================================== *)
(** * Properties of the identification endpoint *)
(* ================================================================== *)

Module DarshanClaims.
Import Darshan DarshanFacts.

Lemma catch_has_no_darshan (e : js_error) (o : obj) :
  payload (handler_catch e) = JObj o -> lookup "darshan" o = None.
Proof.
  unfold handler_catch.
  destruct (match err_status e with Some 429 => true | _ => false end);
    [| destruct (_ || _)]; cbn; intros H; inversion H; reflexivity.
Qed.

(** A reply lacking its confidence, and the text that carries it. *)
Definition without_confidence : json := JObj (remove "confidence" sample_reply).

Definition sample_request : request :=
  {| req_method := "POST"; req_url := "/api/darshan"; req_headers := [];
     req_query := [];
     req_body := Some (JObj [("image_url", JStr "https://example.org/tulsi.jpg")]) |}.

(** C2 (identification validation gate).  Whatever the gateway replies:
    when the parsed reply lacks a required top-level field, or its
    confidence is not a number in [0,1], or its interesting_facts is the
    empty array, the handler answers with one of its two fixed 500 failure
    bodies, which contain nothing of the reply; and a response that
    carries a [darshan] member is a 200 whose member is the parsed reply,
    returned by the validator and not deficient. *)
Theorem validation_gate {E : Engine} (gw : gateway) (req : request) :
  (forall u content data,
      snd (handler gw req) = [u] ->
      gw u = Return content ->
      parseGPTResponse content = Return data ->
      deficient data ->
      fst (handler gw req) = parse_failed
      \/ fst (handler gw req) = identification_failed)
  /\ (forall o d,
      payload (fst (handler gw req)) = JObj o ->
      lookup "darshan" o = Some d ->
      status (fst (handler gw req)) = 200
      /\ exists u content,
           snd (handler gw req) = [u]
           /\ gw u = Return content
           /\ parseGPTResponse content = Return d
           /\ validateDarshanResult d = Return d
           /\ ~ deficient d).
Proof.
  split.
  - intros u content data Hcall Hgw Hparse Hdef.
    rewrite (handler_after_call gw req u Hcall), Hgw. cbn [bind].
    rewrite Hparse. cbn [bind].
    destruct (deficient_rejected data Hdef) as [e [-> He]]. cbn [bind].
    apply catch_plain; exact He.
  - intros o d. unfold handler, handler_try.
    destruct (req_method req =? "OPTIONS")%string;
      [cbn; intros H; inversion H; subst; discriminate |].
    destruct (negb (req_method req =? "POST")%string);
      [cbn; intros H; inversion H; subst; discriminate |].
    destruct (get_prop (req_body req) "image_url") as [iu | e1];
      [| cbn [fst]; intros H1 H2;
         rewrite (catch_has_no_darshan _ _ H1) in H2; discriminate].
    destruct (get_prop (req_body req) "image_base64") as [ib | e2];
      [| cbn [fst]; intros H1 H2;
         rewrite (catch_has_no_darshan _ _ H1) in H2; discriminate].
    destruct (negb (truthy iu) && negb (truthy ib));
      [cbn; intros H; inversion H; subst; discriminate |].
    destruct (if truthy ib && negb (truthy iu) then data_url ib else Return iu)
      as [url | e3];
      [| cbn [fst]; intros H1 H2;
         rewrite (catch_has_no_darshan _ _ H1) in H2; discriminate].
    destruct (gw url) as [content | e4] eqn:Hgw; cbn [bind];
      [| cbn [fst]; intros H1 H2;
         rewrite (catch_has_no_darshan _ _ H1) in H2; discriminate].
    destruct (parseGPTResponse content) as [data | e5] eqn:Hparse; cbn [bind];
      [| cbn [fst]; intros H1 H2;
         rewrite (catch_has_no_darshan _ _ H1) in H2; discriminate].
    destruct (validateDarshanResult data) as [v | e6] eqn:Hval; cbn [bind];
      [| cbn [fst]; intros H1 H2;
         rewrite (catch_has_no_darshan _ _ H1) in H2; discriminate].
    cbn [fst snd payload status]. intros H1 H2.
    inversion H1; subst o. cbn in H2. inversion H2; subst v.
    destruct (validate_return _ _ Hval) as [-> Hok].
    split; [reflexivity |]. exists url, content. auto.
Qed.

(** The gate at work: a reply without [confidence] is answered by the
    generic failure. *)
Lemma validation_gate_witness :
  let E := Reference.engine [("{}", without_confidence)] in
  let gw : gateway := fun _ => Return "```json {} ```" in
  fst (handler gw sample_request) = parse_failed
  \/ fst (handler gw sample_request) = identification_failed.
Proof.
  intros E gw.
  apply (proj1 (validation_gate gw sample_request)
           (Some (JStr "https://example.org/tulsi.jpg"))
           "```json {} ```" without_confidence).
  - reflexivity.
  - reflexivity.
  - reflexivity.
  - left. exists "confidence". split; [simpl; tauto | reflexivity].
Defined.

(** What a request carries under the name [k]: nothing when it has no
    body, or a body that is not an object. *)
Definition carried (req : request) (k : string) : option json :=
  match req_body req with
  | Some body => field body k
  | None => None
  end.

Definition missing_image : response :=
  mkResponse 400 (failure "Either image_url or image_base64 is required").

Definition identify (body : option json) : request :=
  {| req_method := "POST"; req_url := "/api/darshan"; req_headers := [];
     req_query := []; req_body := body |}.

Lemma catch_not_400 (e : js_error) : handler_catch e <> missing_image.
Proof.
  unfold handler_catch.
  destruct (match err_status e with Some 429 => true | _ => false end);
    [discriminate |].
  destruct (_ || _); discriminate.
Qed.

(** C8, as stated, fails: a request that carries both an [image_url] and an
    [image_base64] is not rejected but answered 200, from the [image_url];
    and a request whose body is [null], which carries neither, is answered
    500, not 400. *)
Lemma both_images_accepted :
  let E := Reference.engine [("{}", JObj sample_reply)] in
  let gw : gateway := fun _ => Return "{}" in
  let both :=
    identify (Some (JObj [("image_url", JStr "https://example.org/tulsi.jpg");
                          ("image_base64", JStr "aGVsbG8=")])) in
  handler gw both
  = (mkResponse 200 (JObj [("success", JBool true);
                           ("darshan", JObj sample_reply)]),
     [Some (JStr "https://example.org/tulsi.jpg")])
  /\ truthy (carried (identify (Some JNull)) "image_url") = false
  /\ truthy (carried (identify (Some JNull)) "image_base64") = false
  /\ handler gw (identify (Some JNull)) = (identification_failed, [])
  /\ status identification_failed <> 400.
Proof.
  intros E gw both.
  split; [vm_compute; reflexivity |].
  split; [reflexivity |]. split; [reflexivity |].
  split; [vm_compute; reflexivity | discriminate].
Qed.

(** C8, amended.  A POST that carries neither an [image_url] nor an
    [image_base64] (absent, null or empty) never reaches the gateway: it is
    answered 400 with the missing-image error when its body is a JSON value
    other than [null], and with one of the two fixed 500 failures when it
    has no body or the body [null].  Carrying exactly one is not required:
    a request with an [image_url] is served from it, whether or not it
    carries an [image_base64] as well. *)
Theorem missing_image_rejected {E : Engine} (gw : gateway) (req : request) :
  req_method req = "POST" ->
  (truthy (carried req "image_url") = false ->
   truthy (carried req "image_base64") = false ->
   snd (handler gw req) = []
   /\ (forall body,
         req_body req = Some body -> body <> JNull ->
         fst (handler gw req) = missing_image)
   /\ (req_body req = None \/ req_body req = Some JNull ->
       fst (handler gw req) = parse_failed
       \/ fst (handler gw req) = identification_failed))
  /\ (truthy (carried req "image_url") = true ->
      snd (handler gw req) = [carried req "image_url"]
      /\ fst (handler gw req) <> missing_image).
Proof.
  intros Hm. unfold handler. rewrite Hm.
  cbn [String.eqb Ascii.eqb Bool.eqb negb].
  split.
  - intros Hu Hb64. unfold handler_try, carried in *.
    destruct (req_body req) as [body |] eqn:Hbody.
    + destruct (json_null_dec body) as [-> | Hnn].
      * cbn [get_prop fst snd]. split; [reflexivity |].
        split; [intros b Hb Hne; congruence |].
        intros _. apply catch_plain. apply plain_type_error.
      * rewrite !get_prop_field by exact Hnn. rewrite Hu, Hb64.
        cbn [negb andb fst snd]. split; [reflexivity |].
        split; [reflexivity |].
        intros [H | H]; [discriminate | congruence].
    + cbn [get_prop fst snd]. split; [reflexivity |].
      split; [intros b Hb; discriminate |].
      intros _. apply catch_plain. apply plain_type_error.
  - intros Hu. unfold handler_try, carried in *.
    destruct (req_body req) as [body |]; [| discriminate].
    destruct (json_null_dec body) as [-> | Hnn]; [discriminate |].
    rewrite !get_prop_field by exact Hnn. rewrite Hu.
    cbn [negb andb]. rewrite andb_false_r.
    destruct (gw (field body "image_url")) as [content | e];
      cbn [bind fst snd]; [| split; [reflexivity | apply catch_not_400]].
    destruct (parseGPTResponse content) as [data | e]; cbn [bind fst snd];
      [| split; [reflexivity | apply catch_not_400]].
    destruct (validateDarshanResult data) as [v | e]; cbn [bind fst snd];
      [| split; [reflexivity | apply catch_not_400]].
    split; [reflexivity | discriminate].
Qed.

(** An empty [image_url] is as good as none; and the body [null] is
    answered 500. *)
Lemma missing_image_rejected_witness :
  let E := Reference.engine [] in
  let gw : gateway := fun _ => Return "{}" in
  let req := identify (Some (JObj [("image_url", JStr "")])) in
  handler gw req = (missing_image, [])
  /\ (fst (handler gw (identify (Some JNull))) = parse_failed
      \/ fst (handler gw (identify (Some JNull))) = identification_failed).
Proof.
  intros E gw req.
  destruct (missing_image_rejected gw req) as [Hnone _]; [reflexivity |].
  destruct Hnone as (Hcalls & Hbody & _); [reflexivity | reflexivity |].
  destruct (missing_image_rejected gw (identify (Some JNull)))
    as [Hnull _]; [reflexivity |].
  destruct Hnull as (_ & _ & Hfail); [reflexivity | reflexivity |].
  split.
  - apply injective_projections; [| exact Hcalls].
    apply (Hbody (JObj [("image_url", JStr "")])); [reflexivity | discriminate].
  - apply Hfail. right. reflexivity.
Defined.

(** C9 (null passes the object-shape check).  There are replies in which
    a required nested field is [null] and which the endpoint nevertheless
    returns: for each of [description], [care_guide],
    [traditional_significance] and [warnings], the sample reply with that
    field set to [null] is returned unchanged by the validator, and the
    endpoint sends it back in a 200 success response. *)
Theorem null_nested_field_accepted (k : string) :
  In k nullable_objects ->
  field (with_null k) k = Some JNull
  /\ (forall E : Engine, validateDarshanResult (with_null k) = Return (with_null k))
  /\ (forall (E : Engine) gw req u content,
        snd (handler gw req) = [u] ->
        gw u = Return content ->
        parseGPTResponse content = Return (with_null k) ->
        fst (handler gw req)
        = mkResponse 200
            (JObj [("success", JBool true); ("darshan", with_null k)])).
Proof.
  intros Hk.
  assert (Hv : forall E : Engine,
             validateDarshanResult (with_null k) = Return (with_null k)).
  { intros E. cbn in Hk.
    destruct Hk as [<- | [<- | [<- | [<- | []]]]]; reflexivity. }
  split; [| split].
  - cbn in Hk. destruct Hk as [<- | [<- | [<- | [<- | []]]]]; reflexivity.
  - exact Hv.
  - intros E gw req u content Hcall Hgw Hparse.
    rewrite (handler_after_call gw req u Hcall), Hgw. cbn [bind].
    rewrite Hparse. cbn [bind]. rewrite Hv. reflexivity.
Qed.

Lemma null_nested_field_accepted_witness :
  let E := Reference.engine [("{}", with_null "description")] in
  let gw : gateway := fun _ => Return "{}" in
  field (with_null "description") "description" = Some JNull
  /\ fst (handler gw sample_request)
     = mkResponse 200
         (JObj [("success", JBool true);
                ("darshan", with_null "description")]).
Proof.
  intros E gw.
  destruct (null_nested_field_accepted "description") as [Hf [_ Hh]];
    [simpl; tauto |].
  split; [exact Hf |].
  apply (Hh E gw sample_request (Some (JStr "https://example.org/tulsi.jpg"))
            "{}"); reflexivity.
Defined.

End DarshanClaims.

(* ================================================================== *)
(** * The token service *)
(* ================================================================== *)

Module AuthFacts.
Import Auth Str StrFacts.

Section WithJwt.
Context {J : JwtLib}.

Lemma authorization_bearer (token : string) (req : request) :
  authorization (bearer token req) = Some ("Bearer " ++ token).
Proof. reflexivity. Qed.

Lemma jwt_verify_sign (payload : claims) (secret : string) (now : Z) :
  jwt_verify (jwt_sign payload secret) secret now
  = if exp payload <=? now then Throw TokenExpiredError else Return payload.
Proof.
  unfold jwt_verify, jwt_sign. rewrite deserialize_serialize.
  rewrite String.eqb_refl. reflexivity.
Qed.

(** Presenting a freshly signed token: the header parses, and the outcome
    is that of the library's verification. *)
Lemma verifyToken_try_signed (env : environment) (secret : string)
  (payload : claims) (t : Z) (req : request) :
  JWT_SECRET env = Some secret -> secret <> "" ->
  verifyToken_try env t (bearer (jwt_sign payload secret) req)
  = if exp payload <=? seconds t then Throw TokenExpiredError
    else Return {| auth_user_id := user_id payload;
                   auth_email := email payload |}.
Proof.
  intros Hs Hne. unfold verifyToken_try.
  rewrite authorization_bearer.
  change ("Bearer " ++ jwt_sign payload secret =? "")%string with false.
  cbv iota. rewrite split_bearer by apply serialize_no_space.
  change (negb (toLowerCase "Bearer" =? "bearer")%string) with false.
  cbv iota. rewrite Hs.
  apply String.eqb_neq in Hne. rewrite Hne.
  rewrite jwt_verify_sign. destruct (exp payload <=? seconds t); reflexivity.
Qed.

Lemma generateToken_configured (env : environment) (secret : string)
  (t0 : Z) (userId email : string) :
  JWT_SECRET env = Some secret -> secret <> "" ->
  generateToken env t0 userId email
  = Return (jwt_sign {| user_id := userId; email := email;
                        exp := seconds t0 + 7 * 24 * 60 * 60;
                        iat := seconds t0 |} secret).
Proof.
  intros Hs Hne. unfold generateToken. rewrite Hs.
  apply String.eqb_neq in Hne. rewrite Hne. reflexivity.
Qed.

(** What stands behind a successful verification. *)
Lemma verifyToken_return (env : environment) (t : Z) (req : request)
  (a : auth_data) :
  verifyToken env t req = Return a ->
  exists authHeader scheme token secret payload,
    authorization req = Some authHeader
    /\ split " " authHeader = [scheme; token]
    /\ JWT_SECRET env = Some secret
    /\ deserialize token = Some (payload, hmac_sha256 secret payload)
    /\ seconds t < exp payload
    /\ a = {| auth_user_id := user_id payload; auth_email := email payload |}.
Proof.
  unfold verifyToken, try_catch.
  destruct (verifyToken_try env t req) as [a' | e] eqn:Htry.
  2:{ destruct (err_name e =? "TokenExpiredError")%string; [discriminate |].
      destruct (err_name e =? "JsonWebTokenError")%string; discriminate. }
  intros H; inversion H; subst a'; clear H.
  unfold verifyToken_try in Htry.
  destruct (authorization req) as [h |] eqn:Hh; [| discriminate].
  destruct (h =? "")%string; [discriminate |].
  destruct (split " " h) as [| scheme [| token [| x l]]] eqn:Hsplit;
    try discriminate.
  destruct (negb (toLowerCase scheme =? "bearer")%string); [discriminate |].
  destruct (JWT_SECRET env) as [secret |]; [| discriminate].
  destruct (secret =? "")%string; [discriminate |].
  unfold jwt_verify in Htry.
  destruct (deserialize token) as [[payload sig] |] eqn:Hd; [| discriminate].
  destruct (sig =? hmac_sha256 secret payload)%string eqn:Hsig;
    cbn [negb] in Htry; [| discriminate].
  destruct (exp payload <=? seconds t) eqn:Hexp; [discriminate |].
  cbn [bind] in Htry. inversion Htry; subst a.
  apply String.eqb_eq in Hsig. subst sig. apply Z.leb_gt in Hexp.
  exists h, scheme, token, secret, payload.
  repeat split; auto.
Qed.

End WithJwt.

End AuthFacts.

Module AuthClaims.
Import Auth AuthFacts.

Definition reference_env : environment :=
  {| JWT_SECRET := Some "correct horse battery staple";
     SUPABASE_URL := Some "https://vriksh.supabase.co";
     SUPABASE_KEY := Some "anon-key" |}.

Definition blank_request : request :=
  {| req_method := "GET"; req_url := "/api/auth/verify"; req_headers := [];
     req_query := []; req_body := None |}.

(** C3 (token round trip).  With a signing secret configured, issuing a
    token for a non-empty userId and email succeeds, and presenting that
    token as the bearer credential at any clock reading before its expiry,
    under the same secret, verifies and returns exactly that userId and
    email; and whatever [verifyToken] returns, for any request, are the
    subject fields of a claim set whose signature verifies under the
    configured secret. *)
Theorem token_round_trip {J : JwtLib} (env : environment) (secret : string)
  (t0 : Z) (userId email : string) :
  JWT_SECRET env = Some secret -> secret <> "" ->
  userId <> "" -> email <> "" ->
  (exists token,
      generateToken env t0 userId email = Return token
      /\ forall req t,
           t < (seconds t0 + 7 * 24 * 60 * 60) * 1000 ->
           verifyToken env t (bearer token req)
           = Return {| auth_user_id := userId; auth_email := email |})
  /\ (forall req t a,
       verifyToken env t req = Return a ->
       exists authHeader scheme token payload,
         authorization req = Some authHeader
         /\ Str.split " " authHeader = [scheme; token]
         /\ deserialize token = Some (payload, hmac_sha256 secret payload)
         /\ a = {| auth_user_id := user_id payload;
                   auth_email := Auth.email payload |}).
Proof.
  intros Hs Hne _ _. split.
  - eexists. split; [apply generateToken_configured; eassumption |].
    intros req t Ht. unfold verifyToken.
    rewrite (verifyToken_try_signed env secret) by assumption.
    cbn [exp user_id Auth.email].
    assert (Hlt : seconds t < seconds t0 + 7 * 24 * 60 * 60).
    { unfold seconds at 1. apply Z.div_lt_upper_bound; lia. }
    apply Z.leb_gt in Hlt. rewrite Hlt. reflexivity.
  - intros req t a Hv.
    destruct (verifyToken_return env t req a Hv)
      as (h & scheme & token & secret' & payload & Hh & Hsp & Hs' & Hd & _ & Ha).
    rewrite Hs in Hs'. inversion Hs'; subst secret'.
    exists h, scheme, token, payload. auto.
Qed.

Lemma token_round_trip_witness :
  let J := ReferenceFacts.jwt in
  exists token,
    generateToken reference_env 1762128000000 "user-7" "ana@example.com"
    = Return token
    /\ verifyToken reference_env 1762214400000 (bearer token blank_request)
       = Return {| auth_user_id := "user-7"; auth_email := "ana@example.com" |}.
Proof.
  intros J.
  destruct (token_round_trip reference_env "correct horse battery staple"
              1762128000000 "user-7" "ana@example.com")
    as [[token [Hgen Hver]] _];
    [reflexivity | discriminate | discriminate | discriminate |].
  exists token. split; [exact Hgen |].
  apply Hver. vm_compute. reflexivity.
Defined.

(** C7 (token expiry).  The token issued at clock reading [t0] carries
    claims signed under the secret whose expires-at is its issued-at plus
    7 days (604800 seconds); presented at any time strictly before
    expires-at it verifies, at any time after expires-at verification
    fails with the expired error; and a request verifies only if the
    token's signature verifies under the current secret and the clock is
    before its expires-at. *)
Theorem token_expiry {J : JwtLib} (env : environment) (secret : string)
  (t0 : Z) (userId email : string) :
  JWT_SECRET env = Some secret -> secret <> "" ->
  (exists token payload,
      generateToken env t0 userId email = Return token
      /\ deserialize token = Some (payload, hmac_sha256 secret payload)
      /\ iat payload = seconds t0
      /\ exp payload = iat payload + 604800
      /\ (forall req t,
            t < exp payload * 1000 ->
            verifyToken env t (bearer token req)
            = Return {| auth_user_id := userId; auth_email := email |})
      /\ (forall req t,
            exp payload * 1000 < t ->
            verifyToken env t (bearer token req) = Throw expired_error))
  /\ (forall req t a,
       verifyToken env t req = Return a ->
       exists authHeader scheme token payload,
         authorization req = Some authHeader
         /\ Str.split " " authHeader = [scheme; token]
         /\ deserialize token = Some (payload, hmac_sha256 secret payload)
         /\ seconds t < exp payload).
Proof.
  intros Hs Hne. split.
  - eexists. eexists.
    split; [apply generateToken_configured; eassumption |].
    split; [apply deserialize_serialize |].
    cbn [iat exp]. split; [reflexivity |]. split; [lia |].
    split; intros req t Ht; unfold verifyToken;
      rewrite (verifyToken_try_signed env secret) by assumption;
      cbn [exp user_id Auth.email].
    + assert (Hlt : seconds t < seconds t0 + 7 * 24 * 60 * 60).
      { unfold seconds at 1. apply Z.div_lt_upper_bound; lia. }
      apply Z.leb_gt in Hlt. rewrite Hlt. reflexivity.
    + assert (Hle : seconds t0 + 7 * 24 * 60 * 60 <= seconds t).
      { unfold seconds at 2. apply Z.div_le_lower_bound; lia. }
      apply Z.leb_le in Hle. rewrite Hle. reflexivity.
  - intros req t a Hv.
    destruct (verifyToken_return env t req a Hv)
      as (h & scheme & token & secret' & payload & Hh & Hsp & Hs' & Hd & Hlt & _).
    rewrite Hs in Hs'. inversion Hs'; subst secret'.
    exists h, scheme, token, payload. auto.
Qed.

(** Issued at t0 (in milliseconds), the token verifies one second before
    t0 + 7 days and is expired one second after. *)
Lemma token_expiry_witness :
  let J := ReferenceFacts.jwt in
  let t0 := 1762128000000 in
  exists token,
    generateToken reference_env t0 "user-7" "ana@example.com" = Return token
    /\ verifyToken reference_env (t0 + 604800000 - 1000)
         (bearer token blank_request)
       = Return {| auth_user_id := "user-7"; auth_email := "ana@example.com" |}
    /\ verifyToken reference_env (t0 + 604800000 + 1000)
         (bearer token blank_request)
       = Throw expired_error.
Proof.
  intros J t0.
  destruct (token_expiry reference_env "correct horse battery staple"
              t0 "user-7" "ana@example.com")
    as [(token & payload & Hgen & _ & Hiat & Hexp & Hok & Hlate) _];
    [reflexivity | discriminate |].
  exists token. split; [exact Hgen |].
  assert (He : exp payload = 1762732800).
  { rewrite Hexp, Hiat. reflexivity. }
  split; [apply Hok | apply Hlate]; rewrite He; vm_compute; reflexivity.
Defined.

End AuthClaims.

(* ================================================================== *)
(** * Objects, rows and the store *)
(* ================================================================== *)

Module StoreFacts.
Import Database.

Lemma lookup_remove_eq (k : string) (o : obj) : lookup k (remove k o) = None.
Proof.
  induction o as [| [k' v] o IH]; cbn [remove lookup]; [reflexivity |].
  destruct (k' =? k)%string eqn:Hk; [exact IH |].
  cbn [lookup]. rewrite Hk. exact IH.
Qed.

Lemma lookup_remove_ne (k k' : string) (o : obj) :
  k' <> k -> lookup k' (remove k o) = lookup k' o.
Proof.
  intros Hne. induction o as [| [k0 v] o IH]; cbn [remove lookup];
    [reflexivity |].
  destruct (k0 =? k)%string eqn:Hk.
  - apply String.eqb_eq in Hk. subst k0.
    replace (k =? k')%string with false
      by (symmetry; apply String.eqb_neq; congruence).
    exact IH.
  - cbn [lookup]. rewrite IH. reflexivity.
Qed.

Lemma lookup_set_eq (k : string) (v : json) (o : obj) :
  lookup k (set k v o) = Some v.
Proof.
  induction o as [| [k' v'] o IH]; cbn [set lookup].
  - rewrite String.eqb_refl. reflexivity.
  - destruct (k' =? k)%string eqn:Hk; cbn [lookup].
    + rewrite String.eqb_refl. reflexivity.
    + rewrite Hk. exact IH.
Qed.

Lemma lookup_set_ne (k k' : string) (v : json) (o : obj) :
  k' <> k -> lookup k' (set k v o) = lookup k' o.
Proof.
  intros Hne.
  assert (Hf : (k =? k')%string = false)
    by (apply String.eqb_neq; congruence).
  induction o as [| [k0 v0] o IH]; cbn [set lookup].
  - rewrite Hf. reflexivity.
  - destruct (k0 =? k)%string eqn:Hk; cbn [lookup].
    + apply String.eqb_eq in Hk. subst k0. rewrite Hf.
      apply lookup_remove_ne; exact Hne.
    + rewrite IH. reflexivity.
Qed.

(** After an update a column holds the supplied value if one was
    supplied, and its former value otherwise. *)
Lemma lookup_merge (k : string) (updates row : obj) :
  lookup k (merge updates row)
  = match lookup k updates with
    | Some v => Some v
    | None => lookup k row
    end.
Proof.
  unfold merge. induction updates as [| [k' v'] u IH];
    cbn [fold_right lookup fst snd]; [reflexivity |].
  destruct (k' =? k)%string eqn:Hk.
  - apply String.eqb_eq in Hk. subst k'. apply lookup_set_eq.
  - rewrite lookup_set_ne by (apply String.eqb_neq in Hk; congruence).
    exact IH.
Qed.

Lemma lookup_not_key (k : string) (o : obj) :
  ~ In k (keys o) -> lookup k o = None.
Proof.
  unfold keys. induction o as [| [k' v] o IH]; cbn [map fst lookup];
    intros Hk; [reflexivity |].
  replace (k' =? k)%string with false
    by (symmetry; apply String.eqb_neq; intros ->; apply Hk; left;
        reflexivity).
  apply IH. intros Hin. apply Hk. right. exact Hin.
Qed.

Lemma lookup_key (k : string) (v : json) (o : obj) :
  lookup k o = Some v -> In k (keys o).
Proof.
  unfold keys. induction o as [| [k' v'] o IH]; cbn [map fst lookup];
    [discriminate |].
  destruct (k' =? k)%string eqn:Hk.
  - intros _. left. apply String.eqb_eq. exact Hk.
  - intros H. right. apply IH. exact H.
Qed.

Lemma keys_remove (k k' : string) (o : obj) :
  In k' (keys (remove k o)) <-> In k' (keys o) /\ k' <> k.
Proof.
  unfold keys. induction o as [| [k0 v] o IH]; cbn [remove map fst In].
  - tauto.
  - destruct (String.eqb_spec k0 k) as [-> | Hne]; cbn [map fst In];
      rewrite IH; intuition congruence.
Qed.

(** ** The columns of the table *)

Lemma is_column_in (k : string) : is_column k = true <-> In k plants_columns.
Proof.
  unfold is_column. rewrite existsb_exists. split.
  - intros (c & Hc & Hk). apply String.eqb_eq in Hk. subst c. exact Hc.
  - intros Hk. exists k. split; [exact Hk | apply String.eqb_refl].
Qed.

Lemma unknown_column_none (data : obj) :
  unknown_column data = None
  <-> forall k, In k (keys data) -> is_column k = true.
Proof.
  unfold unknown_column. split.
  - intros Hnone k Hk.
    pose proof (find_none _ _ Hnone k Hk) as H. cbv beta in H.
    destruct (is_column k); [reflexivity | discriminate].
  - intros Hall. induction (keys data) as [| k l IH]; cbn [find];
      [reflexivity |].
    rewrite (Hall k) by (left; reflexivity). cbn [negb].
    apply IH. intros k' Hk'. apply Hall. right. exact Hk'.
Qed.

(** An object that names a property the table lacks is not accepted. *)
Lemma unknown_column_key (data : obj) (k : string) :
  In k (keys data) -> is_column k = false ->
  exists k', unknown_column data = Some k'.
Proof.
  intros Hin Hk. destruct (unknown_column data) as [k' |] eqn:Hu;
    [eauto |].
  rewrite (proj1 (unknown_column_none data) Hu k Hin) in Hk. discriminate.
Qed.

Lemma unknown_column_remove (k : string) (o : obj) :
  is_column k = true ->
  unknown_column (remove k o) = unknown_column o.
Proof.
  intros Hk. unfold unknown_column, keys.
  induction o as [| [k' v] o IH]; cbn [remove map fst find];
    [reflexivity |].
  destruct (k' =? k)%string eqn:Heq.
  - apply String.eqb_eq in Heq. subst k'. rewrite Hk. cbn [negb]. exact IH.
  - cbn [map fst find]. rewrite IH. reflexivity.
Qed.

(** Setting a column does not change which property is the first that is
    no column. *)
Lemma unknown_column_set (k : string) (v : json) (o : obj) :
  is_column k = true ->
  unknown_column (set k v o) = unknown_column o.
Proof.
  intros Hk. unfold unknown_column, keys.
  induction o as [| [k' v'] o IH]; cbn [set map fst find].
  - rewrite Hk. reflexivity.
  - destruct (k' =? k)%string eqn:Heq; cbn [map fst find].
    + apply String.eqb_eq in Heq. subst k'. rewrite Hk. cbn [negb].
      apply (unknown_column_remove k o Hk).
    + rewrite IH. reflexivity.
Qed.

Lemma lookup_inserted (svc : service) (data : obj) (k : string) :
  lookup k (inserted svc data)
  = if is_column k
    then Some match lookup k data with
              | Some v => v
              | None => column_default svc k
              end
    else None.
Proof.
  unfold inserted, is_column.
  induction plants_columns as [| c l IH]; cbn [map lookup existsb];
    [reflexivity |].
  rewrite String.eqb_sym.
  destruct (k =? c)%string eqn:Hk; cbn [orb]; [| exact IH].
  apply String.eqb_eq in Hk. subst c. reflexivity.
Qed.

Lemma keys_inserted (svc : service) (data : obj) :
  keys (inserted svc data) = plants_columns.
Proof.
  unfold keys, inserted. rewrite map_map. cbn [fst]. apply map_id.
Qed.

Lemma strict_eq_string (v : option json) (s : string) :
  strict_eq v (Some (JStr s)) = true <-> v = Some (JStr s).
Proof.
  split.
  - destruct v as [[] |]; cbn; try discriminate.
    intros H. apply String.eqb_eq in H. congruence.
  - intros ->. cbn. apply String.eqb_refl.
Qed.

Lemma strict_eq_strings (a b : string) :
  a <> b -> strict_eq (Some (JStr a)) (Some (JStr b)) = false.
Proof. intros H. cbn. apply String.eqb_neq. exact H. Qed.

Lemma in_insert_desc (x y : obj) (l : list obj) :
  In y (insert_desc x l) <-> y = x \/ In y l.
Proof.
  induction l as [| z l IH]; cbn [insert_desc].
  - simpl. intuition congruence.
  - destruct (String.ltb (added_date z) (added_date x)).
    + simpl. intuition congruence.
    + simpl. rewrite IH. intuition congruence.
Qed.

(** Ordering keeps exactly the rows it is given. *)
Lemma in_order_desc (y : obj) (l : list obj) :
  In y (order_desc l) <-> In y l.
Proof.
  unfold order_desc. induction l as [| x l IH]; cbn [fold_right].
  - reflexivity.
  - rewrite in_insert_desc, IH. simpl. intuition congruence.
Qed.

Lemma in_eq (column : string) (value : option json) (r : obj)
  (rows : list obj) :
  In r (eq column value rows)
  <-> In r rows /\ strict_eq (lookup column r) value = true.
Proof. unfold eq. apply filter_In. Qed.

(** When the only row with the id belongs to someone else, the check
    fails with the access-denied error. *)
Lemma verify_ownership_foreign (svc : service) (plantId : option json)
  (row : obj) (owner userId : string) :
  outage svc = None ->
  eq "id" plantId (plants svc) = [row] ->
  lookup "user_id" row = Some (JStr owner) ->
  owner <> userId ->
  verify_ownership svc plantId userId
  = Throw (Error "Plant not found or access denied").
Proof.
  intros Hup Hrow Hown Hne. unfold verify_ownership, single.
  rewrite Hup, Hrow. cbn [map]. unfold project. rewrite Hown.
  cbn [lookup]. rewrite String.eqb_refl.
  rewrite strict_eq_strings by exact Hne. reflexivity.
Qed.

Lemma verify_ownership_owner (svc : service) (plantId : option json)
  (row : obj) (userId : string) :
  outage svc = None ->
  eq "id" plantId (plants svc) = [row] ->
  lookup "user_id" row = Some (JStr userId) ->
  verify_ownership svc plantId userId = Return tt.
Proof.
  intros Hup Hrow Hown. unfold verify_ownership, single.
  rewrite Hup, Hrow. cbn [map]. unfold project. rewrite Hown.
  cbn [lookup]. rewrite String.eqb_refl.
  replace (strict_eq (Some (JStr userId)) (Some (JStr userId))) with true
    by (symmetry; apply strict_eq_string; reflexivity).
  reflexivity.
Qed.

Lemma verify_ownership_absent (svc : service) (plantId : option json)
  (userId : string) :
  outage svc = None ->
  eq "id" plantId (plants svc) = [] ->
  verify_ownership svc plantId userId = Throw (Error (no_row_message svc)).
Proof.
  intros Hup Hrow. unfold verify_ownership, single.
  rewrite Hup, Hrow. reflexivity.
Qed.

Section WithRuntime.
Context {E : Engine} {D : JsDate.DateLib}.

Lemma updateVanaPlant_foreign (svc : service) (plantId : option json)
  (row : obj) (owner userId : string) (updates : obj) :
  outage svc = None ->
  eq "id" plantId (plants svc) = [row] ->
  lookup "user_id" row = Some (JStr owner) ->
  owner <> userId ->
  updateVanaPlant svc plantId userId updates
  = (Throw (Error "Failed to update plant: Plant not found or access denied"),
     svc).
Proof.
  intros Hup Hrow Hown Hne. unfold updateVanaPlant.
  rewrite (verify_ownership_foreign svc plantId row owner userId) by assumption.
  reflexivity.
Qed.

(** An object whose properties are all columns carries no
    [watering_frequency_days], so it is sent as it is. *)
Lemma with_next_watering_columns (updates : obj) :
  unknown_column updates = None ->
  with_next_watering updates = Return updates.
Proof.
  intros Hcol. unfold with_next_watering.
  rewrite (lookup_not_key "watering_frequency_days").
  - cbn [truthy]. rewrite andb_false_r. reflexivity.
  - intros Hin.
    pose proof (proj1 (unknown_column_none updates) Hcol _ Hin) as H.
    vm_compute in H. discriminate.
Qed.

(** What is sent names a property that is no column exactly when what was
    supplied does. *)
Lemma with_next_watering_unknown (updates sent : obj) :
  with_next_watering updates = Return sent ->
  unknown_column sent = unknown_column updates.
Proof.
  unfold with_next_watering.
  destruct (truthy (lookup "last_watered" updates)
            && truthy (lookup "watering_frequency_days" updates)).
  - destruct (next_watering _ _) as [due |]; cbn [bind]; [| discriminate].
    intros H; injection H as <-. apply unknown_column_set. reflexivity.
  - intros H; injection H as <-. reflexivity.
Qed.

(** The owner's update with columns only: the row with the id takes every
    supplied value, and the current time as [updated_at]. *)
Lemma updateVanaPlant_owner (svc : service) (plantId : option json)
  (row : obj) (userId : string) (updates : obj) :
  outage svc = None ->
  eq "id" plantId (plants svc) = [row] ->
  lookup "user_id" row = Some (JStr userId) ->
  unknown_column updates = None ->
  updateVanaPlant svc plantId userId updates
  = (Return true,
     with_plants svc
       (map (fun r => if strict_eq (lookup "id" r) plantId
                      then updated_row svc updates r else r)
            (plants svc))).
Proof.
  intros Hup Hrow Hown Hcol. unfold updateVanaPlant.
  rewrite (verify_ownership_owner svc plantId row userId) by assumption.
  cbn [bind]. rewrite (with_next_watering_columns updates Hcol). cbn [bind].
  unfold update. rewrite Hup, Hcol. reflexivity.
Qed.

(** An update that names a property the table lacks throws, whoever sends
    it, and changes nothing. *)
Lemma updateVanaPlant_refused (svc : service) (plantId : option json)
  (userId : string) (updates : obj) (k : string) :
  unknown_column updates = Some k ->
  exists e, updateVanaPlant svc plantId userId updates = (Throw e, svc).
Proof.
  intros Hcol. unfold updateVanaPlant.
  destruct (verify_ownership svc plantId userId); cbn [bind]; [| eauto].
  destruct (with_next_watering updates) as [sent |] eqn:Hsent; cbn [bind];
    [| eauto].
  unfold update.
  rewrite (with_next_watering_unknown updates sent Hsent), Hcol.
  destruct (outage svc); eauto.
Qed.

End WithRuntime.

Lemma removeFromVana_foreign (svc : service) (plantId : option json)
  (row : obj) (owner userId : string) :
  outage svc = None ->
  eq "id" plantId (plants svc) = [row] ->
  lookup "user_id" row = Some (JStr owner) ->
  owner <> userId ->
  removeFromVana svc plantId userId
  = (Throw (Error "Failed to remove plant: Plant not found or access denied"),
     svc).
Proof.
  intros Hup Hrow Hown Hne. unfold removeFromVana.
  rewrite (verify_ownership_foreign svc plantId row owner userId) by assumption.
  reflexivity.
Qed.

Section WithRuntime.
Context {E : Engine} {D : JsDate.DateLib}.

(** When [updateVanaPlant] returns, every property it was given is a
    column, and the rows with the id have been updated. *)
Lemma updateVanaPlant_returns (svc svc' : service) (plantId : option json)
  (userId : string) (updates : obj) (b : bool) :
  updateVanaPlant svc plantId userId updates = (Return b, svc') ->
  unknown_column updates = None
  /\ svc' = with_plants svc
              (map (fun r => if strict_eq (lookup "id" r) plantId
                             then updated_row svc updates r else r)
                   (plants svc)).
Proof.
  unfold updateVanaPlant.
  destruct (verify_ownership svc plantId userId); cbn [bind];
    [| discriminate].
  destruct (with_next_watering updates) as [sent |] eqn:Hsent; cbn [bind];
    [| discriminate].
  unfold update. destruct (outage svc); [discriminate |].
  destruct (unknown_column sent) eqn:Hcol; [discriminate |].
  rewrite (with_next_watering_unknown updates sent Hsent) in Hcol.
  rewrite (with_next_watering_columns updates Hcol) in Hsent.
  injection Hsent as <-.
  intros H; injection H as _ <-. split; [exact Hcol | reflexivity].
Qed.

End WithRuntime.

(** The row of an update is among the rows afterwards. *)
Lemma updated_row_stored (plantId : option json) (row : obj)
  (f : obj -> obj) (rows : list obj) :
  eq "id" plantId rows = [row] ->
  In (f row)
     (map (fun r => if strict_eq (lookup "id" r) plantId then f r else r)
          rows).
Proof.
  intros Hrow.
  assert (Hin : In row (eq "id" plantId rows)) by (rewrite Hrow; left; auto).
  apply in_eq in Hin as [Hin Hid].
  apply in_map_iff. exists row. rewrite Hid. auto.
Qed.

(** A column after an update: the current time for [updated_at], else the
    supplied value if one was supplied, else the former value. *)
Lemma lookup_updated_row (svc : service) (k : string) (updates row : obj) :
  lookup k (updated_row svc updates row)
  = if (k =? "updated_at")%string then Some (JStr (now svc))
    else match lookup k updates with
         | Some v => Some v
         | None => lookup k row
         end.
Proof.
  unfold updated_row. destruct (String.eqb_spec k "updated_at") as [-> | Hne].
  - apply lookup_set_eq.
  - rewrite lookup_set_ne by exact Hne. apply lookup_merge.
Qed.

End StoreFacts.

(* ================================================================== *)
(** * Properties of the data-service wrapper and of the collection *)
(* ================================================================== *)

Module Fixture.
Import Auth Database.

Definition ana : obj :=
  [("id", JStr "a11ce"); ("email", JStr "ana@example.com"); ("name", JStr "Ana");
   ("created_at", JStr "2025-10-30T08:00:00+00:00");
   ("updated_at", JStr "2025-10-30T08:00:00+00:00")].

Definition ben : obj :=
  [("id", JStr "b0b"); ("email", JStr "ben@example.com"); ("name", JStr "Ben");
   ("created_at", JStr "2025-10-31T08:00:00+00:00");
   ("updated_at", JStr "2025-10-31T08:00:00+00:00")].

(** Ana's fern, watered on 2025-11-01 and due seven days later. *)
Definition fern : obj :=
  [("id", JStr "f00d-01"); ("user_id", JStr "a11ce"); ("name", JStr "Fern");
   ("species", JStr "Nephrolepis"); ("scientific_name", JNull);
   ("sanskrit_name", JNull); ("family", JNull); ("image_url", JNull);
   ("added_date", JStr "2025-11-01");
   ("last_watered", JStr "2025-11-01T10:00:00+00:00");
   ("next_watering_due", JStr "2025-11-08");
   ("care_schedule", JNull); ("health_status", JStr "healthy");
   ("notes", JNull);
   ("created_at", JStr "2025-11-01T10:05:00+00:00");
   ("updated_at", JStr "2025-11-01T10:05:00+00:00")].

Definition garden : service :=
  {| users := [ana; ben];
     plants := [fern];
     outage := None;
     no_row_message := "JSON object requested, multiple (or no) rows returned";
     no_column_message := fun k =>
       "Could not find the '" ++ k ++ "' column of 'plants' in the schema cache";
     fresh_id := fun n => "f00d-" ++ JsDate.pad 2 (Z.of_nat n + 1);
     today := "2025-11-04";
     now := "2025-11-04T00:00:00+00:00" |}.

(** The same service when it cannot be reached. *)
Definition unreachable : service :=
  {| users := [ana; ben];
     plants := [fern];
     outage := Some "fetch failed";
     no_row_message := no_row_message garden;
     no_column_message := no_column_message garden;
     fresh_id := fresh_id garden;
     today := today garden;
     now := now garden |}.

Definition env : environment :=
  {| JWT_SECRET := Some "correct horse battery staple";
     SUPABASE_URL := Some "https://vriksh.supabase.co";
     SUPABASE_KEY := Some "anon-key" |}.

(** 2025-11-03T00:00:00Z and a day later, in milliseconds. *)
Definition issued : Z := 1762128000000.
Definition later : Z := 1762214400000.

Definition token_for (userId email : string) : string :=
  match @generateToken ReferenceFacts.jwt env issued userId email with
  | Return token => token
  | Throw _ => EmptyString
  end.

Definition as_user (userId email method url : string) (body : option json)
  : request :=
  {| req_method := method; req_url := url;
     req_headers := [("authorization", "Bearer " ++ token_for userId email)];
     req_query := []; req_body := body |}.

Definition as_ana := as_user "a11ce" "ana@example.com".
Definition as_ben := as_user "b0b" "ben@example.com".

End Fixture.

Module FixtureFacts.
Import Auth AuthFacts.

(** The fixture's requests verify, a day after their token was issued. *)
Lemma as_user_verified (userId email method url : string)
  (body : option json) :
  @verifyToken ReferenceFacts.jwt Fixture.env Fixture.later
    (Fixture.as_user userId email method url body)
  = Return {| auth_user_id := userId; auth_email := email |}.
Proof.
  pose (J := ReferenceFacts.jwt).
  unfold Fixture.as_user, Fixture.token_for.
  rewrite (generateToken_configured Fixture.env "correct horse battery staple")
    by (reflexivity || discriminate).
  match goal with
  | |- verifyToken _ _ {| req_method := ?m; req_url := ?u;
                          req_headers := [(_, _ ++ ?token)];
                          req_query := ?q; req_body := ?b |} = _ =>
      change (verifyToken Fixture.env Fixture.later
                (bearer token
                   {| req_method := m; req_url := u; req_headers := [];
                      req_query := q; req_body := b |})
              = Return {| auth_user_id := userId; auth_email := email |})
  end.
  unfold verifyToken.
  rewrite (verifyToken_try_signed Fixture.env "correct horse battery staple")
    by (reflexivity || discriminate).
  reflexivity.
Qed.

(** A hypothesis about a fixture request: its verification by the lemma,
    anything else by evaluation. *)
Ltac run := first [apply as_user_verified | vm_compute; reflexivity].

End FixtureFacts.

Module DatabaseClaims.
Import Database StoreFacts.

(** C5, as stated, fails: with the service unreachable, [getUser] does not
    throw but returns [null], exactly as it does for a user the reachable
    service does not hold. *)
Lemma getUser_swallows_outage :
  getUser Fixture.unreachable "a11ce" = Return None
  /\ getUser Fixture.garden "n0b0dy" = Return None
  /\ (forall e, getUser Fixture.unreachable "a11ce" <> Throw e).
Proof.
  split; [reflexivity |]. split; [reflexivity |]. intros e; discriminate.
Qed.

(** C5, amended.  [getUser] never throws: it returns the stored profile
    when the reachable service holds exactly one user with the id, and
    [null] in every other case, among them any failure of the service. *)
Theorem getUser_error_discipline (svc : service) (userId : string) :
  (exists r, getUser svc userId = Return r)
  /\ (forall u,
        getUser svc userId = Return (Some u) <->
        outage svc = None
        /\ eq "id" (Some (JStr userId)) (users svc) = [u])
  /\ (forall msg, outage svc = Some msg -> getUser svc userId = Return None).
Proof.
  unfold getUser, single, try_catch.
  destruct (outage svc) as [msg |].
  - split; [eexists; reflexivity |]. split; [| reflexivity].
    intros u; split; [discriminate | intros [H _]; discriminate].
  - destruct (eq "id" (Some (JStr userId)) (users svc)) as [| r [| r' l]].
    + split; [eexists; reflexivity |]. split; [| discriminate].
      intros u; split; [discriminate | intros [_ H]; discriminate].
    + split; [eexists; reflexivity |]. split; [| discriminate].
      intros u; split; intros H.
      * inversion H; auto.
      * destruct H as [_ H]. inversion H. reflexivity.
    + split; [eexists; reflexivity |]. split; [| discriminate].
      intros u; split; [discriminate | intros [_ H]; discriminate].
Qed.

Lemma getUser_error_discipline_witness :
  getUser Fixture.garden "a11ce" = Return (Some Fixture.ana)
  /\ getUser Fixture.unreachable "a11ce" = Return None.
Proof.
  split.
  - apply (proj1 (proj2 (getUser_error_discipline Fixture.garden "a11ce"))).
    split; reflexivity.
  - apply (proj2 (proj2 (getUser_error_discipline Fixture.unreachable "a11ce"))
             "fetch failed").
    reflexivity.
Defined.

End DatabaseClaims.

Module VanaFacts.
Import Auth Database Vana StoreFacts.

(** The acknowledgement of an update. *)
Definition updated : response :=
  mkResponse 200 (success [("message", JStr "Plant updated successfully")]).

Lemma find_none_all {A : Type} (f : A -> bool) (l : list A) :
  (forall x, In x l -> f x = false) -> find f l = None.
Proof.
  induction l as [| y l IH]; intros H; cbn [find]; [reflexivity |].
  rewrite (H y) by (left; reflexivity).
  apply IH. intros x Hx. apply H. right; exact Hx.
Qed.

(** Among the rows of one user there is none with the id of a plant that
    belongs to another, or of a plant that does not exist. *)
Lemma find_foreign (svc : service) (pid owner userId : string) (row : obj) :
  eq "id" (Some (JStr pid)) (plants svc) = [row] ->
  lookup "user_id" row = Some (JStr owner) ->
  owner <> userId ->
  find (fun p => strict_eq (lookup "id" p) (Some (JStr pid)))
       (order_desc (eq "user_id" (Some (JStr userId)) (plants svc)))
  = None.
Proof.
  intros Hrow Hown Hne. apply find_none_all. intros x Hx.
  apply (proj1 (in_order_desc _ _)) in Hx.
  apply (proj1 (in_eq _ _ _ _)) in Hx as [Hin Huser].
  destruct (strict_eq (lookup "id" x) (Some (JStr pid))) eqn:Hid;
    [| reflexivity].
  assert (Hx : In x (eq "id" (Some (JStr pid)) (plants svc)))
    by (apply in_eq; auto).
  rewrite Hrow in Hx. destruct Hx as [<- | []].
  rewrite Hown in Huser. rewrite strict_eq_strings in Huser by exact Hne.
  discriminate.
Qed.

Lemma find_absent (svc : service) (pid userId : string) :
  eq "id" (Some (JStr pid)) (plants svc) = [] ->
  find (fun p => strict_eq (lookup "id" p) (Some (JStr pid)))
       (order_desc (eq "user_id" (Some (JStr userId)) (plants svc)))
  = None.
Proof.
  intros Hrow. apply find_none_all. intros x Hx.
  apply (proj1 (in_order_desc _ _)) in Hx.
  apply (proj1 (in_eq _ _ _ _)) in Hx as [Hin Huser].
  destruct (strict_eq (lookup "id" x) (Some (JStr pid))) eqn:Hid;
    [| reflexivity].
  assert (Hx : In x (eq "id" (Some (JStr pid)) (plants svc)))
    by (apply in_eq; auto).
  rewrite Hrow in Hx. destruct Hx.
Qed.

Section WithRuntime.
Context {E : Engine} {D : JsDate.DateLib} {J : JwtLib}.

Lemma authenticate_verified (env : environment) (t : Z) (req : request)
  (a : auth_data) :
  verifyToken env t req = Return a ->
  authenticate env t req = inl (auth_user_id a).
Proof. unfold authenticate. intros ->. reflexivity. Qed.

(** Past authentication and its two checks, [handlePut] is decided by
    [updateVanaPlant]. *)
Lemma handlePut_verified (env : environment) (t : Z) (svc : service)
  (req : request) (a : auth_data) (pid : string) :
  verifyToken env t req = Return a ->
  auth_user_id a <> "" ->
  getDatabase env = Return tt ->
  put_plant_id req = Return (Some (JStr pid)) ->
  pid <> "" ->
  put_updates req <> [] ->
  handlePut env t svc req
  = match updateVanaPlant svc (Some (JStr pid)) (auth_user_id a)
            (put_updates req) with
    | (Return _, svc') => (Some updated, svc')
    | (Throw error, svc') =>
        (Some (mkResponse 500 (failure (err_message error))), svc')
    end.
Proof.
  intros Hv Huser Hdb Hid Hpid Hsome.
  apply String.eqb_neq in Huser. apply String.eqb_neq in Hpid.
  unfold handlePut.
  rewrite (authenticate_verified _ _ _ _ Hv), Huser, Hid.
  cbn [truthy]. rewrite Hpid. cbn [negb].
  destruct (put_updates req) as [| kv rest] eqn:Hupd; [congruence |].
  cbn [keys map List.length Nat.eqb]. rewrite Hdb. reflexivity.
Qed.

(** What [saveToVana] can do to the service: nothing, or add one row owned
    by the user it was called for, whose id it returns. *)
Lemma saveToVana_effect (svc svc' : service) (userId : string)
  (plantData : option json) (r : js_result json) :
  saveToVana svc userId plantData = (r, svc') ->
  (svc' = svc /\ exists e, r = Throw e)
  \/ exists row id,
       svc' = with_plants svc (plants svc ++ [row])
       /\ lookup "user_id" row = Some (JStr userId)
       /\ lookup "id" row = Some id
       /\ r = Return id.
Proof.
  unfold saveToVana.
  match goal with
  | |- (match ?m with _ => _ end) = _ -> _ => destruct m as [[id s] | e] eqn:Hatt
  end.
  2:{ intros H; inversion H; subst. left. split; [reflexivity | eauto]. }
  intros H; inversion H; subst r svc'; clear H. right.
  repeat match type of Hatt with
         | bind (get_prop ?v ?k) _ = _ =>
             destruct (get_prop v k) eqn:?; cbn [bind] in Hatt;
             [| discriminate]
         end.
  match type of Hatt with
  | bind ?m _ = _ => destruct m as [data |] eqn:Hdata; cbn [bind] in Hatt;
                     [| discriminate]
  end.
  unfold insert in Hatt.
  destruct (outage svc); [discriminate |].
  destruct (unknown_column data); [discriminate |].
  injection Hatt as <- <-.
  exists (inserted svc data). eexists. split; [reflexivity |].
  assert (Huser : lookup "user_id" data = Some (JStr userId)).
  { match type of Hdata with
    | (if ?c then _ else _) = _ => destruct c
    end.
    - repeat match type of Hdata with
             | bind ?m _ = _ => destruct m eqn:?; cbn [bind] in Hdata;
                                [| discriminate]
             end.
      injection Hdata as <-.
      cbn [lookup literal String.eqb Ascii.eqb Bool.eqb]. reflexivity.
    - injection Hdata as <-. reflexivity. }
  rewrite !lookup_inserted, Huser.
  change (is_column "user_id") with true.
  change (is_column "id") with true. cbv iota.
  split; [reflexivity |]. split; reflexivity.
Qed.

End WithRuntime.

End VanaFacts.

Module VanaClaims.
Import Auth Database Vana StoreFacts VanaFacts.

Definition not_found : response :=
  mkResponse 404 (failure "Plant not found").

Definition update_denied : response :=
  mkResponse 500
    (failure "Failed to update plant: Plant not found or access denied").

Definition remove_denied : response :=
  mkResponse 500
    (failure "Failed to remove plant: Plant not found or access denied").

Definition no_fields : response :=
  mkResponse 400 (failure "No fields to update").

Definition notes_only : option json :=
  Some (JObj [("notes", JStr "mine now")]).

(** C1, as stated, fails: Ben's update and delete of Ana's fern are
    answered 500, not 404, and the update's response differs from the one
    for an id that does not exist. *)
Lemma foreign_update_is_not_404 :
  let E := Reference.engine [] in
  let D := Reference.dates in
  let J := ReferenceFacts.jwt in
  let run req := fst (handlePut Fixture.env Fixture.later Fixture.garden req) in
  run (Fixture.as_ben "PUT" "/api/vana/f00d-01" notes_only) = Some update_denied
  /\ fst (handleDelete Fixture.env Fixture.later Fixture.garden
            (Fixture.as_ben "DELETE" "/api/vana/f00d-01" None))
     = Some remove_denied
  /\ status update_denied <> 404
  /\ status remove_denied <> 404
  /\ run (Fixture.as_ben "PUT" "/api/vana/f00d-99" notes_only)
     <> run (Fixture.as_ben "PUT" "/api/vana/f00d-01" notes_only).
Proof.
  intros E D J run.
  split; [vm_compute; reflexivity |].
  split; [vm_compute; reflexivity |].
  split; [discriminate |].
  split; [discriminate |].
  vm_compute. discriminate.
Qed.

(** C1, amended.  Let a plant belong to a user other than the
    authenticated caller.  The caller's GET of its id is answered 404
    "Plant not found", as is the GET of an id that no plant has.  The
    caller's update is answered 400 "No fields to update" exactly when it
    supplies no field besides [plant_id], and otherwise, whatever fields it
    supplies, 500 with the text "Failed to update plant: Plant not found
    or access denied"; the caller's delete is answered 500 with "Failed to
    remove plant: Plant not found or access denied".  All of them leave
    the service as it was.  None of these responses carries the plant, and
    none is a separate forbidden status. *)
Theorem foreign_plant_isolated {E : Engine} {D : JsDate.DateLib} {J : JwtLib}
  (env : environment) (t : Z) (svc : service) (a : auth_data)
  (owner pid : string) (row : obj) :
  getDatabase env = Return tt ->
  outage svc = None ->
  eq "id" (Some (JStr pid)) (plants svc) = [row] ->
  lookup "user_id" row = Some (JStr owner) ->
  owner <> auth_user_id a ->
  auth_user_id a <> "" ->
  pid <> "" ->
  (forall req,
      verifyToken env t req = Return a ->
      extractPlantId (req_url req) = Some pid ->
      handleGet env t svc req = (Some not_found, svc)
      /\ forall svc0,
           outage svc0 = None ->
           eq "id" (Some (JStr pid)) (plants svc0) = [] ->
           handleGet env t svc0 req = (Some not_found, svc0))
  /\ (forall req,
      verifyToken env t req = Return a ->
      put_plant_id req = Return (Some (JStr pid)) ->
      (put_updates req = [] ->
       handlePut env t svc req = (Some no_fields, svc))
      /\ (put_updates req <> [] ->
          handlePut env t svc req = (Some update_denied, svc)))
  /\ (forall req,
      verifyToken env t req = Return a ->
      delete_plant_id req = Some (JStr pid) ->
      handleDelete env t svc req = (Some remove_denied, svc))
  /\ (forall r,
      In r [not_found; no_fields; update_denied; remove_denied] ->
      status r <> 200 /\ status r <> 403
      /\ forall o, payload r = JObj o -> lookup "plant" o = None).
Proof.
  intros Hdb Hup Hrow Hown Hne Huser Hpid.
  apply String.eqb_neq in Huser. apply String.eqb_neq in Hpid.
  split; [| split; [| split]].
  - intros req Hv Hurl. split.
    + unfold handleGet. rewrite (authenticate_verified _ _ _ _ Hv), Huser.
      rewrite Hurl, Hdb. cbn [bind]. unfold getMeraVana. rewrite Hup.
      cbn [bind].
      rewrite (find_foreign svc pid owner (auth_user_id a) row) by assumption.
      reflexivity.
    + intros svc0 Hup0 Hnone. unfold handleGet.
      rewrite (authenticate_verified _ _ _ _ Hv), Huser.
      rewrite Hurl, Hdb. cbn [bind]. unfold getMeraVana. rewrite Hup0.
      cbn [bind]. rewrite find_absent by assumption. reflexivity.
  - intros req Hv Hid. split.
    + intros Hnone. unfold handlePut.
      rewrite (authenticate_verified _ _ _ _ Hv), Huser, Hid.
      cbn [truthy]. rewrite Hpid. cbn [negb]. rewrite Hnone. reflexivity.
    + intros Hsome. unfold handlePut.
      rewrite (authenticate_verified _ _ _ _ Hv), Huser, Hid.
      cbn [truthy]. rewrite Hpid. cbn [negb].
      destruct (put_updates req) as [| kv rest] eqn:Hupd; [congruence |].
      cbn [keys map List.length Nat.eqb]. rewrite Hdb.
      rewrite (updateVanaPlant_foreign svc _ row owner (auth_user_id a))
        by assumption.
      reflexivity.
  - intros req Hv Hid. unfold handleDelete.
    rewrite (authenticate_verified _ _ _ _ Hv), Huser, Hid.
    cbn [truthy]. rewrite Hpid. cbn [negb]. rewrite Hdb.
    rewrite (removeFromVana_foreign svc _ row owner (auth_user_id a))
      by assumption.
    reflexivity.
  - intros r Hr. cbn [In] in Hr.
    destruct Hr as [<- | [<- | [<- | [<- | []]]]];
      (split; [discriminate |]; split; [discriminate |];
       intros o Ho; injection Ho as <-; reflexivity).
Qed.

Lemma foreign_plant_isolated_witness :
  let E := Reference.engine [] in
  let D := Reference.dates in
  let J := ReferenceFacts.jwt in
  handleGet Fixture.env Fixture.later Fixture.garden
    (Fixture.as_ben "GET" "/api/vana/f00d-01" None)
  = (Some not_found, Fixture.garden)
  /\ handlePut Fixture.env Fixture.later Fixture.garden
       (Fixture.as_ben "PUT" "/api/vana/f00d-01" notes_only)
     = (Some update_denied, Fixture.garden)
  /\ handlePut Fixture.env Fixture.later Fixture.garden
       (Fixture.as_ben "PUT" "/api/vana/f00d-01" (Some (JObj [])))
     = (Some no_fields, Fixture.garden)
  /\ handleDelete Fixture.env Fixture.later Fixture.garden
       (Fixture.as_ben "DELETE" "/api/vana/f00d-01" None)
     = (Some remove_denied, Fixture.garden).
Proof.
  intros E D J.
  destruct (foreign_plant_isolated Fixture.env Fixture.later Fixture.garden
              {| auth_user_id := "b0b"; auth_email := "ben@example.com" |}
              "a11ce" "f00d-01" Fixture.fern)
    as [Hget [Hput [Hdel _]]];
    [reflexivity | reflexivity | reflexivity | reflexivity
     | discriminate | discriminate | discriminate |].
  split; [| split; [| split]].
  - destruct (Hget (Fixture.as_ben "GET" "/api/vana/f00d-01" None)) as [H _];
      [FixtureFacts.run | vm_compute; reflexivity | exact H].
  - destruct (Hput (Fixture.as_ben "PUT" "/api/vana/f00d-01" notes_only))
      as [_ H]; [FixtureFacts.run | vm_compute; reflexivity |].
    apply H. discriminate.
  - destruct (Hput (Fixture.as_ben "PUT" "/api/vana/f00d-01"
                      (Some (JObj []))))
      as [H _]; [FixtureFacts.run | vm_compute; reflexivity |].
    apply H. reflexivity.
  - apply Hdel; FixtureFacts.run.
Defined.

(** C4 (ownership is forced on create).  Whatever the body of an
    authenticated create request holds, the request either leaves the
    service as it was, or is answered 200 and adds exactly one row, whose
    [user_id] is the authenticated caller's id and whose id is the one
    returned. *)
Theorem owner_forced_on_create {E : Engine} {D : JsDate.DateLib} {J : JwtLib}
  (env : environment) (t : Z) (svc svc' : service) (req : request)
  (a : auth_data) (resp : option response) :
  verifyToken env t req = Return a ->
  handlePost env t svc req = (resp, svc') ->
  (svc' = svc /\ forall r, resp = Some r -> status r <> 200)
  \/ exists row id,
       svc' = with_plants svc (plants svc ++ [row])
       /\ lookup "user_id" row = Some (JStr (auth_user_id a))
       /\ lookup "id" row = Some id
       /\ resp = Some (mkResponse 200
                         (success [("plant_id", id);
                                   ("message",
                                    JStr "Plant added to Mera Vana successfully")])).
Proof.
  intros Hv. unfold handlePost. rewrite (authenticate_verified _ _ _ _ Hv).
  assert (Hleft : forall r : response, status r <> 200 ->
            (Some r, svc) = (resp, svc') ->
            (svc' = svc /\ forall r, resp = Some r -> status r <> 200)
            \/ exists row id,
                 svc' = with_plants svc (plants svc ++ [row])
                 /\ lookup "user_id" row = Some (JStr (auth_user_id a))
                 /\ lookup "id" row = Some id
                 /\ resp = Some (mkResponse 200
                                   (success [("plant_id", id);
                                             ("message",
                                              JStr "Plant added to Mera Vana successfully")]))).
  { intros r Hr H. inversion H; subst. left. split; [reflexivity |].
    intros r' Hr'. inversion Hr'; subst. exact Hr. }
  destruct (auth_user_id a =? "")%string.
  { intros H; inversion H; subst. left. split; [reflexivity | discriminate]. }
  destruct (get_prop (req_body req) "name") as [name |];
    [| apply Hleft; discriminate].
  destruct (negb (truthy name)); [apply Hleft; discriminate |].
  destruct (get_prop (req_body req) "species") as [species |];
    [| apply Hleft; discriminate].
  destruct (negb (truthy species)); [apply Hleft; discriminate |].
  destruct (getDatabase env); [| apply Hleft; discriminate].
  destruct (saveToVana svc (auth_user_id a) (req_body req)) as [r s] eqn:Hsave.
  destruct (saveToVana_effect _ _ _ _ _ Hsave)
    as [[-> [e ->]] | (row & id & -> & Hown & Hid & ->)].
  - apply Hleft; discriminate.
  - intros H; inversion H; subst. right. exists row, id. auto.
Qed.

(** Ben adds a plant whose body names Ana as its owner: the stored row is
    Ben's. *)
Lemma owner_forced_on_create_witness :
  let E := Reference.engine [] in
  let D := Reference.dates in
  let J := ReferenceFacts.jwt in
  let body := Some (JObj [("name", JStr "Tulsi"); ("species", JStr "Ocimum");
                          ("user_id", JStr "a11ce")]) in
  let out := handlePost Fixture.env Fixture.later Fixture.garden
               (Fixture.as_ben "POST" "/api/vana" body) in
  exists row,
    plants (snd out) = [Fixture.fern; row]
    /\ lookup "user_id" row = Some (JStr "b0b").
Proof.
  intros E D J body out.
  destruct (owner_forced_on_create Fixture.env Fixture.later Fixture.garden
              (snd out) (Fixture.as_ben "POST" "/api/vana" body)
              {| auth_user_id := "b0b"; auth_email := "ben@example.com" |}
              (fst out))
    as [[Hsame _] | (row & id & Hs & Hown & _)].
  - vm_compute. reflexivity.
  - exact (surjective_pairing out).
  - apply (f_equal (fun s => List.length (plants s))) in Hsame.
    vm_compute in Hsame. discriminate.
  - exists row. rewrite Hs. split; [reflexivity | exact Hown].
Defined.

End VanaClaims.

Module UpdateClaims.
Import Auth Database Vana StoreFacts VanaFacts.

Definition refused (msg : string) : response :=
  mkResponse 500 (failure ("Failed to update plant: " ++ msg)).

Definition fern_path : string := "/api/vana/f00d-01".

(** C10, as stated, fails.  Ana, who owns the fern, sends the update that
    the endpoint documents, a [last_watered] with a
    [watering_frequency_days]: the table has no such column, the service
    refuses the object, the request is answered 500 and nothing is
    written, neither the fields nor a derived date.  And an [updated_at]
    that she supplies is not stored as supplied: the table's trigger
    writes the current time. *)
Lemma documented_update_is_refused :
  let E := Reference.engine [] in
  let D := Reference.dates in
  let J := ReferenceFacts.jwt in
  let put body :=
    handlePut Fixture.env Fixture.later Fixture.garden
      (Fixture.as_ana "PUT" fern_path (Some (JObj body))) in
  put [("last_watered", JStr "2025-11-04T10:00:00Z");
       ("watering_frequency_days", num 7)]
  = (Some (refused
       "Could not find the 'watering_frequency_days' column of 'plants' in the schema cache"),
     Fixture.garden)
  /\ fst (put [("notes", JStr "Repotted");
               ("updated_at", JStr "1999-01-01T00:00:00Z")])
     = Some updated
  /\ map (lookup "updated_at")
         (plants (snd (put [("notes", JStr "Repotted");
                            ("updated_at", JStr "1999-01-01T00:00:00Z")])))
     = [Some (JStr "2025-11-04T00:00:00+00:00")].
Proof.
  intros E D J put.
  split; [vm_compute; reflexivity |].
  split; vm_compute; reflexivity.
Qed.

(** C10, amended.  The update path has no whitelist of its own: the only
    limit is the table's.  Let the authenticated caller own the plant and
    send a body with at least one field besides [plant_id].  When the
    request is answered 200, the plant's row in the resulting service holds
    every field of the body other than [plant_id] and [updated_at] exactly
    as supplied, each of them a column of the table, and the current time
    as [updated_at]; in particular a [user_id] in the body has become the
    row's owner.  When the body names a field that is no column, the
    request is answered 500 and the service is left as it was. *)
Theorem update_forwards_fields {E : Engine} {D : JsDate.DateLib} {J : JwtLib}
  (env : environment) (t : Z) (svc : service) (req : request)
  (a : auth_data) (body row : obj) (pid : string) :
  verifyToken env t req = Return a ->
  auth_user_id a <> "" ->
  getDatabase env = Return tt ->
  req_body req = Some (JObj body) ->
  put_plant_id req = Return (Some (JStr pid)) ->
  pid <> "" ->
  eq "id" (Some (JStr pid)) (plants svc) = [row] ->
  lookup "user_id" row = Some (JStr (auth_user_id a)) ->
  remove "plant_id" body <> [] ->
  let out := handlePut env t svc req in
  (fst out = Some updated ->
   exists stored,
     plants (snd out)
     = map (fun r => if strict_eq (lookup "id" r) (Some (JStr pid))
                     then stored else r)
           (plants svc)
     /\ In stored (plants (snd out))
     /\ (forall k v,
           k <> "plant_id" -> k <> "updated_at" ->
           lookup k body = Some v ->
           lookup k stored = Some v /\ In k plants_columns)
     /\ lookup "updated_at" stored = Some (JStr (now svc))
     /\ (forall v,
           lookup "user_id" body = Some v -> lookup "user_id" stored = Some v))
  /\ (forall k,
        In k (keys body) -> k <> "plant_id" -> ~ In k plants_columns ->
        snd out = svc
        /\ exists msg, fst out = Some (mkResponse 500 (failure msg))).
Proof.
  intros Hv Huser Hdb Hbody Hid Hpid Hrow Hown Hsome out.
  assert (Hupd : put_updates req = remove "plant_id" body)
    by (unfold put_updates; rewrite Hbody; reflexivity).
  assert (Hput := handlePut_verified env t svc req a pid Hv Huser Hdb Hid Hpid).
  rewrite Hupd in Hput. specialize (Hput Hsome). fold out in Hput.
  split.
  - intros Hok.
    destruct (updateVanaPlant svc (Some (JStr pid)) (auth_user_id a)
                (remove "plant_id" body)) as [[b | e] svc'] eqn:Hrun;
      rewrite Hput in Hok; [| discriminate].
    destruct (updateVanaPlant_returns _ _ _ _ _ _ Hrun) as [Hcol ->].
    rewrite Hput. cbn [snd plants with_plants].
    exists (updated_row svc (remove "plant_id" body) row).
    assert (Hwritten : forall k v,
              k <> "plant_id" -> k <> "updated_at" ->
              lookup k body = Some v ->
              lookup k (updated_row svc (remove "plant_id" body) row) = Some v
              /\ In k plants_columns).
    { intros k v Hk Hstamp Hkv. split.
      - rewrite lookup_updated_row.
        replace (k =? "updated_at")%string with false
          by (symmetry; apply String.eqb_neq; exact Hstamp).
        rewrite lookup_remove_ne, Hkv by exact Hk. reflexivity.
      - apply is_column_in.
        apply (proj1 (unknown_column_none _) Hcol).
        apply keys_remove. split; [| exact Hk].
        apply (lookup_key k v). exact Hkv. }
    split; [| split; [| split; [| split]]].
    + apply map_ext_in. intros r Hr.
      destruct (strict_eq (lookup "id" r) (Some (JStr pid))) eqn:Hrid;
        [| reflexivity].
      assert (Hin : In r (eq "id" (Some (JStr pid)) (plants svc)))
        by (apply in_eq; auto).
      rewrite Hrow in Hin. destruct Hin as [<- | []]. reflexivity.
    + apply (updated_row_stored (Some (JStr pid)) row
               (updated_row svc (remove "plant_id" body)) (plants svc) Hrow).
    + exact Hwritten.
    + rewrite lookup_updated_row. reflexivity.
    + intros v Hu.
      apply (Hwritten "user_id" v); [discriminate | discriminate | exact Hu].
  - intros k Hin Hk Hcol.
    assert (Hno : is_column k = false).
    { destruct (is_column k) eqn:Hc; [| reflexivity].
      exfalso. apply Hcol. apply is_column_in. exact Hc. }
    destruct (unknown_column_key (remove "plant_id" body) k) as [k' Hk'];
      [apply keys_remove; auto | exact Hno |].
    destruct (updateVanaPlant_refused svc (Some (JStr pid)) (auth_user_id a)
                (remove "plant_id" body) k' Hk') as [e He].
    rewrite Hput, He. cbn [fst snd]. split; [reflexivity | eauto].
Qed.

(** Ana updates her fern with a body that names Ben as owner: the row
    becomes Ben's.  With a field the table does not have, nothing is
    written. *)
Lemma update_forwards_fields_witness :
  let E := Reference.engine [] in
  let D := Reference.dates in
  let J := ReferenceFacts.jwt in
  let put body :=
    handlePut Fixture.env Fixture.later Fixture.garden
      (Fixture.as_ana "PUT" fern_path (Some (JObj body))) in
  (exists stored,
      plants (snd (put [("notes", JStr "Yours"); ("user_id", JStr "b0b")]))
      = [stored]
      /\ lookup "user_id" stored = Some (JStr "b0b")
      /\ lookup "notes" stored = Some (JStr "Yours"))
  /\ snd (put [("nickname", JStr "Fernando")]) = Fixture.garden.
Proof.
  intros E D J put.
  pose (ana := {| auth_user_id := "a11ce"; auth_email := "ana@example.com" |}).
  split.
  - destruct (update_forwards_fields Fixture.env Fixture.later Fixture.garden
                (Fixture.as_ana "PUT" fern_path
                   (Some (JObj [("notes", JStr "Yours");
                                ("user_id", JStr "b0b")])))
                ana [("notes", JStr "Yours"); ("user_id", JStr "b0b")]
                Fixture.fern "f00d-01")
      as [Hok _];
      [FixtureFacts.run | discriminate | reflexivity | reflexivity
       | vm_compute; reflexivity | discriminate | reflexivity | reflexivity
       | discriminate |].
    destruct Hok as (stored & Hrows & _ & Hwritten & _ & Howner);
      [vm_compute; reflexivity |].
    exists stored. split; [exact Hrows |]. split.
    + apply Howner. reflexivity.
    + apply (Hwritten "notes"); [discriminate | discriminate | reflexivity].
  - destruct (update_forwards_fields Fixture.env Fixture.later Fixture.garden
                (Fixture.as_ana "PUT" fern_path
                   (Some (JObj [("nickname", JStr "Fernando")])))
                ana [("nickname", JStr "Fernando")] Fixture.fern "f00d-01")
      as [_ Hrefused];
      [FixtureFacts.run | discriminate | reflexivity | reflexivity
       | vm_compute; reflexivity | discriminate | reflexivity | reflexivity
       | discriminate |].
    destruct (Hrefused "nickname") as [Hsame _];
      [left; reflexivity | discriminate | | exact Hsame].
    simpl. intuition discriminate.
Defined.

End UpdateClaims.

Module WateringClaims.
Import JsDate Auth Database Vana StoreFacts VanaFacts.

(** Ana's fern was watered on day D = 2025-11-01 and is due on D+7. *)
Definition watered_on (day : string) : obj :=
  [("last_watered", JStr (day ++ "T10:00:00Z"))].

(** C6 fails on the code.  The fern is due on D+7 = 2025-11-08.  The
    update that changes last_watered to D+3 = 2025-11-04 is answered 200
    and stores the new last_watered, but the stored due date is still D+7,
    not D+10 = 2025-11-11: [updateVanaPlant] derives the date only when the
    update also carries a [watering_frequency_days].  And the update that
    does carry one is answered 500 and writes nothing, since the table has
    no such column, whatever the engine and the time zone. *)
Theorem due_not_recomputed (E : Engine) (D : DateLib) :
  let J := ReferenceFacts.jwt in
  let put body :=
    handlePut Fixture.env Fixture.later Fixture.garden
      (Fixture.as_ana "PUT" UpdateClaims.fern_path (Some (JObj body))) in
  let alone := put (watered_on "2025-11-04") in
  let both :=
    put (watered_on "2025-11-04" ++ [("watering_frequency_days", num 7)])%list in
  map (lookup "next_watering_due") (plants Fixture.garden)
  = [Some (JStr "2025-11-08")]
  /\ fst alone = Some updated
  /\ map (lookup "last_watered") (plants (snd alone))
     = [Some (JStr "2025-11-04T10:00:00Z")]
  /\ map (lookup "next_watering_due") (plants (snd alone))
     = [Some (JStr "2025-11-08")]
  /\ iso_day (days_from_civil 2025 11 1 + 10) = "2025-11-11"
  /\ snd both = Fixture.garden
  /\ exists msg, fst both = Some (mkResponse 500 (failure msg)).
Proof.
  intros J put alone both.
  pose (ana := {| auth_user_id := "a11ce"; auth_email := "ana@example.com" |}).
  assert (Hv : forall body,
            verifyToken Fixture.env Fixture.later
              (Fixture.as_ana "PUT" UpdateClaims.fern_path body)
            = Return ana) by (intros body; apply FixtureFacts.as_user_verified).
  assert (Hput : forall body,
            remove "plant_id" body = body -> body <> [] ->
            put body
            = match updateVanaPlant Fixture.garden (Some (JStr "f00d-01"))
                      "a11ce" body with
              | (Return _, svc') => (Some updated, svc')
              | (Throw error, svc') =>
                  (Some (mkResponse 500 (failure (err_message error))), svc')
              end).
  { intros body Hsame Hbody.
    pose proof (handlePut_verified Fixture.env Fixture.later Fixture.garden
                  (Fixture.as_ana "PUT" UpdateClaims.fern_path
                     (Some (JObj body)))
                  ana "f00d-01" (Hv _)) as H.
    unfold put_updates in H.
    cbn [req_body Fixture.as_ana Fixture.as_user spread auth_user_id ana] in H.
    rewrite Hsame in H. apply H;
      [discriminate | reflexivity | reflexivity | discriminate | exact Hbody]. }
  assert (Halone : alone
                   = (Some updated,
                      with_plants Fixture.garden
                        [updated_row Fixture.garden (watered_on "2025-11-04")
                           Fixture.fern])).
  { unfold alone. rewrite Hput by (reflexivity || discriminate).
    rewrite (updateVanaPlant_owner Fixture.garden _ Fixture.fern "a11ce");
      reflexivity. }
  split; [reflexivity |].
  split; [rewrite Halone; reflexivity |].
  split; [rewrite Halone; reflexivity |].
  split; [rewrite Halone; reflexivity |].
  split; [vm_compute; reflexivity |].
  destruct (updateVanaPlant_refused Fixture.garden (Some (JStr "f00d-01"))
              "a11ce"
              (watered_on "2025-11-04" ++ [("watering_frequency_days", num 7)])%list
              "watering_frequency_days") as [e He]; [reflexivity |].
  unfold both. rewrite Hput by (reflexivity || discriminate). rewrite He.
  split; [reflexivity | eexists; reflexivity].
Qed.

End WateringClaims.

(* ================================================================== *)
(** * api/auth.js: the authentication endpoint *)
(* ================================================================== *)

Module AuthEndpoint.
Import Auth Database.

(** [{ data: { user }, error }] as the identity provider returns it. *)
Inductive idp_reply : Type :=
| IdpUser (id : string)
| IdpNoUser
| IdpFailed (message : string).

(** [db.client.auth]: credential creation and verification are the
    provider's. *)
Record identity_provider : Type := mkProvider {
  signUp : string -> option json -> string -> idp_reply;
  signInWithPassword : string -> option json -> idp_reply
}.

(** The requests made to the provider. *)
Inductive idp_call : Type :=
| SignUp (email : string) (password : option json) (name : string)
| SignIn (email : string) (password : option json).

(** What remains of the relational operator: [v < n] for a string, an
    array or an object [v], which the engine converts to a number. *)
Class Relational : Type := {
  less_than_number : json -> Z -> bool
}.

(** [v.length] for a truthy [v]; for ASCII text the number of characters
    is the number of UTF-16 units that the engine counts. *)
Definition length_of (v : option json) : option json :=
  match v with
  | Some (JStr s) => Some (num (Z.of_nat (String.length s)))
  | Some (JArr l) => Some (num (Z.of_nat (List.length l)))
  | Some (JObj o) => lookup "length" o
  | _ => None
  end.

Section WithRuntime.
Context {E : Engine} {R : Relational} {J : JwtLib}.

(** [x < n] *)
Definition lt_int (x : option json) (n : Z) : bool :=
  match x with
  | None => false
  | Some JNull => 0 <? n
  | Some (JBool b) => (if b then 1 else 0) <? n
  | Some (JNum (Finite q)) => negb (Qle_bool (inject_Z n) q)
  | Some (JNum NegInf) => true
  | Some (JNum PosInf) => false
  | Some v => less_than_number v n
  end.

(** [(v || '')] as the receiver of a string method: only a string has
    one. *)
Definition text_or_empty (v : option json) (method : string)
  : js_result string :=
  if truthy v then
    match v with
    | Some (JStr s) => Return s
    | _ => Throw (TypeError (type_error_text v method))
    end
  else Return EmptyString.

(** The inner [try]/[catch] around the provider call of [handleSignup]:
    the user id, or the 409 response, or the error thrown on. *)
Definition create_account (reply : idp_reply)
  : js_result (string + response) :=
  let attempt : js_result string :=
    match reply with
    | IdpFailed message => Throw (Error message)
    | IdpNoUser => Throw (Error "Failed to create user account")
    | IdpUser id => Return id
    end in
  match attempt with
  | Return userId => Return (inl userId)
  | Throw error =>
      let errorMsg := Str.toLowerCase (err_message error) in
      if Str.includes "already" errorMsg || Str.includes "exists" errorMsg
      then Return (inr (mkResponse 409
             (failure "Email already registered. Please login instead.")))
      else Throw error
  end.

Definition user_json (id email name : option json) : json :=
  JObj (literal [("id", id); ("email", email); ("name", name)]).

Definition handleSignup (env : environment) (now_ms : Z)
  (idp : identity_provider) (req : request) : response * list idp_call :=
  let failed := mkResponse 500 (failure "Signup failed. Please try again.") in
  let validated : js_result (response + (string * option json * string)) :=
    email <- get_prop (req_body req) "email" ;;
    password <- get_prop (req_body req) "password" ;;
    name <- get_prop (req_body req) "name" ;;
    email <- text_or_empty email "trim" ;;
    let emailTrimmed := Str.toLowerCase (Str.trim email) in
    name <- text_or_empty name "trim" ;;
    let nameTrimmed := Str.trim name in
    if (emailTrimmed =? "")%string || negb (Str.includes "@" emailTrimmed)
    then Return (inl (mkResponse 400 (failure "Valid email is required")))
    else if negb (truthy password) || lt_int (length_of password) 6
    then Return (inl (mkResponse 400
                        (failure "Password must be at least 6 characters")))
    else if (nameTrimmed =? "")%string
    then Return (inl (mkResponse 400 (failure "Name is required")))
    else
      _ <- getDatabase env ;;
      Return (inr (emailTrimmed, password, nameTrimmed)) in
  match validated with
  | Throw _ => (failed, [])
  | Return (inl rejected) => (rejected, [])
  | Return (inr (emailTrimmed, password, nameTrimmed)) =>
      let calls := [SignUp emailTrimmed password nameTrimmed] in
      match create_account (signUp idp emailTrimmed password nameTrimmed) with
      | Throw _ => (failed, calls)
      | Return (inr conflict) => (conflict, calls)
      | Return (inl userId) =>
          match generateToken env now_ms userId emailTrimmed with
          | Throw _ => (failed, calls)
          | Return token =>
              (mkResponse 200
                 (JObj [("success", JBool true);
                        ("token", JStr token);
                        ("user", user_json (Some (JStr userId))
                                   (Some (JStr emailTrimmed))
                                   (Some (JStr nameTrimmed)))]),
               calls)
          end
      end
  end.

Definition invalid_credentials : response :=
  mkResponse 401 (failure "Invalid email or password").

Definition handleLogin (env : environment) (now_ms : Z) (svc : service)
  (idp : identity_provider) (req : request) : response * list idp_call :=
  let failed := mkResponse 500 (failure "Login failed. Please try again.") in
  let validated : js_result (response + (string * option json)) :=
    email <- get_prop (req_body req) "email" ;;
    password <- get_prop (req_body req) "password" ;;
    email <- text_or_empty email "trim" ;;
    let emailTrimmed := Str.toLowerCase (Str.trim email) in
    if (emailTrimmed =? "")%string || negb (truthy password)
    then Return (inl (mkResponse 400
                        (failure "Email and password are required")))
    else
      _ <- getDatabase env ;;
      Return (inr (emailTrimmed, password)) in
  match validated with
  | Throw _ => (failed, [])
  | Return (inl rejected) => (rejected, [])
  | Return (inr (emailTrimmed, password)) =>
      let calls := [SignIn emailTrimmed password] in
      match signInWithPassword idp emailTrimmed password with
      | IdpFailed _ => (invalid_credentials, calls)
      | IdpNoUser => (invalid_credentials, calls)
      | IdpUser userId =>
          match getUser svc userId with
          | Throw _ => (failed, calls)
          | Return userData =>
              let userName :=
                match userData with
                | Some row => lookup "name" row
                | None => Some (JStr "User")
                end in
              match generateToken env now_ms userId emailTrimmed with
              | Throw _ => (failed, calls)
              | Return token =>
                  (mkResponse 200
                     (JObj [("success", JBool true);
                            ("token", JStr token);
                            ("user", user_json (Some (JStr userId))
                                       (Some (JStr emailTrimmed)) userName)]),
                   calls)
              end
          end
      end
  end.

Definition handleRefresh (env : environment) (now_ms : Z) (req : request)
  : response :=
  match verifyToken env now_ms req with
  | Throw error => mkResponse 401 (failure (err_message error))
  | Return authData =>
      match generateToken env now_ms (auth_user_id authData)
              (auth_email authData) with
      | Throw _ =>
          mkResponse 500 (failure "Token refresh failed. Please login again.")
      | Return token =>
          mkResponse 200 (JObj [("success", JBool true); ("token", JStr token)])
      end
  end.

Definition handleVerify (env : environment) (now_ms : Z) (svc : service)
  (req : request) : response :=
  match verifyToken env now_ms req with
  | Throw error => mkResponse 401 (failure (err_message error))
  | Return authData =>
      let attempt : js_result response :=
        _ <- getDatabase env ;;
        userData <- getUser svc (auth_user_id authData) ;;
        match userData with
        | None => Return (mkResponse 404 (failure "User not found"))
        | Some row =>
            Return (mkResponse 200
                      (JObj [("success", JBool true);
                             ("user", user_json (lookup "id" row)
                                        (lookup "email" row)
                                        (lookup "name" row))]))
        end in
      match attempt with
      | Return r => r
      | Throw _ => mkResponse 500 (failure "Token verification failed")
      end
  end.

(** The exported handler: CORS pre-flight, then the route by method and
    path. *)
Definition handler (env : environment) (now_ms : Z) (svc : service)
  (idp : identity_provider) (req : request) : response * list idp_call :=
  if (req_method req =? "OPTIONS")%string then (mkResponse 200 JNull, [])
  else
    let path := Str.toLowerCase (req_url req) in
    if (req_method req =? "GET")%string then
      if Str.includes "/verify" path
      then (handleVerify env now_ms svc req, [])
      else (mkResponse 404 (failure "Invalid auth endpoint. Use /verify"), [])
    else if (req_method req =? "POST")%string then
      if Str.includes "/signup" path then handleSignup env now_ms idp req
      else if Str.includes "/login" path
      then handleLogin env now_ms svc idp req
      else if Str.includes "/refresh" path
      then (handleRefresh env now_ms req, [])
      else (mkResponse 404
              (failure "Invalid auth endpoint. Use /signup, /login, or /refresh"),
            [])
    else (mkResponse 405 (failure "Method not allowed"), []).

End WithRuntime.

End AuthEndpoint.

(* ================================================================== *)
(** * Further properties of the token service *)
(* ================================================================== *)

Module TokenFacts.
Import Auth Str StrFacts AuthFacts.

Lemma split_from_blank (a t : string) (acc : list ascii) :
  no_space a ->
  split_from " " 0 acc (a ++ String " " t)
  = string_of_list_ascii (rev acc ++ list_ascii_of_string a)
    :: split_from " " 0 [] t.
Proof.
  revert acc; induction a as [| c a IH]; intros acc Ha;
    cbn [append split_from]; rewrite prefix_blank.
  - cbn [Ascii.eqb Bool.eqb String.length Nat.sub list_ascii_of_string].
    rewrite app_nil_r. reflexivity.
  - apply no_space_inv in Ha as [Hc Ha].
    replace (Ascii.eqb " "%char c) with false
      by (symmetry; apply Ascii.eqb_neq; congruence).
    rewrite IH by exact Ha. cbn [rev list_ascii_of_string].
    rewrite <- app_assoc. reflexivity.
Qed.

(** A scheme and a token, neither with a blank, joined by one blank, split
    into the two. *)
Lemma split_two (scheme token : string) :
  no_space scheme -> no_space token ->
  split " " (scheme ++ " " ++ token) = [scheme; token].
Proof.
  intros Hs Ht. unfold split.
  change (" " ++ token) with (String " " token).
  rewrite split_from_blank by exact Hs.
  rewrite split_from_no_space by exact Ht.
  cbn [rev app]. rewrite !string_of_list_ascii_of_string. reflexivity.
Qed.

Lemma append_not_empty (a b : string) :
  (a ++ String " " b =? "")%string = false.
Proof. destruct a; reflexivity. Qed.

Section WithJwt.
Context {J : JwtLib}.

(** With a well-formed header and a secret configured, the outcome is the
    library's. *)
Lemma verifyToken_try_header (env : environment) (secret : string) (t : Z)
  (req : request) (scheme token : string) :
  JWT_SECRET env = Some secret -> secret <> "" ->
  no_space scheme -> no_space token ->
  toLowerCase scheme = "bearer" ->
  authorization req = Some (scheme ++ " " ++ token) ->
  verifyToken_try env t req
  = (payload <- jwt_verify token secret (seconds t) ;;
     Return {| auth_user_id := user_id payload;
               auth_email := email payload |}).
Proof.
  intros Hs Hne Hsch Htok Hlow Hh. unfold verifyToken_try.
  rewrite Hh. change (" " ++ token) with (String " " token).
  rewrite append_not_empty.
  change (String " " token) with (" " ++ token).
  rewrite split_two by assumption. rewrite Hlow.
  change (negb ("bearer" =? "bearer")%string) with false. cbv iota.
  rewrite Hs. apply String.eqb_neq in Hne. rewrite Hne. reflexivity.
Qed.

End WithJwt.

End TokenFacts.

Module TokenProperties.
Import Auth Str StrFacts AuthFacts TokenFacts.

(** X1 (tamper rejection).  With a secret configured and a well-formed
    bearer header, a token that cannot be read back, or whose signature is
    not the MAC of its claims under the configured secret, is refused
    with the invalid-token error, whatever its expiry. *)
Theorem forged_token_rejected {J : JwtLib} (env : environment)
  (secret : string) (t : Z) (req : request) (scheme token : string) :
  JWT_SECRET env = Some secret -> secret <> "" ->
  no_space scheme -> no_space token ->
  toLowerCase scheme = "bearer" ->
  authorization req = Some (scheme ++ " " ++ token) ->
  (deserialize token = None
   \/ exists payload sig,
        deserialize token = Some (payload, sig)
        /\ sig <> hmac_sha256 secret payload) ->
  verifyToken env t req = Throw invalid_error.
Proof.
  intros Hs Hne Hsch Htok Hlow Hh Hbad. unfold verifyToken.
  rewrite (verifyToken_try_header env secret t req scheme token)
    by assumption.
  unfold jwt_verify.
  destruct Hbad as [-> | (payload & sig & -> & Hsig)]; [reflexivity |].
  apply String.eqb_neq in Hsig. rewrite Hsig. reflexivity.
Qed.

(** A token issued under another secret is refused. *)
Lemma forged_token_rejected_witness :
  let J := ReferenceFacts.jwt in
  let claims := {| user_id := "a11ce"; email := "ana@example.com";
                   exp := 1762732800; iat := 1762128000 |} in
  let token := jwt_sign claims "guessed secret" in
  verifyToken Fixture.env Fixture.later (bearer token AuthClaims.blank_request)
  = Throw invalid_error.
Proof.
  intros J claims token.
  apply (forged_token_rejected Fixture.env "correct horse battery staple"
           Fixture.later (bearer token AuthClaims.blank_request)
           "Bearer" token).
  - reflexivity.
  - discriminate.
  - vm_compute. intuition discriminate.
  - apply (@serialize_no_space J).
  - reflexivity.
  - reflexivity.
  - right. exists claims, (hmac_sha256 "guessed secret" claims).
    split; [apply (@deserialize_serialize J) | vm_compute; discriminate].
Defined.

(** X2 (header errors).  A request without an Authorization header, or
    with an empty one, is refused with the missing-header error; a header
    that does not split at blanks into exactly a scheme reading "bearer"
    in any letter case and one more part is refused with the format
    error.  Neither depends on the secret or the clock. *)
Theorem header_errors {J : JwtLib} (env : environment) (t : Z)
  (req : request) :
  (authorization req = None \/ authorization req = Some "" ->
   verifyToken env t req = Throw (Error "Missing Authorization header"))
  /\ (forall h,
        authorization req = Some h -> h <> "" ->
        (forall scheme token,
            split " " h = [scheme; token] ->
            toLowerCase scheme <> "bearer") ->
        verifyToken env t req
        = Throw (Error
            "Invalid Authorization header format. Use: Bearer <token>")).
Proof.
  split.
  - intros [Hh | Hh]; unfold verifyToken, verifyToken_try; rewrite Hh;
      reflexivity.
  - intros h Hh Hne Hbad. unfold verifyToken, verifyToken_try. rewrite Hh.
    apply String.eqb_neq in Hne. rewrite Hne.
    destruct (split " " h) as [| scheme [| token [| x l]]] eqn:Hsp;
      try reflexivity.
    specialize (Hbad scheme token eq_refl).
    apply String.eqb_neq in Hbad. rewrite Hbad. reflexivity.
Qed.

Lemma header_errors_witness :
  let J := ReferenceFacts.jwt in
  let basic := {| req_method := "GET"; req_url := "/api/vana";
                  req_headers := [("authorization", "Basic dXNlcjpwYXNz")];
                  req_query := []; req_body := None |} in
  verifyToken Fixture.env Fixture.later AuthClaims.blank_request
  = Throw (Error "Missing Authorization header")
  /\ verifyToken Fixture.env Fixture.later basic
     = Throw (Error "Invalid Authorization header format. Use: Bearer <token>").
Proof.
  intros J basic. split.
  - apply (proj1 (header_errors Fixture.env Fixture.later
                    AuthClaims.blank_request)).
    left. reflexivity.
  - apply (proj2 (header_errors Fixture.env Fixture.later basic)
             "Basic dXNlcjpwYXNz").
    + reflexivity.
    + discriminate.
    + intros scheme token Hsp. vm_compute in Hsp.
      injection Hsp as <- _. vm_compute. discriminate.
Defined.

(** X3 (the scheme is read case-insensitively).  A token issued by
    [generateToken], presented before its expiry behind any scheme that
    reads "bearer" when lowered, verifies and returns its subject. *)
Theorem scheme_case_insensitive {J : JwtLib} (env : environment)
  (secret : string) (t0 t : Z) (userId email scheme token : string)
  (req : request) :
  JWT_SECRET env = Some secret -> secret <> "" ->
  generateToken env t0 userId email = Return token ->
  no_space scheme -> toLowerCase scheme = "bearer" ->
  authorization req = Some (scheme ++ " " ++ token) ->
  t < (seconds t0 + 7 * 24 * 60 * 60) * 1000 ->
  verifyToken env t req
  = Return {| auth_user_id := userId; auth_email := email |}.
Proof.
  intros Hs Hne Hgen Hsch Hlow Hh Ht.
  rewrite (generateToken_configured env secret) in Hgen by assumption.
  injection Hgen as <-. unfold verifyToken.
  match type of Hh with
  | _ = Some (_ ++ " " ++ ?tok) =>
      assert (Hns : no_space tok) by apply serialize_no_space
  end.
  rewrite (verifyToken_try_header env secret t req scheme _ Hs Hne Hsch
             Hns Hlow Hh).
  rewrite jwt_verify_sign. cbn [exp].
  assert (Hlt : seconds t < seconds t0 + 604800).
  { unfold seconds at 1. apply Z.div_lt_upper_bound; lia. }
  apply Z.leb_gt in Hlt. rewrite Hlt. reflexivity.
Qed.

Lemma scheme_case_insensitive_witness :
  let J := ReferenceFacts.jwt in
  let token := Fixture.token_for "b0b" "ben@example.com" in
  let req := {| req_method := "GET"; req_url := "/api/vana";
                req_headers := [("Authorization", "BEARER " ++ token)];
                req_query := []; req_body := None |} in
  verifyToken Fixture.env Fixture.later req
  = Return {| auth_user_id := "b0b"; auth_email := "ben@example.com" |}.
Proof.
  intros J token req.
  apply (scheme_case_insensitive Fixture.env "correct horse battery staple"
           Fixture.issued Fixture.later "b0b" "ben@example.com" "BEARER"
           token req).
  - reflexivity.
  - discriminate.
  - reflexivity.
  - vm_compute. intuition discriminate.
  - reflexivity.
  - reflexivity.
  - vm_compute. reflexivity.
Defined.

(** X4 (a missing secret is a configuration error).  Without a signing
    secret, or with an empty one, issuing throws the configuration error,
    and so does verifying a well-formed bearer header: the error is passed
    on as it is, not turned into the invalid-token error. *)
Theorem missing_secret_is_configuration_error {J : JwtLib}
  (env : environment) (t : Z) (userId email token : string) (req : request) :
  unset (JWT_SECRET env) = true ->
  no_space token ->
  generateToken env t userId email
  = Throw (Error "JWT_SECRET environment variable is required")
  /\ verifyToken env t (bearer token req)
     = Throw (Error "JWT_SECRET environment variable is required").
Proof.
  intros Hun Htok. split.
  - unfold generateToken. unfold unset in Hun.
    destruct (JWT_SECRET env) as [s |]; [rewrite Hun |]; reflexivity.
  - unfold verifyToken, verifyToken_try. rewrite authorization_bearer.
    change ("Bearer " ++ token =? "")%string with false. cbv iota.
    rewrite split_bearer by exact Htok.
    change (negb (toLowerCase "Bearer" =? "bearer")%string) with false.
    cbv iota. unfold unset in Hun.
    destruct (JWT_SECRET env) as [s |]; [rewrite Hun |]; reflexivity.
Qed.

Lemma missing_secret_is_configuration_error_witness :
  let J := ReferenceFacts.jwt in
  let env := {| JWT_SECRET := None; SUPABASE_URL := Some "https://x";
                SUPABASE_KEY := Some "k" |} in
  generateToken env Fixture.later "b0b" "ben@example.com"
  = Throw (Error "JWT_SECRET environment variable is required")
  /\ verifyToken env Fixture.later (bearer "e30.e30.c2ln" AuthClaims.blank_request)
     = Throw (Error "JWT_SECRET environment variable is required").
Proof.
  intros J env.
  apply (missing_secret_is_configuration_error env);
    [reflexivity | vm_compute; intuition discriminate].
Defined.

End TokenProperties.

(* ================================================================== *)
(** * Further properties of the plant collection *)
(* ================================================================== *)

From Stdlib Require Import Sorted Permutation.

Module CollectionFacts.
Import Auth Database Vana StoreFacts VanaFacts.

(** [a] was not added before [b]. *)
Definition newer_first (a b : obj) : Prop :=
  String.ltb (added_date a) (added_date b) = false.

Lemma ltb_asym (a b : string) :
  String.ltb a b = true -> String.ltb b a = false.
Proof.
  unfold String.ltb. rewrite (String.compare_antisym a b).
  destruct (String.compare b a); cbn; congruence.
Qed.

Lemma insert_desc_hd (x y : obj) (l : list obj) :
  newer_first y x -> HdRel newer_first y l ->
  HdRel newer_first y (insert_desc x l).
Proof.
  intros Hyx Hl. destruct l as [| z l]; cbn [insert_desc].
  - constructor. exact Hyx.
  - destruct (String.ltb (added_date z) (added_date x)).
    + constructor. exact Hyx.
    + constructor. inversion Hl; assumption.
Qed.

Lemma insert_desc_sorted (x : obj) (l : list obj) :
  Sorted newer_first l -> Sorted newer_first (insert_desc x l).
Proof.
  induction l as [| y l IH]; intros Hs; cbn [insert_desc].
  - repeat constructor.
  - destruct (String.ltb (added_date y) (added_date x)) eqn:Hlt.
    + constructor; [exact Hs |]. constructor.
      unfold newer_first. apply ltb_asym. exact Hlt.
    + inversion Hs; subst. constructor; [apply IH; assumption |].
      apply insert_desc_hd; assumption.
Qed.

Lemma order_desc_sorted (l : list obj) : Sorted newer_first (order_desc l).
Proof.
  unfold order_desc. induction l as [| x l IH]; cbn [fold_right].
  - constructor.
  - apply insert_desc_sorted. exact IH.
Qed.

Lemma insert_desc_perm (x : obj) (l : list obj) :
  Permutation (insert_desc x l) (x :: l).
Proof.
  induction l as [| y l IH]; cbn [insert_desc]; [reflexivity |].
  destruct (String.ltb (added_date y) (added_date x)); [reflexivity |].
  rewrite IH. apply perm_swap.
Qed.

Lemma order_desc_perm (l : list obj) : Permutation (order_desc l) l.
Proof.
  unfold order_desc. induction l as [| x l IH]; cbn [fold_right];
    [reflexivity |].
  rewrite insert_desc_perm. constructor. exact IH.
Qed.

Lemma find_unique {A : Type} (f : A -> bool) (l : list A) (x : A) :
  In x l -> f x = true ->
  (forall y, In y l -> f y = true -> y = x) ->
  find f l = Some x.
Proof.
  induction l as [| z l IH]; intros Hin Hfx Huniq; [destruct Hin |].
  cbn [find]. destruct (f z) eqn:Hfz.
  - f_equal. apply Huniq; [left; reflexivity | exact Hfz].
  - destruct Hin as [-> | Hin]; [congruence |].
    apply IH; [exact Hin | exact Hfx |].
    intros y Hy. apply Huniq. right; exact Hy.
Qed.

(** The owner's plant is found among the owner's rows. *)
Lemma find_own (svc : service) (pid userId : string) (row : obj) :
  eq "id" (Some (JStr pid)) (plants svc) = [row] ->
  lookup "user_id" row = Some (JStr userId) ->
  find (fun p => strict_eq (lookup "id" p) (Some (JStr pid)))
       (order_desc (eq "user_id" (Some (JStr userId)) (plants svc)))
  = Some row.
Proof.
  intros Hrow Hown.
  assert (Hin : In row (eq "id" (Some (JStr pid)) (plants svc)))
    by (rewrite Hrow; left; reflexivity).
  apply (proj1 (in_eq _ _ _ _)) in Hin as [Hin Hid].
  apply find_unique.
  - apply in_order_desc. apply in_eq. split; [exact Hin |].
    rewrite Hown. apply strict_eq_string. reflexivity.
  - exact Hid.
  - intros y Hy Hyid. apply (proj1 (in_order_desc _ _)) in Hy.
    apply (proj1 (in_eq _ _ _ _)) in Hy as [Hy _].
    assert (Hy' : In y (eq "id" (Some (JStr pid)) (plants svc)))
      by (apply in_eq; auto).
    rewrite Hrow in Hy'. destruct Hy' as [<- | []]. reflexivity.
Qed.

Lemma eq_after_delete (plantId : option json) (rows : list obj) :
  eq "id" plantId
     (filter (fun r => negb (strict_eq (lookup "id" r) plantId)) rows)
  = [].
Proof.
  unfold eq. induction rows as [| r rows IH]; cbn [filter]; [reflexivity |].
  destruct (strict_eq (lookup "id" r) plantId) eqn:Hid; cbn [negb];
    [exact IH |].
  cbn [filter]. rewrite Hid. exact IH.
Qed.

Section WithRuntime.
Context {E : Engine} {D : JsDate.DateLib} {J : JwtLib}.

Lemma authenticate_refused (env : environment) (t : Z) (req : request)
  (e : js_error) :
  verifyToken env t req = Throw e ->
  authenticate env t req = inr (mkResponse 401 (failure (err_message e))).
Proof. unfold authenticate. intros ->. reflexivity. Qed.

End WithRuntime.

End CollectionFacts.

Module CollectionProperties.
Import Auth Database Vana StoreFacts VanaFacts CollectionFacts.

Definition unauthorized (e : js_error) : response :=
  mkResponse 401 (failure (err_message e)).

Definition listing (rows : list obj) : response :=
  mkResponse 200
    (success [("vana", rows_json rows);
              ("count", num (Z.of_nat (List.length rows)))]).

Definition removed : response :=
  mkResponse 200
    (success [("message", JStr "Plant removed from Mera Vana successfully")]).

(** X6 (the auth guard).  When the credential does not verify, each of
    the four handlers answers 401 with the verification error's text and
    leaves the data service as it was. *)
Theorem unverified_request_is_401 {E : Engine} {D : JsDate.DateLib}
  {J : JwtLib} (env : environment) (t : Z) (svc : service) (req : request)
  (e : js_error) :
  verifyToken env t req = Throw e ->
  handleGet env t svc req = (Some (unauthorized e), svc)
  /\ handlePost env t svc req = (Some (unauthorized e), svc)
  /\ handlePut env t svc req = (Some (unauthorized e), svc)
  /\ handleDelete env t svc req = (Some (unauthorized e), svc).
Proof.
  intros Hv. unfold handleGet, handlePost, handlePut, handleDelete.
  rewrite (authenticate_refused _ _ _ _ Hv). repeat split.
Qed.

(** An expired token at the DELETE route: 401, and the fern stays. *)
Lemma unverified_request_is_401_witness :
  let E := Reference.engine [] in
  let D := Reference.dates in
  let J := ReferenceFacts.jwt in
  handleDelete Fixture.env (Fixture.issued + 700000000) Fixture.garden
    (Fixture.as_ana "DELETE" "/api/vana/f00d-01" None)
  = (Some (mkResponse 401 (failure "Token has expired. Please login again.")),
     Fixture.garden).
Proof.
  intros E D J.
  apply (unverified_request_is_401 Fixture.env (Fixture.issued + 700000000)
           Fixture.garden (Fixture.as_ana "DELETE" "/api/vana/f00d-01" None)
           expired_error).
  vm_compute. reflexivity.
Defined.

(** X7 (listing).  An authenticated GET without a plant id is answered 200
    with the caller's plants: the rows listed are exactly the stored rows
    whose [user_id] is the caller's, each once, the most recently added
    first, and [count] is their number. *)
Theorem list_returns_own_plants {J : JwtLib} (env : environment) (t : Z)
  (svc : service) (req : request) (a : auth_data) :
  verifyToken env t req = Return a ->
  auth_user_id a <> "" ->
  getDatabase env = Return tt ->
  outage svc = None ->
  extractPlantId (req_url req) = None ->
  exists rows,
    handleGet env t svc req = (Some (listing rows), svc)
    /\ Permutation rows
         (eq "user_id" (Some (JStr (auth_user_id a))) (plants svc))
    /\ Sorted newer_first rows
    /\ (forall r, In r rows <->
                  In r (plants svc)
                  /\ lookup "user_id" r = Some (JStr (auth_user_id a))).
Proof.
  intros Hv Huser Hdb Hup Hurl. apply String.eqb_neq in Huser.
  exists (order_desc (eq "user_id" (Some (JStr (auth_user_id a))) (plants svc))).
  split; [| split; [| split]].
  - unfold handleGet. rewrite (authenticate_verified _ _ _ _ Hv), Huser.
    rewrite Hurl, Hdb. cbn [bind]. unfold getMeraVana. rewrite Hup.
    reflexivity.
  - apply order_desc_perm.
  - apply order_desc_sorted.
  - intros r. rewrite in_order_desc, in_eq, strict_eq_string. reflexivity.
Qed.

Lemma list_returns_own_plants_witness :
  let J := ReferenceFacts.jwt in
  exists rows,
    handleGet Fixture.env Fixture.later Fixture.garden
      (Fixture.as_ana "GET" "/api/vana" None)
    = (Some (listing rows), Fixture.garden)
    /\ Permutation rows [Fixture.fern].
Proof.
  intros J.
  destruct (list_returns_own_plants Fixture.env Fixture.later Fixture.garden
              (Fixture.as_ana "GET" "/api/vana" None)
              {| auth_user_id := "a11ce"; auth_email := "ana@example.com" |})
    as (rows & Hget & Hperm & _);
    [FixtureFacts.run | discriminate | reflexivity | reflexivity
     | reflexivity |].
  exists rows. split; [exact Hget | exact Hperm].
Defined.

(** X8 (the owner reads the plant).  An authenticated GET of the id of a
    plant the caller owns is answered 200 with that plant's row. *)
Theorem owner_gets_plant {J : JwtLib} (env : environment) (t : Z)
  (svc : service) (req : request) (a : auth_data) (pid : string) (row : obj) :
  verifyToken env t req = Return a ->
  auth_user_id a <> "" ->
  getDatabase env = Return tt ->
  outage svc = None ->
  extractPlantId (req_url req) = Some pid ->
  eq "id" (Some (JStr pid)) (plants svc) = [row] ->
  lookup "user_id" row = Some (JStr (auth_user_id a)) ->
  handleGet env t svc req
  = (Some (mkResponse 200 (success [("plant", JObj row)])), svc).
Proof.
  intros Hv Huser Hdb Hup Hurl Hrow Hown. apply String.eqb_neq in Huser.
  unfold handleGet. rewrite (authenticate_verified _ _ _ _ Hv), Huser.
  rewrite Hurl, Hdb. cbn [bind]. unfold getMeraVana. rewrite Hup.
  cbn [bind]. rewrite (find_own svc pid (auth_user_id a) row) by assumption.
  reflexivity.
Qed.

Lemma owner_gets_plant_witness :
  let J := ReferenceFacts.jwt in
  handleGet Fixture.env Fixture.later Fixture.garden
    (Fixture.as_ana "GET" "/api/vana/f00d-01" None)
  = (Some (mkResponse 200 (success [("plant", JObj Fixture.fern)])),
     Fixture.garden).
Proof.
  intros J.
  apply (owner_gets_plant Fixture.env Fixture.later Fixture.garden _
           {| auth_user_id := "a11ce"; auth_email := "ana@example.com" |}
           "f00d-01" Fixture.fern);
    [FixtureFacts.run | discriminate | reflexivity | reflexivity
     | vm_compute; reflexivity | reflexivity | reflexivity].
Defined.

(** X9 (the owner deletes the plant).  An authenticated DELETE of the id
    of a plant the caller owns is answered 200; afterwards no row has
    that id, every other row is still stored, and a GET of the id is
    answered 404. *)
Theorem owner_delete_removes {J : JwtLib} (env : environment) (t : Z)
  (svc : service) (req : request) (a : auth_data) (pid : string) (row : obj) :
  verifyToken env t req = Return a ->
  auth_user_id a <> "" ->
  getDatabase env = Return tt ->
  outage svc = None ->
  delete_plant_id req = Some (JStr pid) ->
  pid <> "" ->
  eq "id" (Some (JStr pid)) (plants svc) = [row] ->
  lookup "user_id" row = Some (JStr (auth_user_id a)) ->
  exists svc',
    handleDelete env t svc req = (Some removed, svc')
    /\ eq "id" (Some (JStr pid)) (plants svc') = []
    /\ (forall r, In r (plants svc') <-> In r (plants svc) /\ r <> row)
    /\ (forall req',
          verifyToken env t req' = Return a ->
          extractPlantId (req_url req') = Some pid ->
          handleGet env t svc' req'
          = (Some (mkResponse 404 (failure "Plant not found")), svc')).
Proof.
  intros Hv Huser Hdb Hup Hid Hpid Hrow Hown.
  pose proof Huser as Huser'. apply String.eqb_neq in Huser'.
  pose proof Hpid as Hpid'. apply String.eqb_neq in Hpid'.
  eexists. split; [| split; [| split]].
  - unfold handleDelete.
    rewrite (authenticate_verified _ _ _ _ Hv), Huser', Hid.
    cbn [truthy]. rewrite Hpid'. cbn [negb]. rewrite Hdb.
    unfold removeFromVana.
    rewrite (verify_ownership_owner svc _ row (auth_user_id a)) by assumption.
    cbn [bind]. unfold delete. rewrite Hup. reflexivity.
  - cbn [plants with_plants]. apply eq_after_delete.
  - intros r. cbn [plants with_plants]. rewrite filter_In.
    assert (Hrow_in : In row (eq "id" (Some (JStr pid)) (plants svc)))
      by (rewrite Hrow; left; reflexivity).
    apply (proj1 (in_eq _ _ _ _)) in Hrow_in as [_ Hrow_id].
    split; intros [Hin Hr]; (split; [exact Hin |]).
    + intros ->. rewrite Hrow_id in Hr. discriminate.
    + destruct (strict_eq (lookup "id" r) (Some (JStr pid))) eqn:Hrid;
        [| reflexivity].
      assert (Hr' : In r (eq "id" (Some (JStr pid)) (plants svc)))
        by (apply in_eq; auto).
      rewrite Hrow in Hr'. destruct Hr' as [<- | []]. congruence.
  - intros req' Hv' Hurl. unfold handleGet.
    rewrite (authenticate_verified _ _ _ _ Hv'), Huser', Hurl, Hdb.
    cbn [bind]. unfold getMeraVana. cbn [outage with_plants]. rewrite Hup.
    cbn [bind]. rewrite find_absent; [reflexivity |].
    cbn [plants with_plants]. apply eq_after_delete.
Qed.

Lemma owner_delete_removes_witness :
  let J := ReferenceFacts.jwt in
  exists svc',
    handleDelete Fixture.env Fixture.later Fixture.garden
      (Fixture.as_ana "DELETE" "/api/vana/f00d-01" None)
    = (Some removed, svc')
    /\ eq "id" (Some (JStr "f00d-01")) (plants svc') = [].
Proof.
  intros J.
  destruct (owner_delete_removes Fixture.env Fixture.later Fixture.garden
              (Fixture.as_ana "DELETE" "/api/vana/f00d-01" None)
              {| auth_user_id := "a11ce"; auth_email := "ana@example.com" |}
              "f00d-01" Fixture.fern)
    as (svc' & Hdel & Hgone & _);
    [FixtureFacts.run | discriminate | reflexivity | reflexivity
     | vm_compute; reflexivity | discriminate | reflexivity | reflexivity |].
  exists svc'. auto.
Defined.

End CollectionProperties.

Module CreateFacts.
Import Auth Database Vana StoreFacts VanaFacts.

(** The value an object literal gives to [k]. *)
Fixpoint prop_of (k : string) (props : list (string * option json))
  : option json :=
  match props with
  | [] => None
  | (k', v) :: r =>
      if (k' =? k)%string
      then match v with Some x => Some x | None => prop_of k r end
      else prop_of k r
  end.

Lemma lookup_literal (k : string) (props : list (string * option json)) :
  lookup k (literal props) = prop_of k props.
Proof.
  induction props as [| [k' [v |]] r IH]; cbn [literal lookup prop_of].
  - reflexivity.
  - destruct (k' =? k)%string; [reflexivity | exact IH].
  - destruct (k' =? k)%string; exact IH.
Qed.

(** The columns copied from the body as they are. *)
Definition copied : list string :=
  ["name"; "species"; "scientific_name"; "sanskrit_name"; "family";
   "image_url"; "care_schedule"; "notes"].

(** The fields [saveToVana] reads from the body [o], before the watering
    fields. *)
Definition base (userId : string) (o : obj) : obj :=
  literal
    [("user_id", Some (JStr userId));
     ("name", lookup "name" o);
     ("species", lookup "species" o);
     ("scientific_name", lookup "scientific_name" o);
     ("sanskrit_name", lookup "sanskrit_name" o);
     ("family", lookup "family" o);
     ("image_url", lookup "image_url" o);
     ("care_schedule", lookup "care_schedule" o);
     ("health_status", or_else (lookup "health_status" o) (JStr "healthy"));
     ("notes", lookup "notes" o)].

Lemma or_else_some (a : option json) (b : json) :
  exists v, or_else a b = Some v.
Proof.
  unfold or_else. destruct (truthy a) eqn:Ht; [| eauto].
  destruct a; [eauto | discriminate].
Qed.

Section WithRuntime.
Context {E : Engine} {D : JsDate.DateLib}.

(** The row a successful [saveToVana] adds, for an object body: what the
    service stores for the object [data] sent. *)
Lemma saveToVana_row (svc svc' : service) (userId : string) (o : obj)
  (id : json) :
  saveToVana svc userId (Some (JObj o)) = (Return id, svc') ->
  outage svc = None
  /\ id = JStr (fresh_id svc (List.length (plants svc)))
  /\ exists data,
       svc' = with_plants svc (plants svc ++ [inserted svc data])
       /\ lookup "id" data = None
       /\ (data = base userId o
           \/ exists due v,
                lookup "last_watered" o = Some v
                /\ data = set "next_watering_due" (JStr due)
                            (set "last_watered" v (base userId o))).
Proof.
  unfold saveToVana. cbn [get_prop bind]. fold (base userId o).
  assert (Hid : lookup "id" (base userId o) = None)
    by (unfold base; rewrite lookup_literal; reflexivity).
  destruct (truthy (lookup "last_watered" o)) eqn:Hlw.
  - destruct (lookup "last_watered" o) as [v |] eqn:Hv; [| discriminate].
    destruct (next_watering (Some v) _) as [due |]; cbn [bind];
      [| intros H; discriminate].
    unfold insert. destruct (outage svc); [intros H; discriminate |].
    match goal with
    | |- context [unknown_column ?d] => destruct (unknown_column d)
    end; [intros H; discriminate |].
    rewrite lookup_inserted.
    rewrite (lookup_set_ne "next_watering_due" "id") by discriminate.
    rewrite (lookup_set_ne "last_watered" "id") by discriminate.
    rewrite Hid. change (is_column "id") with true. cbv iota.
    assert (Hnone : lookup "id"
                      (set "next_watering_due" (JStr due)
                         (set "last_watered" v (base userId o))) = None)
      by (rewrite !lookup_set_ne by discriminate; exact Hid).
    intros H; injection H as <- <-.
    split; [reflexivity |]. split; [reflexivity |].
    exists (set "next_watering_due" (JStr due)
              (set "last_watered" v (base userId o))).
    split; [reflexivity |]. split; [exact Hnone |].
    right. exists due, v. auto.
  - cbn [bind]. unfold insert. destruct (outage svc); [intros H; discriminate |].
    match goal with
    | |- context [unknown_column ?d] => destruct (unknown_column d)
    end; [intros H; discriminate |].
    rewrite lookup_inserted, Hid.
    change (is_column "id") with true. cbv iota.
    intros H; injection H as <- <-.
    split; [reflexivity |]. split; [reflexivity |].
    exists (base userId o). split; [reflexivity |]. split; [exact Hid |].
    left. reflexivity.
Qed.

(** An unreachable service makes [saveToVana] throw. *)
Lemma saveToVana_outage (svc : service) (userId : string)
  (plantData : option json) (msg : string) :
  outage svc = Some msg ->
  exists e, saveToVana svc userId plantData = (Throw e, svc).
Proof.
  intros Hout. unfold saveToVana.
  match goal with
  | |- exists e, (match ?m with _ => _ end) = _ =>
      destruct m as [[id s] | e] eqn:Hatt
  end; [| eauto].
  exfalso.
  repeat match type of Hatt with
         | bind ?m _ = _ => destruct m eqn:?; cbn [bind] in Hatt;
                            [| discriminate]
         end.
  unfold insert in Hatt. rewrite Hout in Hatt. discriminate.
Qed.

Lemma updateVanaPlant_absent (svc : service) (plantId : option json)
  (userId : string) (updates : obj) :
  outage svc = None ->
  eq "id" plantId (plants svc) = [] ->
  updateVanaPlant svc plantId userId updates
  = (Throw (Error ("Failed to update plant: " ++ no_row_message svc)), svc).
Proof.
  intros Hup Hnone. unfold updateVanaPlant.
  rewrite verify_ownership_absent by assumption. reflexivity.
Qed.

Lemma updateVanaPlant_outage (svc : service) (plantId : option json)
  (userId : string) (updates : obj) (msg : string) :
  outage svc = Some msg ->
  updateVanaPlant svc plantId userId updates
  = (Throw (Error ("Failed to update plant: " ++ msg)), svc).
Proof.
  intros Hout. unfold updateVanaPlant, verify_ownership, single.
  rewrite Hout. reflexivity.
Qed.

End WithRuntime.

Lemma removeFromVana_absent (svc : service) (plantId : option json)
  (userId : string) :
  outage svc = None ->
  eq "id" plantId (plants svc) = [] ->
  removeFromVana svc plantId userId
  = (Throw (Error ("Failed to remove plant: " ++ no_row_message svc)), svc).
Proof.
  intros Hup Hnone. unfold removeFromVana.
  rewrite verify_ownership_absent by assumption. reflexivity.
Qed.

Lemma removeFromVana_outage (svc : service) (plantId : option json)
  (userId : string) (msg : string) :
  outage svc = Some msg ->
  removeFromVana svc plantId userId
  = (Throw (Error ("Failed to remove plant: " ++ msg)), svc).
Proof.
  intros Hout. unfold removeFromVana, verify_ownership, single.
  rewrite Hout. reflexivity.
Qed.

(** The fields of a created row. *)
Lemma base_lookup (userId : string) (o : obj) (k : string) :
  lookup k (base userId o)
  = prop_of k
      [("user_id", Some (JStr userId));
       ("name", lookup "name" o);
       ("species", lookup "species" o);
       ("scientific_name", lookup "scientific_name" o);
       ("sanskrit_name", lookup "sanskrit_name" o);
       ("family", lookup "family" o);
       ("image_url", lookup "image_url" o);
       ("care_schedule", lookup "care_schedule" o);
       ("health_status", or_else (lookup "health_status" o) (JStr "healthy"));
       ("notes", lookup "notes" o)].
Proof. unfold base. apply lookup_literal. Qed.

Lemma eqb_false_of_neq (a b : string) : a <> b -> (a =? b)%string = false.
Proof. apply String.eqb_neq. Qed.

End CreateFacts.

Module StoreProperties.
Import Auth Database Vana StoreFacts VanaFacts CollectionFacts CreateFacts.

Definition server_error (msg : string) : response :=
  mkResponse 500 (failure msg).

(** X10 (an id that no plant has).  An authenticated update with at least
    one field, or delete, of an id that no stored plant has is answered
    500 with the data service's no-row message behind the operation's
    prefix, and changes nothing. *)
Theorem absent_plant_is_500 {E : Engine} {D : JsDate.DateLib} {J : JwtLib}
  (env : environment) (t : Z) (svc : service) (a : auth_data) (pid : string) :
  auth_user_id a <> "" ->
  getDatabase env = Return tt ->
  outage svc = None ->
  pid <> "" ->
  eq "id" (Some (JStr pid)) (plants svc) = [] ->
  (forall req,
      verifyToken env t req = Return a ->
      put_plant_id req = Return (Some (JStr pid)) ->
      put_updates req <> [] ->
      handlePut env t svc req
      = (Some (server_error ("Failed to update plant: " ++ no_row_message svc)),
         svc))
  /\ (forall req,
      verifyToken env t req = Return a ->
      delete_plant_id req = Some (JStr pid) ->
      handleDelete env t svc req
      = (Some (server_error ("Failed to remove plant: " ++ no_row_message svc)),
         svc)).
Proof.
  intros Huser Hdb Hup Hpid Hnone.
  apply String.eqb_neq in Huser. apply String.eqb_neq in Hpid. split.
  - intros req Hv Hid Hsome. unfold handlePut.
    rewrite (authenticate_verified _ _ _ _ Hv), Huser, Hid.
    cbn [truthy]. rewrite Hpid. cbn [negb].
    destruct (put_updates req) as [| kv rest] eqn:Hu; [congruence |].
    cbn [keys map List.length Nat.eqb]. rewrite Hdb.
    rewrite updateVanaPlant_absent by assumption. reflexivity.
  - intros req Hv Hid. unfold handleDelete.
    rewrite (authenticate_verified _ _ _ _ Hv), Huser, Hid.
    cbn [truthy]. rewrite Hpid. cbn [negb]. rewrite Hdb.
    rewrite removeFromVana_absent by assumption. reflexivity.
Qed.

Lemma absent_plant_is_500_witness :
  let E := Reference.engine [] in
  let D := Reference.dates in
  let J := ReferenceFacts.jwt in
  handleDelete Fixture.env Fixture.later Fixture.garden
    (Fixture.as_ana "DELETE" "/api/vana/dead-99" None)
  = (Some (server_error
       "Failed to remove plant: JSON object requested, multiple (or no) rows returned"),
     Fixture.garden).
Proof.
  intros E D J.
  destruct (absent_plant_is_500 Fixture.env Fixture.later Fixture.garden
              {| auth_user_id := "a11ce"; auth_email := "ana@example.com" |}
              "dead-99")
    as [_ Hdel];
    [discriminate | reflexivity | reflexivity | discriminate | reflexivity |].
  apply Hdel; FixtureFacts.run.
Defined.

(** X11 (the data service cannot be reached).  For an authenticated
    caller and a configured client, every route answers 500 and leaves the
    service as it was: GET with the fixed fetch text, a create that has a
    name and a species with the fixed add text, an update with at least
    one field and a delete with the transport error's message behind the
    operation's prefix. *)
Theorem unreachable_store_is_500 {E : Engine} {D : JsDate.DateLib}
  {J : JwtLib} (env : environment) (t : Z) (svc : service) (a : auth_data)
  (msg : string) :
  auth_user_id a <> "" ->
  getDatabase env = Return tt ->
  outage svc = Some msg ->
  (forall req,
      verifyToken env t req = Return a ->
      handleGet env t svc req
      = (Some (server_error "Failed to fetch plants. Please try again."), svc))
  /\ (forall req o,
      verifyToken env t req = Return a ->
      req_body req = Some (JObj o) ->
      truthy (lookup "name" o) = true ->
      truthy (lookup "species" o) = true ->
      handlePost env t svc req
      = (Some (server_error "Failed to add plant. Please try again."), svc))
  /\ (forall req plantId,
      verifyToken env t req = Return a ->
      put_plant_id req = Return plantId ->
      truthy plantId = true ->
      put_updates req <> [] ->
      handlePut env t svc req
      = (Some (server_error ("Failed to update plant: " ++ msg)), svc))
  /\ (forall req,
      verifyToken env t req = Return a ->
      truthy (delete_plant_id req) = true ->
      handleDelete env t svc req
      = (Some (server_error ("Failed to remove plant: " ++ msg)), svc)).
Proof.
  intros Huser Hdb Hout. apply String.eqb_neq in Huser.
  split; [| split; [| split]].
  - intros req Hv. unfold handleGet.
    rewrite (authenticate_verified _ _ _ _ Hv), Huser, Hdb. cbn [bind].
    unfold getMeraVana. rewrite Hout.
    destruct (extractPlantId (req_url req)); reflexivity.
  - intros req o Hv Hbody Hname Hspecies. unfold handlePost.
    rewrite (authenticate_verified _ _ _ _ Hv), Huser, Hbody.
    cbn [get_prop]. rewrite Hname, Hspecies. cbn [negb]. rewrite Hdb.
    destruct (saveToVana_outage svc (auth_user_id a) (Some (JObj o)) msg Hout)
      as [e ->].
    reflexivity.
  - intros req plantId Hv Hid Htruthy Hsome. unfold handlePut.
    rewrite (authenticate_verified _ _ _ _ Hv), Huser, Hid, Htruthy.
    cbn [negb].
    destruct (put_updates req) as [| kv rest] eqn:Hu; [congruence |].
    cbn [keys map List.length Nat.eqb]. rewrite Hdb.
    rewrite (updateVanaPlant_outage svc _ _ _ msg) by assumption.
    reflexivity.
  - intros req Hv Htruthy. unfold handleDelete.
    rewrite (authenticate_verified _ _ _ _ Hv), Huser, Htruthy.
    cbn [negb]. rewrite Hdb.
    rewrite (removeFromVana_outage svc _ _ msg) by assumption.
    reflexivity.
Qed.

Lemma unreachable_store_is_500_witness :
  let E := Reference.engine [] in
  let D := Reference.dates in
  let J := ReferenceFacts.jwt in
  handleGet Fixture.env Fixture.later Fixture.unreachable
    (Fixture.as_ana "GET" "/api/vana" None)
  = (Some (server_error "Failed to fetch plants. Please try again."),
     Fixture.unreachable)
  /\ handleDelete Fixture.env Fixture.later Fixture.unreachable
       (Fixture.as_ana "DELETE" "/api/vana/f00d-01" None)
     = (Some (server_error "Failed to remove plant: fetch failed"),
        Fixture.unreachable).
Proof.
  intros E D J.
  destruct (unreachable_store_is_500 Fixture.env Fixture.later
              Fixture.unreachable
              {| auth_user_id := "a11ce"; auth_email := "ana@example.com" |}
              "fetch failed")
    as (Hget & _ & _ & Hdel);
    [discriminate | reflexivity | reflexivity |].
  split; [apply Hget | apply Hdel]; FixtureFacts.run.
Defined.

(** X12 (an update leaves the rest alone).  When the owner's update is
    answered 200, the plant's row keeps the value of every column for
    which the body supplies no field, except [updated_at], which the
    table's trigger sets to the current time; every other row is stored as
    it was, in its place, and the number of rows is the same. *)
Theorem update_leaves_the_rest {E : Engine} {D : JsDate.DateLib}
  {J : JwtLib} (env : environment) (t : Z) (svc svc' : service)
  (req : request) (a : auth_data) (body row : obj) (pid : string) :
  verifyToken env t req = Return a ->
  auth_user_id a <> "" ->
  getDatabase env = Return tt ->
  req_body req = Some (JObj body) ->
  put_plant_id req = Return (Some (JStr pid)) ->
  pid <> "" ->
  eq "id" (Some (JStr pid)) (plants svc) = [row] ->
  remove "plant_id" body <> [] ->
  handlePut env t svc req = (Some updated, svc') ->
  exists stored,
    plants svc'
    = map (fun r => if strict_eq (lookup "id" r) (Some (JStr pid))
                    then stored else r)
          (plants svc)
    /\ In stored (plants svc')
    /\ (forall k,
          k = "plant_id" \/ lookup k body = None ->
          k <> "updated_at" ->
          lookup k stored = lookup k row)
    /\ lookup "updated_at" stored = Some (JStr (now svc))
    /\ (forall r, In r (plants svc) -> r <> row -> In r (plants svc'))
    /\ List.length (plants svc') = List.length (plants svc).
Proof.
  intros Hv Huser Hdb Hbody Hid Hpid Hrow Hsome.
  assert (Hupd : put_updates req = remove "plant_id" body)
    by (unfold put_updates; rewrite Hbody; reflexivity).
  assert (Hput := handlePut_verified env t svc req a pid Hv Huser Hdb Hid Hpid).
  rewrite Hupd in Hput. rewrite (Hput Hsome). clear Hput.
  destruct (updateVanaPlant svc (Some (JStr pid)) (auth_user_id a)
              (remove "plant_id" body)) as [[b | e] s] eqn:Hrun;
    [| discriminate].
  intros H; injection H as <-.
  destruct (updateVanaPlant_returns _ _ _ _ _ _ Hrun) as [_ ->].
  cbn [plants with_plants].
  assert (Hothers : forall r,
            In r (plants svc) ->
            strict_eq (lookup "id" r) (Some (JStr pid)) = true -> r = row).
  { intros r Hin Hrid.
    assert (Hr : In r (eq "id" (Some (JStr pid)) (plants svc)))
      by (apply in_eq; auto).
    rewrite Hrow in Hr. destruct Hr as [<- | []]. reflexivity. }
  exists (updated_row svc (remove "plant_id" body) row).
  split; [| split; [| split; [| split; [| split]]]].
  - apply map_ext_in. intros r Hr.
    destruct (strict_eq (lookup "id" r) (Some (JStr pid))) eqn:Hrid;
      [| reflexivity].
    rewrite (Hothers r Hr Hrid). reflexivity.
  - apply (updated_row_stored (Some (JStr pid)) row
             (updated_row svc (remove "plant_id" body)) (plants svc) Hrow).
  - intros k Hk Hstamp. rewrite lookup_updated_row.
    replace (k =? "updated_at")%string with false
      by (symmetry; apply String.eqb_neq; exact Hstamp).
    replace (lookup k (remove "plant_id" body)) with (@None json);
      [reflexivity |].
    symmetry. destruct Hk as [-> | Hk]; [apply lookup_remove_eq |].
    destruct (String.eqb_spec k "plant_id") as [-> | Hne];
      [apply lookup_remove_eq |].
    rewrite lookup_remove_ne by exact Hne. exact Hk.
  - rewrite lookup_updated_row. reflexivity.
  - intros r Hin Hne. apply in_map_iff. exists r. split; [| exact Hin].
    destruct (strict_eq (lookup "id" r) (Some (JStr pid))) eqn:Hrid;
      [| reflexivity].
    elim Hne. apply Hothers; assumption.
  - apply length_map.
Qed.

(** Ana changes only the notes of her fern: its watering data stay. *)
Lemma update_leaves_the_rest_witness :
  let E := Reference.engine [] in
  let D := Reference.dates in
  let J := ReferenceFacts.jwt in
  let out :=
    handlePut Fixture.env Fixture.later Fixture.garden
      (Fixture.as_ana "PUT" "/api/vana/f00d-01"
         (Some (JObj [("notes", JStr "Repotted")]))) in
  exists stored,
    plants (snd out) = [stored]
    /\ lookup "last_watered" stored = Some (JStr "2025-11-01T10:00:00+00:00")
    /\ lookup "next_watering_due" stored = Some (JStr "2025-11-08")
    /\ lookup "updated_at" stored = Some (JStr "2025-11-04T00:00:00+00:00").
Proof.
  intros E D J out.
  assert (Hfst : fst out = Some updated) by (vm_compute; reflexivity).
  destruct (update_leaves_the_rest Fixture.env Fixture.later Fixture.garden
              (snd out)
              (Fixture.as_ana "PUT" "/api/vana/f00d-01"
                 (Some (JObj [("notes", JStr "Repotted")])))
              {| auth_user_id := "a11ce"; auth_email := "ana@example.com" |}
              [("notes", JStr "Repotted")] Fixture.fern "f00d-01")
    as (stored & Hrows & _ & Hkeep & Hstamp & _);
    [FixtureFacts.run | discriminate | reflexivity | reflexivity
     | vm_compute; reflexivity | discriminate | reflexivity | discriminate
     | rewrite <- Hfst; apply surjective_pairing |].
  exists stored. split; [exact Hrows |].
  split; [| split; [| exact Hstamp]];
    (rewrite Hkeep; [reflexivity | right; reflexivity | discriminate]).
Defined.



End StoreProperties.

Module PathFacts.
Import Vana.

Lemma extractPlantId_unfold (path : string) :
  extractPlantId path
  = match (if prefix_i "/api/vana/" path
           then match id_run (Str.drop 10 path) with
                | EmptyString => None
                | run => Some run
                end
           else None) with
    | Some run => Some run
    | None =>
        match path with
        | String _ r => extractPlantId r
        | EmptyString => None
        end
    end.
Proof. destruct path; reflexivity. Qed.

Lemma id_run_chars (s : string) (c : ascii) :
  In c (list_ascii_of_string (id_run s)) -> id_char c = true.
Proof.
  induction s as [| c' s IH]; cbn [id_run]; [intros [] |].
  destruct (id_char c') eqn:Hc; [| intros []].
  cbn [list_ascii_of_string]. intros [<- | Hin]; [exact Hc | apply IH; exact Hin].
Qed.

Lemma id_run_all (s : string) :
  (forall c, In c (list_ascii_of_string s) -> id_char c = true) ->
  id_run s = s.
Proof.
  induction s as [| c s IH]; intros Hall; cbn [id_run]; [reflexivity |].
  rewrite (Hall c) by (left; reflexivity).
  rewrite IH; [reflexivity |]. intros c' Hc'. apply Hall. right. exact Hc'.
Qed.

End PathFacts.

Module CreateProperties.
Import Auth Database Vana StoreFacts VanaFacts CollectionFacts CreateFacts PathFacts.

Lemma prop_of_absent (k : string) (props : list (string * option json)) :
  ~ In k (map fst props) -> prop_of k props = None.
Proof.
  induction props as [| [k' v] r IH]; cbn [map fst prop_of]; intros Hk;
    [reflexivity |].
  replace (k' =? k)%string with false
    by (symmetry; apply String.eqb_neq; intros ->; apply Hk; left;
        reflexivity).
  apply IH. intros Hin. apply Hk. right. exact Hin.
Qed.

(** What [saveToVana] sends under the name [k] of a column it copies,
    whether or not it adds the watering columns. *)
Lemma sent_lookup (userId : string) (o data : obj) (k : string) :
  data = base userId o
  \/ (exists due v,
        lookup "last_watered" o = Some v
        /\ data = set "next_watering_due" (JStr due)
                    (set "last_watered" v (base userId o))) ->
  k <> "last_watered" -> k <> "next_watering_due" ->
  lookup k data = lookup k (base userId o).
Proof.
  intros [-> | (due & v & _ & ->)] Hl Hn; [reflexivity |].
  rewrite !lookup_set_ne by assumption. reflexivity.
Qed.

Section WithRuntime.
Context {E : Engine} {D : JsDate.DateLib}.

(** The row of a successful create, its id and its owner. *)
Lemma create_row_of (svc svc' : service) (userId : string) (o : obj)
  (id : json) :
  saveToVana svc userId (Some (JObj o)) = (Return id, svc') ->
  exists row,
    outage svc = None
    /\ svc' = with_plants svc (plants svc ++ [row])
    /\ lookup "id" row = Some id
    /\ lookup "user_id" row = Some (JStr userId).
Proof.
  intros Hsave.
  destruct (saveToVana_row _ _ _ _ _ Hsave)
    as (Hup & -> & data & -> & Hid & Hdata).
  exists (inserted svc data). split; [exact Hup |]. split; [reflexivity |].
  rewrite !lookup_inserted, Hid.
  rewrite (sent_lookup userId o data "user_id" Hdata) by discriminate.
  split; reflexivity.
Qed.

End WithRuntime.

(** X14 (what a create stores).  A successful [saveToVana] of an object
    body adds one row, which has exactly the columns of the table: its id
    is the one returned, its owner the user it was called for; name,
    species, scientific_name, sanskrit_name, family, image_url,
    care_schedule and notes hold the supplied value, and null when the body
    supplies none; health_status is the supplied value when that is truthy
    and "healthy" otherwise; added_date, created_at and updated_at are the
    service's current date and time.  Whatever else the body holds, a
    [watering_frequency_days] or a field of the client's invention, is not
    stored. *)
Theorem create_stores_known_columns {E : Engine} {D : JsDate.DateLib}
  (svc svc' : service) (userId : string) (o : obj) (id : json) :
  saveToVana svc userId (Some (JObj o)) = (Return id, svc') ->
  exists row,
    plants svc' = (plants svc ++ [row])%list
    /\ keys row = plants_columns
    /\ lookup "id" row = Some id
    /\ lookup "user_id" row = Some (JStr userId)
    /\ (forall k,
          In k copied ->
          lookup k row = Some match lookup k o with
                              | Some v => v
                              | None => JNull
                              end)
    /\ lookup "health_status" row
       = or_else (lookup "health_status" o) (JStr "healthy")
    /\ lookup "added_date" row = Some (JStr (today svc))
    /\ lookup "created_at" row = Some (JStr (now svc))
    /\ lookup "updated_at" row = Some (JStr (now svc))
    /\ (forall k, ~ In k plants_columns -> lookup k row = None).
Proof.
  intros Hsave.
  destruct (saveToVana_row _ _ _ _ _ Hsave)
    as (_ & -> & data & -> & Hid & Hdata).
  exists (inserted svc data).
  assert (Hsent : forall k,
            k <> "last_watered" -> k <> "next_watering_due" ->
            lookup k data = lookup k (base userId o))
    by (intros k; apply sent_lookup; exact Hdata).
  split; [reflexivity |]. split; [apply keys_inserted |].
  split; [rewrite lookup_inserted, Hid; reflexivity |].
  split; [rewrite lookup_inserted, Hsent by discriminate; reflexivity |].
  split; [| split; [| split; [| split; [| split]]]].
  - intros k Hk. cbn in Hk.
    destruct Hk as [<- | [<- | [<- | [<- | [<- | [<- | [<- | [<- | []]]]]]]]];
      rewrite lookup_inserted, Hsent, base_lookup by discriminate;
      cbn [prop_of String.eqb Ascii.eqb Bool.eqb];
      match goal with
      | |- context [is_column ?c] => change (is_column c) with true
      end;
      match goal with
      | |- context [lookup ?c o] => destruct (lookup c o); reflexivity
      end.
  - rewrite lookup_inserted, Hsent, base_lookup by discriminate.
    cbn [prop_of String.eqb Ascii.eqb Bool.eqb].
    change (is_column "health_status") with true.
    destruct (or_else_some (lookup "health_status" o) (JStr "healthy"))
      as [v ->].
    reflexivity.
  - rewrite lookup_inserted, Hsent, base_lookup by discriminate.
    reflexivity.
  - rewrite lookup_inserted, Hsent, base_lookup by discriminate.
    reflexivity.
  - rewrite lookup_inserted, Hsent, base_lookup by discriminate.
    reflexivity.
  - intros k Hk. rewrite lookup_inserted.
    destruct (is_column k) eqn:Hc; [| reflexivity].
    elim Hk. apply is_column_in. exact Hc.
Qed.

Lemma create_stores_known_columns_witness :
  let E := Reference.engine [] in
  let D := Reference.dates in
  let o := [("name", JStr "Tulsi"); ("species", JStr "Ocimum");
            ("is_admin", JBool true); ("watering_frequency_days", num 3);
            ("health_status", JStr "")] in
  exists row,
    plants (snd (saveToVana Fixture.garden "b0b" (Some (JObj o))))
    = [Fixture.fern; row]
    /\ lookup "is_admin" row = None
    /\ lookup "watering_frequency_days" row = None
    /\ lookup "health_status" row = Some (JStr "healthy")
    /\ lookup "notes" row = Some JNull.
Proof.
  intros E D o.
  destruct (create_stores_known_columns Fixture.garden
              (snd (saveToVana Fixture.garden "b0b" (Some (JObj o))))
              "b0b" o (JStr "f00d-02"))
    as (row & Hrows & _ & _ & _ & Hcopied & Hhealth & _ & _ & _ & Hother);
    [vm_compute; reflexivity |].
  exists row. split; [exact Hrows |].
  split; [apply Hother; simpl; intuition discriminate |].
  split; [apply Hother; simpl; intuition discriminate |].
  split; [rewrite Hhealth; reflexivity |].
  rewrite (Hcopied "notes"); [reflexivity | simpl; tauto].
Defined.

(** X15 (a created plant is listed).  When an authenticated create is
    answered 200, the plant id it returns is the id of a row that the
    caller's listing of the resulting service contains. *)
Theorem created_plant_is_listed {E : Engine} {D : JsDate.DateLib}
  {J : JwtLib} (env : environment) (t : Z) (svc svc' : service)
  (req : request) (a : auth_data) (r : response) :
  verifyToken env t req = Return a ->
  handlePost env t svc req = (Some r, svc') ->
  status r = 200 ->
  exists row id rows,
    payload r = success [("plant_id", id);
                         ("message",
                          JStr "Plant added to Mera Vana successfully")]
    /\ lookup "id" row = Some id
    /\ getMeraVana svc' (auth_user_id a) = Return rows
    /\ In row rows.
Proof.
  intros Hv. unfold handlePost. rewrite (authenticate_verified _ _ _ _ Hv).
  destruct (auth_user_id a =? "")%string; [discriminate |].
  destruct (req_body req) as [[| | | | | o] |];
    try (cbn [get_prop truthy negb]; intros H; injection H as <- <-;
         discriminate).
  cbn [get_prop].
  destruct (negb (truthy (lookup "name" o)));
    [intros H; injection H as <- <-; discriminate |].
  destruct (negb (truthy (lookup "species" o)));
    [intros H; injection H as <- <-; discriminate |].
  destruct (getDatabase env);
    [| intros H; injection H as <- <-; discriminate].
  destruct (saveToVana svc (auth_user_id a) (Some (JObj o)))
    as [[id |] s] eqn:Hsave;
    [| intros H; injection H as <- <-; discriminate].
  intros H _; injection H as <- <-.
  destruct (create_row_of svc s (auth_user_id a) o id Hsave)
    as (row & Hup & -> & Hid & Hown).
  exists row, id.
  exists (order_desc (eq "user_id" (Some (JStr (auth_user_id a)))
                        (plants svc ++ [row]))).
  split; [reflexivity |]. split; [exact Hid |]. split.
  - unfold getMeraVana. cbn [outage with_plants plants]. rewrite Hup.
    reflexivity.
  - apply in_order_desc. apply in_eq. split.
    + apply in_or_app. right. left. reflexivity.
    + rewrite Hown. apply strict_eq_string. reflexivity.
Qed.

(** Ben's new plant is in Ben's listing. *)
Lemma created_plant_is_listed_witness :
  let E := Reference.engine [] in
  let D := Reference.dates in
  let J := ReferenceFacts.jwt in
  let req := Fixture.as_ben "POST" "/api/vana"
               (Some (JObj [("name", JStr "Tulsi");
                            ("species", JStr "Ocimum")])) in
  let out := handlePost Fixture.env Fixture.later Fixture.garden req in
  exists row rows,
    lookup "id" row = Some (JStr "f00d-02")
    /\ getMeraVana (snd out) "b0b" = Return rows
    /\ In row rows.
Proof.
  intros E D J req out.
  assert (Hfst : fst out
                 = Some (mkResponse 200
                           (success [("plant_id", JStr "f00d-02");
                                     ("message",
                                      JStr "Plant added to Mera Vana successfully")])))
    by (vm_compute; reflexivity).
  destruct (created_plant_is_listed Fixture.env Fixture.later Fixture.garden
              (snd out) req
              {| auth_user_id := "b0b"; auth_email := "ben@example.com" |}
              (mkResponse 200
                 (success [("plant_id", JStr "f00d-02");
                           ("message",
                            JStr "Plant added to Mera Vana successfully")])))
    as (row & id & rows & Hpay & Hid & Hrows & Hin).
  - vm_compute. reflexivity.
  - rewrite <- Hfst. apply surjective_pairing.
  - reflexivity.
  - exists row, rows. injection Hpay as <-. auto.
Defined.

(** X16 (the plant id of a path).  The id [extractPlantId] finds is never
    empty and consists of hexadecimal digits and hyphens only; and from
    the path "/api/vana/" followed by such an id it finds that id. *)
Theorem extractPlantId_sound_and_complete :
  (forall path id,
      extractPlantId path = Some id ->
      id <> EmptyString
      /\ forall c, In c (list_ascii_of_string id) -> id_char c = true)
  /\ (forall id,
        id <> EmptyString ->
        (forall c, In c (list_ascii_of_string id) -> id_char c = true) ->
        extractPlantId ("/api/vana/" ++ id) = Some id).
Proof.
  split.
  - intros path id. induction path as [| c path IH].
    + cbn. discriminate.
    + rewrite extractPlantId_unfold.
      destruct (prefix_i "/api/vana/" (String c path)).
      * destruct (id_run (Str.drop 10 (String c path))) as [| c' run] eqn:Hrun.
        -- exact IH.
        -- intros H; injection H as <-. split; [discriminate |].
           rewrite <- Hrun. apply id_run_chars.
      * exact IH.
  - intros id Hne Hall. rewrite extractPlantId_unfold.
    change (prefix_i "/api/vana/" ("/api/vana/" ++ id))
      with (String.prefix EmptyString (Str.toLowerCase id)).
    replace (String.prefix EmptyString (Str.toLowerCase id)) with true
      by (destruct (Str.toLowerCase id); reflexivity).
    change (Str.drop 10 ("/api/vana/" ++ id)) with id.
    rewrite (id_run_all id Hall). destruct id; [congruence | reflexivity].
Qed.

Lemma extractPlantId_sound_and_complete_witness :
  extractPlantId "/api/vana/3F2504E0-4f89-11d3-9a0c-0305e82c3301"
  = Some "3F2504E0-4f89-11d3-9a0c-0305e82c3301".
Proof.
  apply (proj2 extractPlantId_sound_and_complete).
  - discriminate.
  - intros c Hc. vm_compute in Hc.
    repeat (destruct Hc as [<- | Hc]; [reflexivity |]). destruct Hc.
Defined.



End CreateProperties.

(* ================================================================== *)
(** * Further properties of the identification endpoint *)
(* ================================================================== *)

Module FenceFacts.
Import Str.

Definition no_tick (s : string) : Prop :=
  ~ In "`"%char (list_ascii_of_string s).



(** Characters other than the back-tick are gathered into the current
    piece. *)
Lemma split_from_no_tick (sep' body rest : string) (acc : list ascii) :
  no_tick body ->
  split_from (String "`" sep') 0 acc (body ++ rest)
  = split_from (String "`" sep') 0
      (rev (list_ascii_of_string body) ++ acc) rest.
Proof.
  revert acc. induction body as [| c body IH]; intros acc Hb;
    [reflexivity |].
  assert (Hc : c <> "`"%char /\ no_tick body).
  { unfold no_tick in *. cbn [list_ascii_of_string In] in Hb.
    split; [intros -> | intros H]; apply Hb; auto. }
  destruct Hc as [Hc Hb'].
  cbn [append split_from String.prefix].
  destruct (ascii_dec "`" c) as [Heq | _]; [congruence |].
  rewrite IH by exact Hb'. cbn [list_ascii_of_string rev].
  rewrite <- app_assoc. reflexivity.
Qed.

Lemma string_of_rev_rev (body : string) (tail : list ascii) :
  string_of_list_ascii (rev (tail ++ rev (list_ascii_of_string body)))
  = body ++ string_of_list_ascii (rev tail).
Proof.
  rewrite rev_app_distr, rev_involutive.
  induction body as [| c body IH]; cbn [list_ascii_of_string app append];
    [reflexivity |].
  cbn [string_of_list_ascii]. rewrite IH. reflexivity.
Qed.

Lemma prefix_app (sep rest : string) : String.prefix sep (sep ++ rest) = true.
Proof.
  induction sep as [| c sep IH]; cbn [append String.prefix].
  - destruct rest; reflexivity.
  - destruct (ascii_dec c c); [exact IH | congruence].
Qed.

Lemma prefix_weaken (a b s : string) :
  String.prefix (a ++ b) s = true -> String.prefix a s = true.
Proof.
  revert s. induction a as [| c a IH]; intros s.
  - intros _. destruct s; reflexivity.
  - destruct s as [| d s]; simpl; [discriminate |].
    destruct (ascii_dec c d); [apply IH | discriminate].
Qed.

(** A text without a fence has no tagged fence. *)
Lemma includes_tagged (s : string) :
  includes "```" s = false -> includes "```json" s = false.
Proof.
  assert (Hp : forall s, String.prefix "```" s = false ->
                         String.prefix "```json" s = false).
  { intros s0 H. destruct (String.prefix "```json" s0) eqn:Hj; [| reflexivity].
    rewrite (prefix_weaken "```" "json" s0 Hj) in H. discriminate. }
  induction s as [| c s IH]; cbn [includes]; intros H;
    apply orb_false_iff in H as [H1 H2]; apply orb_false_iff; split; auto.
Qed.

Lemma split_from_skip (sep a rest : string) (acc : list ascii) :
  split_from sep (String.length a) acc (a ++ rest)
  = split_from sep 0 acc rest.
Proof.
  induction a as [| c a IH]; [reflexivity |].
  cbn [String.length append split_from]. exact IH.
Qed.

(** After an occurrence of the separator a new piece begins. *)
Lemma split_from_sep (c : ascii) (sep' rest : string) (acc : list ascii) :
  split_from (String c sep') 0 acc (String c sep' ++ rest)
  = string_of_list_ascii (rev acc)
    :: split_from (String c sep') 0 [] rest.
Proof.
  cbn [append split_from].
  change (String c (sep' ++ rest)) with (String c sep' ++ rest).
  rewrite prefix_app. cbn [String.length Nat.sub]. rewrite Nat.sub_0_r.
  rewrite split_from_skip. reflexivity.
Qed.

Lemma json_fence_tail (acc : list ascii) :
  split_from "```json" 0 acc "```"
  = [string_of_list_ascii (rev (["`"; "`"; "`"]%char ++ acc))].
Proof. reflexivity. Qed.

Lemma closing_fence_tail (acc : list ascii) :
  split_from "```" 0 acc "```"
  = [string_of_list_ascii (rev acc); EmptyString].
Proof. reflexivity. Qed.

Lemma string_of_rev (body : string) :
  string_of_list_ascii (rev (rev (list_ascii_of_string body))) = body.
Proof. rewrite rev_involutive. apply string_of_list_ascii_of_string. Qed.

(** The fenced block: between the opening fence with its language tag
    and the closing fence. *)
Lemma split_json_fence (body : string) :
  no_tick body ->
  split "```json" ("```json" ++ body ++ "```")
  = [EmptyString; body ++ "```"].
Proof.
  intros Hb. unfold split. rewrite split_from_sep.
  rewrite split_from_no_tick by exact Hb. rewrite app_nil_r.
  rewrite json_fence_tail. rewrite string_of_rev_rev. reflexivity.
Qed.

Lemma split_closing_fence (body : string) :
  no_tick body ->
  split "```" (body ++ "```") = [body; EmptyString].
Proof.
  intros Hb. unfold split.
  rewrite split_from_no_tick by exact Hb. rewrite app_nil_r.
  rewrite closing_fence_tail, string_of_rev. reflexivity.
Qed.

End FenceFacts.

Module DarshanProperties.
Import Darshan DarshanFacts Str FenceFacts.

Definition rate_limited : response :=
  mkResponse 429 (failure "Rate limit exceeded. Please try again in a moment.").

(** [JSON.parse(text)] as [parseGPTResponse] ends. *)
Definition parse_text {E : Engine} (text : string) : js_result json :=
  match JSON_parse text with
  | Some v => Return v
  | None => Throw (SyntaxError (syntax_error_text text))
  end.

Lemma status_not_429 (z : Z) :
  z <> 429 -> match z with 429 => true | _ => false end = false.
Proof.
  intros Hz. destruct z as [| p | p]; try reflexivity.
  repeat (destruct p as [p | p |]; try reflexivity).
  congruence.
Qed.

Lemma data_url_truthy {E : Engine} (ib u : option json) :
  truthy ib = true -> data_url ib = Return u -> truthy u = true.
Proof.
  destruct ib as [[| | | s | |] |]; cbn [data_url]; try discriminate.
  intros Hs H. injection H as <-. cbn [truthy] in *.
  destruct (String.prefix "data:" s) eqn:Hp; [exact Hs | reflexivity].
Qed.

(** X18 (the gateway call).  A request makes at most one call to the
    gateway, and only with a truthy image reference: the [image_url] of
    the body when that is truthy, and otherwise the [image_base64] text,
    as it is when it begins with "data:" and behind the prefix
    "data:image/jpeg;base64," when not. *)
Theorem gateway_called_at_most_once {E : Engine} (gw : gateway)
  (req : request) :
  (snd (handler gw req) = []
   \/ exists u, snd (handler gw req) = [u] /\ truthy u = true)
  /\ (forall body,
        req_method req = "POST" -> req_body req = Some body ->
        body <> JNull ->
        truthy (field body "image_url") = true ->
        snd (handler gw req) = [field body "image_url"])
  /\ (forall body s,
        req_method req = "POST" -> req_body req = Some body ->
        body <> JNull ->
        truthy (field body "image_url") = false ->
        field body "image_base64" = Some (JStr s) -> s <> "" ->
        snd (handler gw req)
        = [Some (JStr (if String.prefix "data:" s then s
                       else "data:image/jpeg;base64," ++ s))]).
Proof.
  split; [| split].
  - unfold handler, handler_try.
    destruct (req_method req =? "OPTIONS")%string; [left; reflexivity |].
    destruct (negb (req_method req =? "POST")%string); [left; reflexivity |].
    destruct (get_prop (req_body req) "image_url") as [iu |];
      [| left; reflexivity].
    destruct (get_prop (req_body req) "image_base64") as [ib |];
      [| left; reflexivity].
    destruct (truthy iu) eqn:Hiu; cbn [negb andb].
    + rewrite andb_false_r. right. exists iu.
      destruct (bind (gw iu) _); auto.
    + destruct (truthy ib) eqn:Hib; cbn [negb andb]; [| left; reflexivity].
      destruct (data_url ib) as [u |] eqn:Hu; [| left; reflexivity].
      right. exists u. split; [destruct (bind (gw u) _); reflexivity |].
      eapply data_url_truthy; eauto.
  - intros body Hm Hbody Hnn Hiu. unfold handler, handler_try.
    rewrite Hm, Hbody. cbn [String.eqb Ascii.eqb Bool.eqb negb].
    rewrite !get_prop_field by exact Hnn. rewrite Hiu.
    cbn [negb andb]. rewrite andb_false_r.
    destruct (bind (gw (field body "image_url")) _); reflexivity.
  - intros body s Hm Hbody Hnn Hiu Hib Hs. unfold handler, handler_try.
    rewrite Hm, Hbody. cbn [String.eqb Ascii.eqb Bool.eqb negb].
    rewrite !get_prop_field by exact Hnn. rewrite Hiu, Hib.
    cbn [truthy negb andb]. apply String.eqb_neq in Hs. rewrite Hs.
    cbn [negb andb data_url].
    match goal with
    | |- snd (match ?m with _ => _ end) = _ => destruct m
    end; reflexivity.
Qed.

Lemma gateway_called_at_most_once_witness :
  let E := Reference.engine [] in
  let gw : gateway := fun _ => Return "{}" in
  let body := JObj [("image_base64", JStr "iVBORw0KGgo=")] in
  let req := {| req_method := "POST"; req_url := "/api/darshan";
                req_headers := []; req_query := [];
                req_body := Some body |} in
  snd (handler gw req) = [Some (JStr "data:image/jpeg;base64,iVBORw0KGgo=")].
Proof.
  intros E gw body req.
  apply (proj2 (proj2 (gateway_called_at_most_once gw req)) body
           "iVBORw0KGgo=");
    [reflexivity | reflexivity | discriminate | reflexivity | reflexivity
     | discriminate].
Defined.

(** X19 (gateway failures).  When the call to the gateway throws, an error
    carrying the status 429 is answered 429 with the rate-limit text; any
    other error is answered 500 with one of the two fixed failure texts,
    never with the error's own message. *)
Theorem gateway_failure_responses {E : Engine} (gw : gateway)
  (req : request) (u : option json) (e : js_error) :
  snd (handler gw req) = [u] ->
  gw u = Throw e ->
  (err_status e = Some 429 -> fst (handler gw req) = rate_limited)
  /\ (err_status e <> Some 429 ->
      fst (handler gw req) = parse_failed
      \/ fst (handler gw req) = identification_failed).
Proof.
  intros Hcall Hgw.
  rewrite (handler_after_call gw req u Hcall), Hgw. cbn [bind].
  unfold handler_catch. split.
  - intros ->. reflexivity.
  - intros Hne.
    replace (match err_status e with Some 429 => true | _ => false end)
      with false.
    + destruct (_ || _); auto.
    + destruct (err_status e) as [z |]; [| reflexivity].
      symmetry. apply status_not_429. congruence.
Qed.

Lemma gateway_failure_responses_witness :
  let E := Reference.engine [] in
  let gw : gateway :=
    fun _ => Throw (mkError "RateLimitError" "429 Too Many Requests"
                      (Some 429)) in
  fst (handler gw DarshanClaims.sample_request) = rate_limited.
Proof.
  intros E gw.
  apply (proj1 (gateway_failure_responses gw DarshanClaims.sample_request
                  (Some (JStr "https://example.org/tulsi.jpg"))
                  (mkError "RateLimitError" "429 Too Many Requests" (Some 429))
                  eq_refl eq_refl)).
  reflexivity.
Defined.



(** X21 (the markdown fence is stripped).  Let the reply be ASCII text.
    When the reply, trimmed, is a block opened by the fence tagged json and
    closed by a fence, with no back-tick in between, what is parsed is the
    text between the fences, trimmed; and a reply without any fence is
    parsed as it is, trimmed. *)
Theorem fence_is_stripped {E : Engine} (content : string) :
  is_ascii content = true ->
  (forall body,
      trim content = "```json" ++ body ++ "```" ->
      no_tick body ->
      parseGPTResponse content = parse_text (trim body))
  /\ (includes "```" (trim content) = false ->
      parseGPTResponse content = parse_text (trim content)).
Proof.
  intros _. split.
  - intros body Hc Hb. unfold parseGPTResponse. rewrite Hc.
    assert (Hinc : includes "```json" ("```json" ++ body ++ "```") = true).
    { generalize (prefix_app "```json" (body ++ "```")).
      generalize ("```json" ++ body ++ "```") as s.
      intros s Hp. destruct s; cbn [includes]; rewrite Hp; reflexivity. }
    rewrite Hinc.
    rewrite split_json_fence by exact Hb. cbn [piece nth_error bind].
    rewrite split_closing_fence by exact Hb. reflexivity.
  - intros Hno. unfold parseGPTResponse.
    assert (Hj : includes "```json" (trim content) = false)
      by (apply includes_tagged; exact Hno).
    rewrite Hj, Hno. reflexivity.
Qed.

Lemma fence_is_stripped_witness :
  let E := Reference.engine [("{}", JObj [])] in
  let content := String "010" ("```json" ++ String "010" ("{}"
                   ++ String "010" ("```" ++ String "010" EmptyString))) in
  parseGPTResponse content = Return (JObj []).
Proof.
  intros E content.
  destruct (fence_is_stripped content) as [Hfenced _]; [reflexivity |].
  rewrite (Hfenced (String "010" ("{}" ++ String "010" EmptyString))).
  - reflexivity.
  - reflexivity.
  - vm_compute. intuition discriminate.
Defined.

End DarshanProperties.

(* ================================================================== *)
(** * Properties of the authentication endpoint *)
(* ================================================================== *)

Module AuthEndpointFacts.
Import Auth Database AuthEndpoint AuthFacts.

(** An engine for which a text, an array or an object is never below a
    number. *)
Definition relational : Relational :=
  {| less_than_number := fun _ _ => false |}.

(** A provider that knows Ana and her password. *)
Definition provider : identity_provider :=
  {| signUp := fun email _ _ =>
       if (email =? "ana@example.com")%string
       then IdpFailed "User already registered"
       else IdpUser "c0ffee";
     signInWithPassword := fun email password =>
       if (email =? "ana@example.com")%string
          && strict_eq password (Some (JStr "secret1"))
       then IdpUser "a11ce"
       else IdpFailed "Invalid login credentials" |}.

Definition post (url : string) (body : obj) : request :=
  {| req_method := "POST"; req_url := url; req_headers := [];
     req_query := []; req_body := Some (JObj body) |}.

(** A value that, if it is a text, is ASCII text. *)
Definition ascii_text (v : option json) : Prop :=
  forall s, v = Some (JStr s) -> Str.is_ascii s = true.

(** The body, whose email, password and name are ASCII text, passes the
    checks of [handleSignup] with the normalised email [em] and the trimmed
    name [nm]. *)
Definition signup_input {E : Engine} {R : Relational} (o : obj)
  (em nm : string) : Prop :=
  exists e n,
    text_or_empty (lookup "email" o) "trim" = Return e
    /\ text_or_empty (lookup "name" o) "trim" = Return n
    /\ Str.is_ascii e = true /\ Str.is_ascii n = true
    /\ ascii_text (lookup "password" o)
    /\ em = Str.toLowerCase (Str.trim e)
    /\ nm = Str.trim n
    /\ em <> "" /\ Str.includes "@" em = true
    /\ truthy (lookup "password" o) = true
    /\ lt_int (length_of (lookup "password" o)) 6 = false
    /\ nm <> "".

(** The body, whose email is ASCII text, passes the checks of
    [handleLogin] with the normalised email [em]. *)
Definition login_input {E : Engine} (o : obj) (em : string) : Prop :=
  exists e,
    text_or_empty (lookup "email" o) "trim" = Return e
    /\ Str.is_ascii e = true
    /\ em = Str.toLowerCase (Str.trim e)
    /\ em <> ""
    /\ truthy (lookup "password" o) = true.

Lemma ascii_text_of (s : string) :
  Str.is_ascii s = true -> ascii_text (Some (JStr s)).
Proof. intros Hs s' H. injection H as <-. exact Hs. Qed.

Section WithRuntime.
Context {E : Engine} {R : Relational} {J : JwtLib}.

(** Past its checks, [handleLogin] is decided by the provider. *)
Lemma handleLogin_checked (env : environment) (t : Z) (svc : service)
  (idp : identity_provider) (req : request) (o : obj) (em : string) :
  req_body req = Some (JObj o) ->
  login_input o em ->
  getDatabase env = Return tt ->
  handleLogin env t svc idp req
  = let password := lookup "password" o in
    let calls := [SignIn em password] in
    match signInWithPassword idp em password with
    | IdpUser userId =>
        match getUser svc userId with
        | Throw _ =>
            (mkResponse 500 (failure "Login failed. Please try again."), calls)
        | Return userData =>
            match generateToken env t userId em with
            | Throw _ =>
                (mkResponse 500 (failure "Login failed. Please try again."),
                 calls)
            | Return token =>
                (mkResponse 200
                   (JObj [("success", JBool true);
                          ("token", JStr token);
                          ("user",
                           user_json (Some (JStr userId)) (Some (JStr em))
                             match userData with
                             | Some row => lookup "name" row
                             | None => Some (JStr "User")
                             end)]),
                 calls)
            end
        end
    | _ => (invalid_credentials, calls)
    end.
Proof.
  intros Hbody (e & He & _ & -> & Hne & Hpw) Hdb. unfold handleLogin.
  rewrite Hbody. cbn [get_prop bind]. rewrite He. cbn [bind].
  apply String.eqb_neq in Hne. rewrite Hne, Hpw. cbn [negb orb].
  rewrite Hdb. cbn [bind].
  destruct (signInWithPassword idp _ _); reflexivity.
Qed.

(** Past its checks, [handleSignup] is decided by the provider. *)
Lemma handleSignup_checked (env : environment) (t : Z)
  (idp : identity_provider) (req : request) (o : obj) (em nm : string) :
  req_body req = Some (JObj o) ->
  signup_input o em nm ->
  getDatabase env = Return tt ->
  handleSignup env t idp req
  = let password := lookup "password" o in
    let calls := [SignUp em password nm] in
    let failed :=
      mkResponse 500 (failure "Signup failed. Please try again.") in
    match create_account (signUp idp em password nm) with
    | Throw _ => (failed, calls)
    | Return (inr conflict) => (conflict, calls)
    | Return (inl userId) =>
        match generateToken env t userId em with
        | Throw _ => (failed, calls)
        | Return token =>
            (mkResponse 200
               (JObj [("success", JBool true);
                      ("token", JStr token);
                      ("user", user_json (Some (JStr userId))
                                 (Some (JStr em)) (Some (JStr nm)))]),
             calls)
        end
    end.
Proof.
  intros Hbody
    (e & n & He & Hn & _ & _ & _ & -> & -> & Hne & Hat & Hpw & Hlen & Hnm) Hdb.
  unfold handleSignup. rewrite Hbody. cbn [get_prop bind].
  rewrite He. cbn [bind]. rewrite Hn. cbn [bind].
  apply String.eqb_neq in Hne, Hnm.
  rewrite Hne, Hat, Hpw, Hlen, Hnm. cbn [negb orb].
  rewrite Hdb. cbn [bind]. reflexivity.
Qed.

End WithRuntime.

End AuthEndpointFacts.

Module AuthEndpointProperties.
Import Auth Database AuthEndpoint AuthFacts AuthEndpointFacts.

Definition signed_in (token : string) (id email : string)
  (name : option json) : response :=
  mkResponse 200
    (JObj [("success", JBool true);
           ("token", JStr token);
           ("user", user_json (Some (JStr id)) (Some (JStr email)) name)]).

Lemma getUser_returns (svc : service) (userId : string) :
  exists r, getUser svc userId = Return r.
Proof.
  unfold getUser, try_catch.
  destruct (single svc _); eexists; reflexivity.
Qed.

Lemma before_expiry (t0 t : Z) :
  t < (seconds t0 + 7 * 24 * 60 * 60) * 1000 ->
  (seconds t0 + 7 * 24 * 60 * 60 <=? seconds t) = false.
Proof.
  intros Ht. apply Z.leb_gt. unfold seconds at 1.
  apply Z.div_lt_upper_bound; lia.
Qed.

(** A token issued under a configured secret verifies until its expiry. *)
Lemma issued_token_verifies {J : JwtLib} (env : environment)
  (secret : string) (t0 : Z) (userId email : string) :
  JWT_SECRET env = Some secret -> secret <> "" ->
  exists token,
    generateToken env t0 userId email = Return token
    /\ forall req t,
         t < (seconds t0 + 7 * 24 * 60 * 60) * 1000 ->
         verifyToken env t (bearer token req)
         = Return {| auth_user_id := userId; auth_email := email |}.
Proof.
  intros Hs Hne. eexists.
  split; [apply generateToken_configured; eassumption |].
  intros req t Ht. unfold verifyToken.
  rewrite (verifyToken_try_signed env secret) by assumption.
  cbn [exp user_id Auth.email]. rewrite (before_expiry t0 t Ht). reflexivity.
Qed.

(** X22 (login does not tell why it failed).  Past the field checks, for
    an email that is ASCII text, whenever the provider does not return a user, whatever error it
    reports, the login is answered with the one 401 "Invalid email or
    password" response. *)
Theorem login_failures_are_uniform {E : Engine} {J : JwtLib}
  (env : environment) (t : Z) (svc : service) (idp : identity_provider)
  (req : request) (o : obj) (em : string) :
  req_body req = Some (JObj o) ->
  login_input o em ->
  getDatabase env = Return tt ->
  (forall id, signInWithPassword idp em (lookup "password" o) <> IdpUser id) ->
  handleLogin env t svc idp req
  = (invalid_credentials, [SignIn em (lookup "password" o)]).
Proof.
  intros Hbody Hin Hdb Hno.
  rewrite (handleLogin_checked env t svc idp req o em) by assumption.
  cbv zeta.
  destruct (signInWithPassword idp em (lookup "password" o)) as [id | |];
    [exfalso; eapply Hno; reflexivity | reflexivity | reflexivity].
Qed.

(** An unknown email and a wrong password are answered alike. *)
Lemma login_failures_are_uniform_witness :
  let E := Reference.engine [] in
  let J := ReferenceFacts.jwt in
  let unknown := [("email", JStr "zed@example.com");
                  ("password", JStr "secret1")] in
  let wrong := [("email", JStr " Ana@Example.com ");
                ("password", JStr "letmein")] in
  fst (handleLogin Fixture.env Fixture.later Fixture.garden provider
         (post "/api/auth/login" unknown))
  = invalid_credentials
  /\ fst (handleLogin Fixture.env Fixture.later Fixture.garden provider
            (post "/api/auth/login" wrong))
     = invalid_credentials.
Proof.
  intros E J unknown wrong. split.
  - rewrite (login_failures_are_uniform Fixture.env Fixture.later
               Fixture.garden provider (post "/api/auth/login" unknown)
               unknown "zed@example.com");
      [reflexivity | reflexivity | | reflexivity | discriminate].
    exists "zed@example.com".
    split; [reflexivity |]. split; [reflexivity |]. split; [reflexivity |].
    split; [discriminate | reflexivity].
  - rewrite (login_failures_are_uniform Fixture.env Fixture.later
               Fixture.garden provider (post "/api/auth/login" wrong)
               wrong "ana@example.com");
      [reflexivity | reflexivity | | reflexivity | discriminate].
    exists " Ana@Example.com ".
    split; [reflexivity |]. split; [reflexivity |]. split; [reflexivity |].
    split; [discriminate | reflexivity].
Defined.

(** X23 (a login issues a token).  Past the field checks, for an email
    that is ASCII text, when the provider returns a user and a secret is
    configured, the login is
    answered 200 with a token that verifies, until seven days later, to
    the provider's user id and the trimmed, lower-cased email; the name
    returned is the profile's, and "User" when no profile can be read. *)
Theorem login_issues_token {E : Engine} {J : JwtLib} (env : environment)
  (secret : string) (t : Z) (svc : service) (idp : identity_provider)
  (req : request) (o : obj) (em userId : string) :
  req_body req = Some (JObj o) ->
  login_input o em ->
  getDatabase env = Return tt ->
  JWT_SECRET env = Some secret -> secret <> "" ->
  signInWithPassword idp em (lookup "password" o) = IdpUser userId ->
  exists token name,
    handleLogin env t svc idp req
    = (signed_in token userId em name, [SignIn em (lookup "password" o)])
    /\ (forall req' t',
          t' < (seconds t + 7 * 24 * 60 * 60) * 1000 ->
          verifyToken env t' (bearer token req')
          = Return {| auth_user_id := userId; auth_email := em |})
    /\ (getUser svc userId = Return None -> name = Some (JStr "User"))
    /\ (forall row,
          getUser svc userId = Return (Some row) ->
          name = lookup "name" row).
Proof.
  intros Hbody Hin Hdb Hs Hne Hidp.
  rewrite (handleLogin_checked env t svc idp req o em) by assumption.
  cbv zeta. rewrite Hidp.
  destruct (getUser_returns svc userId) as [userData ->].
  destruct (issued_token_verifies env secret t userId em Hs Hne)
    as (token & -> & Hver).
  exists token. eexists. split; [reflexivity |].
  split; [exact Hver |].
  split; [intros H; injection H as -> | intros row H; injection H as ->];
    reflexivity.
Qed.

Lemma login_issues_token_witness :
  let E := Reference.engine [] in
  let J := ReferenceFacts.jwt in
  let o := [("email", JStr " Ana@Example.com ");
            ("password", JStr "secret1")] in
  exists token,
    fst (handleLogin Fixture.env Fixture.later Fixture.garden provider
           (post "/api/auth/login" o))
    = signed_in token "a11ce" "ana@example.com" (Some (JStr "Ana"))
    /\ verifyToken Fixture.env Fixture.later
         (bearer token AuthClaims.blank_request)
       = Return {| auth_user_id := "a11ce";
                   auth_email := "ana@example.com" |}.
Proof.
  intros E J o.
  destruct (login_issues_token Fixture.env "correct horse battery staple"
              Fixture.later Fixture.garden provider
              (post "/api/auth/login" o) o "ana@example.com" "a11ce")
    as (token & name & Hlogin & Hver & _ & Hname);
    [reflexivity | | reflexivity | reflexivity | discriminate | reflexivity |].
  - exists " Ana@Example.com ".
    split; [reflexivity |]. split; [reflexivity |]. split; [reflexivity |].
    split; [discriminate | reflexivity].
  - exists token. split.
    + rewrite Hlogin. cbn [fst]. rewrite (Hname Fixture.ana eq_refl).
      reflexivity.
    + apply Hver. vm_compute. reflexivity.
Defined.



(** X25 (signup checks its fields first).  Let the email, the password
    and the name of a signup be ASCII text.  When the email, trimmed and
    lower-cased, is empty or has no "@", the signup is answered 400 "Valid
    email is required"; otherwise, when the password is absent, empty or
    shorter than 6, 400 "Password must be at least 6 characters";
    otherwise, when the name is blank, 400 "Name is required".  In none of
    these cases is the provider asked. *)
Theorem signup_checks_fields {E : Engine} {R : Relational} {J : JwtLib}
  (env : environment) (t : Z) (idp : identity_provider) (req : request)
  (o : obj) (e n : string) :
  req_body req = Some (JObj o) ->
  text_or_empty (lookup "email" o) "trim" = Return e ->
  text_or_empty (lookup "name" o) "trim" = Return n ->
  Str.is_ascii e = true ->
  Str.is_ascii n = true ->
  ascii_text (lookup "password" o) ->
  let em := Str.toLowerCase (Str.trim e) in
  let short :=
    negb (truthy (lookup "password" o))
    || lt_int (length_of (lookup "password" o)) 6 in
  (em = "" \/ Str.includes "@" em = false ->
   handleSignup env t idp req
   = (mkResponse 400 (failure "Valid email is required"), []))
  /\ (em <> "" -> Str.includes "@" em = true -> short = true ->
      handleSignup env t idp req
      = (mkResponse 400 (failure "Password must be at least 6 characters"),
         []))
  /\ (em <> "" -> Str.includes "@" em = true -> short = false ->
      Str.trim n = "" ->
      handleSignup env t idp req
      = (mkResponse 400 (failure "Name is required"), [])).
Proof.
  intros Hbody He Hn _ _ _ em short.
  split; [| split].
  - intros Hbad. unfold handleSignup. rewrite Hbody. cbn [get_prop bind].
    rewrite He. cbn [bind]. rewrite Hn. cbn [bind]. fold em.
    destruct Hbad as [-> | ->]; [reflexivity |].
    cbn [negb]. rewrite orb_true_r. reflexivity.
  - intros Hem Hat Hshort. unfold handleSignup. rewrite Hbody.
    cbn [get_prop bind]. rewrite He. cbn [bind]. rewrite Hn. cbn [bind].
    fold em. fold short. apply String.eqb_neq in Hem.
    rewrite Hem, Hat, Hshort. reflexivity.
  - intros Hem Hat Hshort Hnm. unfold handleSignup. rewrite Hbody.
    cbn [get_prop bind]. rewrite He. cbn [bind]. rewrite Hn. cbn [bind].
    fold em. fold short. apply String.eqb_neq in Hem.
    rewrite Hem, Hat, Hshort, Hnm. reflexivity.
Qed.

Lemma signup_checks_fields_witness :
  let E := Reference.engine [] in
  let R := relational in
  let J := ReferenceFacts.jwt in
  let o := [("email", JStr "ben@example.com"); ("password", JStr "12345");
            ("name", JStr "Ben")] in
  handleSignup Fixture.env Fixture.later provider (post "/api/auth/signup" o)
  = (mkResponse 400 (failure "Password must be at least 6 characters"), []).
Proof.
  intros E R J o.
  destruct (signup_checks_fields Fixture.env Fixture.later provider
              (post "/api/auth/signup" o) o "ben@example.com" "Ben")
    as (_ & Hshort & _);
    [reflexivity | reflexivity | reflexivity | reflexivity | reflexivity
     | apply ascii_text_of; reflexivity |].
  apply Hshort; [discriminate | reflexivity | reflexivity].
Defined.

End AuthEndpointProperties.

Module SessionProperties.
Import Auth Database AuthEndpoint AuthFacts AuthEndpointFacts
       AuthEndpointProperties.

Definition already_registered : response :=
  mkResponse 409 (failure "Email already registered. Please login instead.").

Definition signup_failed : response :=
  mkResponse 500 (failure "Signup failed. Please try again.").

(** The provider's message speaks of an existing account. *)
Definition speaks_of_duplicate (message : string) : bool :=
  Str.includes "already" (Str.toLowerCase message)
  || Str.includes "exists" (Str.toLowerCase message).

(** X26 (signup failures).  Past the field checks, for an email, a
    password and a name that are ASCII text, a provider error whose
    message, lower-cased, contains "already" or "exists" is answered 409
    "Email already registered. Please login instead."; any other provider
    error, and a reply without a user, is answered 500 "Signup failed.
    Please try again.", without the provider's text. *)
Theorem signup_failure_responses {E : Engine} {R : Relational} {J : JwtLib}
  (env : environment) (t : Z) (idp : identity_provider) (req : request)
  (o : obj) (em nm : string) :
  req_body req = Some (JObj o) ->
  signup_input o em nm ->
  getDatabase env = Return tt ->
  let reply := signUp idp em (lookup "password" o) nm in
  let calls := [SignUp em (lookup "password" o) nm] in
  (forall message,
      reply = IdpFailed message -> speaks_of_duplicate message = true ->
      handleSignup env t idp req = (already_registered, calls))
  /\ (forall message,
        reply = IdpFailed message -> speaks_of_duplicate message = false ->
        handleSignup env t idp req = (signup_failed, calls))
  /\ (reply = IdpNoUser ->
      handleSignup env t idp req = (signup_failed, calls)).
Proof.
  intros Hbody Hin Hdb reply calls.
  rewrite (handleSignup_checked env t idp req o em nm) by assumption.
  cbv zeta. fold reply. unfold speaks_of_duplicate.
  split; [| split].
  - intros message -> Hdup. unfold create_account. cbn [err_message Error].
    rewrite Hdup. reflexivity.
  - intros message -> Hdup. unfold create_account. cbn [err_message Error].
    rewrite Hdup. reflexivity.
  - intros ->. reflexivity.
Qed.

Lemma signup_failure_responses_witness :
  let E := Reference.engine [] in
  let R := relational in
  let J := ReferenceFacts.jwt in
  let o := [("email", JStr "Ana@example.com"); ("password", JStr "secret1");
            ("name", JStr "Ana")] in
  fst (handleSignup Fixture.env Fixture.later provider
         (post "/api/auth/signup" o))
  = already_registered.
Proof.
  intros E R J o.
  destruct (signup_failure_responses Fixture.env Fixture.later provider
              (post "/api/auth/signup" o) o "ana@example.com" "Ana")
    as (Hdup & _); [reflexivity | | reflexivity |].
  - exists "Ana@example.com", "Ana".
    repeat (split; [reflexivity || discriminate
                    || (apply ascii_text_of; reflexivity) |]).
    discriminate.
  - rewrite (Hdup "User already registered"); reflexivity.
Defined.

(** X27 (a signup issues a token).  Past the field checks, for an email,
    a password and a name that are ASCII text, when the provider returns
    the new user and a secret is configured, the signup
    is answered 200 with the user's id, the trimmed, lower-cased email and
    the trimmed name, and a token that verifies, until seven days later,
    to that id and email; the provider was asked once, with these
    values. *)
Theorem signup_issues_token {E : Engine} {R : Relational} {J : JwtLib}
  (env : environment) (secret : string) (t : Z) (idp : identity_provider)
  (req : request) (o : obj) (em nm userId : string) :
  req_body req = Some (JObj o) ->
  signup_input o em nm ->
  getDatabase env = Return tt ->
  JWT_SECRET env = Some secret -> secret <> "" ->
  signUp idp em (lookup "password" o) nm = IdpUser userId ->
  exists token,
    handleSignup env t idp req
    = (signed_in token userId em (Some (JStr nm)),
       [SignUp em (lookup "password" o) nm])
    /\ forall req' t',
         t' < (seconds t + 7 * 24 * 60 * 60) * 1000 ->
         verifyToken env t' (bearer token req')
         = Return {| auth_user_id := userId; auth_email := em |}.
Proof.
  intros Hbody Hin Hdb Hs Hne Hidp.
  rewrite (handleSignup_checked env t idp req o em nm) by assumption.
  cbv zeta. rewrite Hidp. cbn [create_account].
  destruct (issued_token_verifies env secret t userId em Hs Hne)
    as (token & -> & Hver).
  exists token. split; [reflexivity | exact Hver].
Qed.

Lemma signup_issues_token_witness :
  let E := Reference.engine [] in
  let R := relational in
  let J := ReferenceFacts.jwt in
  let o := [("email", JStr "  Cy@Example.COM"); ("password", JStr "secret1");
            ("name", JStr " Cy ")] in
  exists token,
    fst (handleSignup Fixture.env Fixture.later provider
           (post "/api/auth/signup" o))
    = signed_in token "c0ffee" "cy@example.com" (Some (JStr "Cy"))
    /\ verifyToken Fixture.env Fixture.later
         (bearer token AuthClaims.blank_request)
       = Return {| auth_user_id := "c0ffee";
                   auth_email := "cy@example.com" |}.
Proof.
  intros E R J o.
  destruct (signup_issues_token Fixture.env "correct horse battery staple"
              Fixture.later provider (post "/api/auth/signup" o) o
              "cy@example.com" "Cy" "c0ffee")
    as (token & Hsign & Hver);
    [reflexivity | | reflexivity | reflexivity | discriminate | reflexivity |].
  - exists "  Cy@Example.COM", " Cy ".
    repeat (split; [reflexivity || discriminate
                    || (apply ascii_text_of; reflexivity) |]).
    discriminate.
  - exists token. split; [rewrite Hsign; reflexivity |].
    apply Hver. vm_compute. reflexivity.
Defined.

(** X28 (refresh).  A request whose token verifies is answered 200 with a
    new token that verifies to the same subject until seven days after
    the refresh; a request whose token does not verify is answered 401
    with the verification error's text. *)
Theorem refresh_renews_token {J : JwtLib} (env : environment)
  (secret : string) (t : Z) (req : request) :
  JWT_SECRET env = Some secret -> secret <> "" ->
  (forall a,
      verifyToken env t req = Return a ->
      exists token,
        handleRefresh env t req
        = mkResponse 200
            (JObj [("success", JBool true); ("token", JStr token)])
        /\ forall req' t',
             t' < (seconds t + 7 * 24 * 60 * 60) * 1000 ->
             verifyToken env t' (bearer token req') = Return a)
  /\ (forall e,
        verifyToken env t req = Throw e ->
        handleRefresh env t req = mkResponse 401 (failure (err_message e))).
Proof.
  intros Hs Hne. split.
  - intros [userId email] Hv. unfold handleRefresh. rewrite Hv.
    cbn [auth_user_id auth_email].
    destruct (issued_token_verifies env secret t userId email Hs Hne)
      as (token & -> & Hver).
    exists token. split; [reflexivity | exact Hver].
  - intros e Hv. unfold handleRefresh. rewrite Hv. reflexivity.
Qed.

(** A token about to expire is exchanged for one that still verifies six
    days after the old one has expired. *)
Lemma refresh_renews_token_witness :
  let J := ReferenceFacts.jwt in
  let old := Fixture.token_for "a11ce" "ana@example.com" in
  let at_refresh := Fixture.issued + 604800000 - 1000 in
  exists token,
    handleRefresh Fixture.env at_refresh (bearer old AuthClaims.blank_request)
    = mkResponse 200 (JObj [("success", JBool true); ("token", JStr token)])
    /\ verifyToken Fixture.env (at_refresh + 518400000)
         (bearer token AuthClaims.blank_request)
       = Return {| auth_user_id := "a11ce";
                   auth_email := "ana@example.com" |}.
Proof.
  intros J old at_refresh.
  destruct (refresh_renews_token Fixture.env "correct horse battery staple"
              at_refresh (bearer old AuthClaims.blank_request))
    as [Hok _]; [reflexivity | discriminate |].
  destruct (Hok {| auth_user_id := "a11ce"; auth_email := "ana@example.com" |})
    as (token & Hrefresh & Hver); [vm_compute; reflexivity |].
  exists token. split; [exact Hrefresh |].
  apply Hver. vm_compute. reflexivity.
Defined.

(** X29 (the verify route).  For a token that verifies and a configured
    client: when the data service holds exactly one profile with the
    subject's id, the route answers 200 with that profile's id, email and
    name; when it holds none, and also when it cannot be reached, the
    route answers 404 "User not found". *)
Theorem verify_route_reads_profile {J : JwtLib} (env : environment) (t : Z)
  (svc : service) (req : request) (a : auth_data) :
  verifyToken env t req = Return a ->
  getDatabase env = Return tt ->
  (forall row,
      outage svc = None ->
      eq "id" (Some (JStr (auth_user_id a))) (users svc) = [row] ->
      handleVerify env t svc req
      = mkResponse 200
          (JObj [("success", JBool true);
                 ("user", user_json (lookup "id" row) (lookup "email" row)
                            (lookup "name" row))]))
  /\ (outage svc = None ->
      eq "id" (Some (JStr (auth_user_id a))) (users svc) = [] ->
      handleVerify env t svc req
      = mkResponse 404 (failure "User not found"))
  /\ (forall msg,
        outage svc = Some msg ->
        handleVerify env t svc req
        = mkResponse 404 (failure "User not found")).
Proof.
  intros Hv Hdb. unfold handleVerify. rewrite Hv, Hdb. cbn [bind].
  unfold getUser, single, try_catch.
  split; [| split].
  - intros row -> ->. reflexivity.
  - intros -> ->. reflexivity.
  - intros msg ->. reflexivity.
Qed.

Lemma verify_route_reads_profile_witness :
  let J := ReferenceFacts.jwt in
  let req := Fixture.as_ana "GET" "/api/auth/verify" None in
  handleVerify Fixture.env Fixture.later Fixture.garden req
  = mkResponse 200
      (JObj [("success", JBool true);
             ("user", JObj [("id", JStr "a11ce");
                            ("email", JStr "ana@example.com");
                            ("name", JStr "Ana")])])
  /\ handleVerify Fixture.env Fixture.later Fixture.unreachable req
     = mkResponse 404 (failure "User not found").
Proof.
  intros J req.
  destruct (verify_route_reads_profile Fixture.env Fixture.later
              Fixture.garden req
              {| auth_user_id := "a11ce"; auth_email := "ana@example.com" |})
    as (Hfound & _); [FixtureFacts.run | reflexivity |].
  destruct (verify_route_reads_profile Fixture.env Fixture.later
              Fixture.unreachable req
              {| auth_user_id := "a11ce"; auth_email := "ana@example.com" |})
    as (_ & _ & Hdown); [FixtureFacts.run | reflexivity |].
  split.
  - apply (Hfound Fixture.ana); reflexivity.
  - apply (Hdown "fetch failed"); reflexivity.
Defined.

End SessionProperties.

(* ================================================================== *)
(** * The due date of a new plant *)
(* ================================================================== *)

Module WateringFacts.
Import JsDate Database StoreFacts CreateFacts.

(** [v] is a number with the integral value [n]. *)
Definition whole_number (v : option json) (n : Z) : Prop :=
  exists q, v = Some (JNum (Finite q)) /\ integral q = true /\ Qfloor q = n.

Lemma whole_number_num (n : Z) : whole_number (Some (num n)) n.
Proof.
  exists (inject_Z n). split; [reflexivity |].
  unfold integral. rewrite Qfloor_Z.
  split; [apply Qeq_bool_iff; reflexivity | reflexivity].
Qed.

Lemma day_of_plus (t n : Z) : day_of (t + n * msPerDay) = day_of t + n.
Proof. unfold day_of. apply Z.div_add. unfold msPerDay. lia. Qed.

Section WithRuntime.
Context {E : Engine} {D : DateLib}.

(** The derived date, when it can be derived: the day of [last] moved by
    [n] days, for a clock whose offset is the same at both ends. *)
Lemma next_watering_whole (last days : option json) (t n : Z) (due : string) :
  Date_new last = Some t ->
  whole_number days n ->
  UTC (LocalTime t + n * msPerDay) = t + n * msPerDay ->
  next_watering last days = Return due ->
  due = iso_day (day_of t + n).
Proof.
  intros Ht (q & -> & Hint & Hn) Hzone.
  unfold next_watering, setDate_plus. rewrite Ht, Hint, Hn, Hzone.
  unfold timeClip. destruct (Z.abs (t + n * msPerDay) <=? maxTime);
    [| discriminate].
  intros H; injection H as <-. unfold iso_date. rewrite day_of_plus.
  reflexivity.
Qed.

(** A create that carries a truthy last_watered and succeeds has derived
    a date and sent it with the last_watered. *)
Lemma saveToVana_watered (svc svc' : service) (userId : string) (o : obj)
  (id : json) :
  saveToVana svc userId (Some (JObj o)) = (Return id, svc') ->
  truthy (lookup "last_watered" o) = true ->
  exists due v,
    lookup "last_watered" o = Some v
    /\ next_watering (Some v)
         (or_else (lookup "watering_frequency_days" o) (num 7)) = Return due
    /\ svc' = with_plants svc
                (plants svc
                 ++ [inserted svc
                       (set "next_watering_due" (JStr due)
                          (set "last_watered" v (base userId o)))]).
Proof.
  unfold saveToVana. cbn [get_prop bind]. fold (base userId o).
  intros Hsave Hlw. rewrite Hlw in Hsave.
  destruct (lookup "last_watered" o) as [v |]; [| discriminate].
  destruct (next_watering (Some v) _) as [due |] eqn:Hdue;
    cbn [bind] in Hsave; [| discriminate].
  unfold insert in Hsave. destruct (outage svc); [discriminate |].
  match type of Hsave with
  | context [unknown_column ?d] => destruct (unknown_column d)
  end; [discriminate |].
  exists due, v. split; [reflexivity |]. split; [exact Hdue |].
  injection Hsave as _ <-. reflexivity.
Qed.

End WithRuntime.

End WateringFacts.

Module WateringProperties.
Import JsDate Database StoreFacts CreateFacts WateringFacts.

(** X30 (the due date of a new plant).  When a create that carries a
    last_watered succeeds, the stored row holds that last_watered and, as
    next_watering_due, the date of the day of last_watered moved by the
    whole number of watering_frequency_days, 7 when the body gives none or
    zero; this for a process whose clock has the same offset at both
    instants, as one running in UTC has.  The frequency itself is not
    stored. *)
Theorem create_derives_due_date {E : Engine} {D : DateLib}
  (svc svc' : service) (userId : string) (o : obj) (id : json) (t n : Z) :
  saveToVana svc userId (Some (JObj o)) = (Return id, svc') ->
  truthy (lookup "last_watered" o) = true ->
  Date_new (lookup "last_watered" o) = Some t ->
  whole_number (or_else (lookup "watering_frequency_days" o) (num 7)) n ->
  UTC (LocalTime t + n * msPerDay) = t + n * msPerDay ->
  exists row,
    plants svc' = (plants svc ++ [row])%list
    /\ lookup "last_watered" row = lookup "last_watered" o
    /\ lookup "next_watering_due" row = Some (JStr (iso_day (day_of t + n)))
    /\ lookup "watering_frequency_days" row = None.
Proof.
  intros Hsave Hlw Ht Hn Hzone.
  destruct (saveToVana_watered svc svc' userId o id Hsave Hlw)
    as (due & v & Hv & Hdue & ->).
  rewrite Hv in Ht.
  rewrite (next_watering_whole _ _ t n due Ht Hn Hzone Hdue).
  eexists. split; [reflexivity |].
  rewrite !lookup_inserted.
  rewrite lookup_set_eq.
  rewrite (lookup_set_ne "next_watering_due" "last_watered") by discriminate.
  rewrite lookup_set_eq, Hv.
  split; [reflexivity |]. split; reflexivity.
Qed.

(** Ben's tulsi, watered on 2025-11-01 and to be watered every third day,
    is due on 2025-11-04; without a frequency it is due on 2025-11-08. *)
Lemma create_derives_due_date_witness :
  let E := Reference.engine [] in
  let D := Reference.dates in
  let tulsi (frequency : obj) : obj :=
    ([("name", JStr "Tulsi"); ("species", JStr "Ocimum");
      ("last_watered", JStr "2025-11-01T10:00:00Z")] ++ frequency)%list in
  let due body :=
    map (lookup "next_watering_due")
        (plants (snd (saveToVana Fixture.garden "b0b" (Some (JObj body))))) in
  due (tulsi [("watering_frequency_days", num 3)])
  = [Some (JStr "2025-11-08"); Some (JStr "2025-11-04")]
  /\ due (tulsi [])
     = [Some (JStr "2025-11-08"); Some (JStr "2025-11-08")].
Proof.
  intros E D tulsi due.
  assert (Hrun : forall frequency n,
            whole_number
              (or_else (lookup "watering_frequency_days" (tulsi frequency))
                 (num 7)) n ->
            fst (saveToVana Fixture.garden "b0b"
                   (Some (JObj (tulsi frequency))))
            = Return (JStr "f00d-02") ->
            due (tulsi frequency)
            = [Some (JStr "2025-11-08");
               Some (JStr (iso_day (day_of 1761991200000 + n)))]).
  { intros frequency n Hn Hfst.
    destruct (create_derives_due_date Fixture.garden
                (snd (saveToVana Fixture.garden "b0b"
                        (Some (JObj (tulsi frequency)))))
                "b0b" (tulsi frequency) (JStr "f00d-02") 1761991200000 n)
      as (row & Hrows & _ & Hdue & _);
      [rewrite <- Hfst; apply surjective_pairing | reflexivity
       | vm_compute; reflexivity | exact Hn | reflexivity |].
    unfold due. rewrite Hrows. cbn [map app Fixture.garden plants].
    rewrite Hdue. reflexivity. }
  split.
  - apply (Hrun [("watering_frequency_days", num 3)] 3);
      [apply whole_number_num | vm_compute; reflexivity].
  - apply (Hrun [] 7); [apply whole_number_num | vm_compute; reflexivity].
Defined.

End WateringProperties.
